(** * eolearn.io.local_io: exporting a tile attribute to a GeoTIFF and
      reading a GeoTIFF into a tile

    A shallow embedding of [ExportToTiff] and [ReadFromTiff]
    (src/io/eolearn/io/local_io.py).

    - Python values that may appear in a band or date selector are the
      constructors of [pyval]; a selector is a list, a tuple or any other value.
    - Exceptions are values of [exn]; a computation that may raise has type
      [result A].
    - A numpy array is its shape together with its elements in row-major
      (C) order, as numpy stores a contiguous array.
    - Python floats are IEEE binary64 numbers: Rocq's primitive floats.
    - A naive [datetime.datetime] is the integer number of microseconds since
      the epoch; only the order of date-times is used by the code.
    - The collaborators (rasterio, pyproj, sentinelhub) are the fields of the
      classes [ExportEnv] and [ImportEnv]. *)

From Stdlib Require Import ZArith List Lia Floats String.
From stdpp Require Import base option list gmap strings.
Import ListNotations.

(** ** Exceptions and results *)

Inductive pytype := TInt | TBool | TStr | TDatetime | TNone | TFloat.

#[global] Instance pytype_eq_dec : EqDecision pytype.
Proof. solve_decision. Defined.

Inductive pyval :=
| PyInt (z : Z)
| PyBool (b : bool)
| PyStr (s : string)
| PyDatetime (t : Z)
| PyNone
| PyFloat (x : float).

(** [type(v)] *)
Definition type_of (v : pyval) : pytype :=
  match v with
  | PyInt _ => TInt
  | PyBool _ => TBool
  | PyStr _ => TStr
  | PyDatetime _ => TDatetime
  | PyNone => TNone
  | PyFloat _ => TFloat
  end.

(** [isinstance(v, int)]: [bool] is a subclass of [int]. *)
Definition isinstance_int (v : pyval) : bool :=
  match v with
  | PyInt _ | PyBool _ => true
  | _ => false
  end.

(** The value of [band_indices] or [date_indices]. *)
Inductive selector :=
| SelList (l : list pyval)
| SelTuple (l : list pyval)
| SelOther (v : pyval).

(** The text of a [ValueError]; the four messages of the exporter carry the
    selector they are formatted with. *)
Inductive message :=
| InvalidListExpectedIntegers (v : selector)
| InvalidTupleExpectedIntegers (v : selector)
| InvalidTupleExpectedIntsStringsDatetimes (v : selector)
| InvalidExpectedTupleOrList (v : selector)
| NotEnoughOrTooManyValuesToUnpack
| NegativeDimensions
| CannotReshape
| CannotConvertNaN
| LibraryMessage (s : string).

Inductive exn :=
| ValueError (m : message)
| IndexError
| KeyError
| TypeError
| ZeroDivisionError
| OverflowError
| LibraryError (name : string).

Inductive result (A : Type) :=
| Ok (a : A)
| Raise (e : exn).
Arguments Ok {A} a.
Arguments Raise {A} e.

#[global] Instance result_ret : MRet result := fun A a => Ok a.

#[global] Instance result_bind : MBind result := fun A B k r =>
  match r with
  | Ok a => k a
  | Raise e => Raise e
  end.

(** Run a fallible step on every element, left to right, stopping at the
    first exception. *)
Fixpoint mapM {A B} (f : A -> result B) (l : list A) : result (list B) :=
  match l with
  | [] => Ok []
  | x :: l' => y ← f x; ys ← mapM f l'; Ok (y :: ys)
  end.

(** An invalid-configuration error that names the selector [s]. *)
Definition names_selector (e : exn) (s : selector) : Prop :=
  match e with
  | ValueError (InvalidListExpectedIntegers v)
  | ValueError (InvalidTupleExpectedIntegers v)
  | ValueError (InvalidTupleExpectedIntsStringsDatetimes v)
  | ValueError (InvalidExpectedTupleOrList v) => v = s
  | _ => False
  end.

(** ** numpy arrays *)

Module np.

Record ndarray := mk { shape : list nat; data : list Z }.

Definition prod (s : list nat) : nat := fold_right Nat.mul 1 s.

Definition ndim (a : ndarray) : nat := length (shape a).

(** The elements fill the shape. *)
Definition wf (a : ndarray) : Prop := length (data a) = prod (shape a).

(** Row-major offset of a multi-index. *)
Definition offset (s ix : list nat) : nat :=
  fold_left (fun (acc : nat) (di : nat * nat) => acc * fst di + snd di) (combine s ix) 0.

Definition in_bounds (s ix : list nat) : bool :=
  (length s =? length ix) && forallb (fun di : nat * nat => snd di <? fst di) (combine s ix).

(** [a[i0, ..., ik]] with non-negative indices, one per axis. *)
Definition get (a : ndarray) (ix : list nat) : option Z :=
  if in_bounds (shape a) ix then nth_error (data a) (offset (shape a) ix) else None.

(** [a.shape[-1]] *)
Definition last_dim (a : ndarray) : result nat :=
  match shape a with
  | [] => Raise IndexError
  | d :: s => Ok (List.last s d)
  end.

(** [a.shape[0]] *)
Definition first_dim (a : ndarray) : result nat :=
  match shape a with
  | [] => Raise IndexError
  | d :: _ => Ok d
  end.

(** What [np.array(l)] is when [l] is a list of [int] instances and it is
    used as an index: an empty list gives a float64 array, a list of bools a
    boolean mask, anything else an integer array (True is 1, False is 0). *)
Inductive index :=
| IntIndex (l : list Z)
| BoolIndex (l : list bool)
| FloatIndex.

Definition is_bool (v : pyval) : bool :=
  match v with PyBool _ => true | _ => false end.

Definition as_bool (v : pyval) : bool :=
  match v with PyBool b => b | _ => false end.

Definition as_int (v : pyval) : Z :=
  match v with
  | PyInt z => z
  | PyBool true => 1
  | _ => 0
  end.

Definition array_of_ints (l : list pyval) : index :=
  match l with
  | [] => FloatIndex
  | _ => if forallb is_bool l then BoolIndex (map as_bool l) else IntIndex (map as_int l)
  end.

(** An integer index into an axis of length [n]: negative indices count from
    the end, anything outside [-n, n) is an IndexError. This is numpy's rule for
    an index that fits a signed 64-bit integer; what numpy does with a larger
    Python int (a wrap-around for an array of unsigned 64-bit indices, an
    OverflowError for a scalar index) is not described. *)
Definition normalize_index (n : nat) (i : Z) : result nat :=
  if ((0 <=? i) && (i <? Z.of_nat n))%Z then Ok (Z.to_nat i)
  else if ((- Z.of_nat n <=? i) && (i <? 0))%Z then Ok (Z.to_nat (i + Z.of_nat n))
  else Raise IndexError.

(** [np.nonzero(xs)[0]] for a one-dimensional array: the positions of the
    elements that are true. *)
Definition nonzero {A} (truthy : A -> bool) (xs : list A) : list nat :=
  map fst (List.filter (fun ix : nat * A => truthy (snd ix)) (combine (seq 0 (length xs)) xs)).

(** [np.where(cond, xs, fill)] for one-dimensional [cond] and [xs] of the
    same length and a scalar [fill]. *)
Definition where_ {A} (cond : list bool) (xs : list A) (fill : A) : list A :=
  map (fun cx : bool * A => if fst cx then snd cx else fill) (combine cond xs).

(** The positions along an axis of length [n] that an index array selects. *)
Definition resolve_index (n : nat) (ix : index) : result (list nat) :=
  match ix with
  | FloatIndex => Raise IndexError
  | BoolIndex m =>
      if length m =? n then Ok (nonzero (fun b : bool => b) m) else Raise IndexError
  | IntIndex l => mapM (normalize_index n) l
  end.

(** Gather positions [pos] of the last axis. *)
Definition take_last (a : ndarray) (pos : list nat) : ndarray :=
  let n := List.last (shape a) 0 in
  let outer := prod (removelast (shape a)) in
  mk (removelast (shape a) ++ [length pos])
     (flat_map (fun o => map (fun p => nth (o * n + p) (data a) 0%Z) pos) (seq 0 outer)).

(** Gather positions [pos] of the first axis. *)
Definition take_first (a : ndarray) (pos : list nat) : ndarray :=
  let inner := prod (tl (shape a)) in
  mk (length pos :: tl (shape a))
     (flat_map (fun p => map (fun r => nth (p * inner + r) (data a) 0%Z) (seq 0 inner)) pos).

(** [a[..., ix]] *)
Definition index_last (a : ndarray) (ix : index) : result ndarray :=
  n ← last_dim a;
  pos ← resolve_index n ix;
  Ok (take_last a pos).

(** [a[ix]] *)
Definition index_first (a : ndarray) (ix : index) : result ndarray :=
  n ← first_dim a;
  pos ← resolve_index n ix;
  Ok (take_first a pos).

(** [np.expand_dims(a, axis)] for [axis <= a.ndim] *)
Definition expand_dims (a : ndarray) (axis : nat) : ndarray :=
  mk (firstn axis (shape a) ++ 1 :: skipn axis (shape a)) (data a).

(** [np.moveaxis(a, -1, 1)] followed by a copy in C order, for a
    four-dimensional [a]: axes (t, y, x, b) become (t, b, y, x). *)
Definition moveaxis_last_to_1 (a : ndarray) : ndarray :=
  match shape a with
  | [T; H; W; B] =>
      mk [T; B; H; W]
         (flat_map (fun t =>
          flat_map (fun b =>
          flat_map (fun y =>
          map (fun x => nth (((t * H + y) * W + x) * B + b) (data a) 0%Z)
              (seq 0 W)) (seq 0 H)) (seq 0 B)) (seq 0 T))
  | _ => a
  end.

(** [np.moveaxis(a, 0, -1)] followed by a copy in C order, for a
    three-dimensional [a]: axes (b, i, j) become (i, j, b). *)
Definition moveaxis_first_to_last (a : ndarray) : ndarray :=
  match shape a with
  | [B; P; Q] =>
      mk [P; Q; B]
         (flat_map (fun i =>
          flat_map (fun j =>
          map (fun b => nth ((b * P + i) * Q + j) (data a) 0%Z)
              (seq 0 B)) (seq 0 Q)) (seq 0 P))
  | _ => a
  end.

(** [a.reshape(s)]: the elements stay in C order. *)
Definition reshape (a : ndarray) (s : list nat) : result ndarray :=
  if prod s =? prod (shape a) then Ok (mk s (data a))
  else Raise (ValueError CannotReshape).

(** Integer pixel types and the wrap-around of a C cast to them. *)
Inductive dtype := uint8 | int8 | uint16 | int16 | uint32 | int32 | int64.

Definition bits (t : dtype) : Z :=
  match t with
  | uint8 | int8 => 8
  | uint16 | int16 => 16
  | uint32 | int32 => 32
  | int64 => 64
  end%Z.

Definition signed (t : dtype) : bool :=
  match t with
  | uint8 | uint16 | uint32 => false
  | _ => true
  end.

Definition cast (t : dtype) (z : Z) : Z :=
  let m := (2 ^ bits t)%Z in
  let u := (z mod m)%Z in
  if signed t && (m / 2 <=? u)%Z then (u - m)%Z else u.

(** [a.astype(t)] *)
Definition astype (a : ndarray) (t : dtype) : ndarray :=
  mk (shape a) (map (cast t) (data a)).

(** [np.empty(shape=s)]: a negative dimension is a ValueError. The contents
    are arbitrary; every element the importer keeps is overwritten. *)
Definition empty (s : list Z) : result ndarray :=
  if forallb (fun d => (0 <=? d)%Z) s
  then Ok (mk (map Z.to_nat s) (repeat 0%Z (prod (map Z.to_nat s))))
  else Raise (ValueError NegativeDimensions).

End np.

(** ** Python floats *)

Module pyfloat.

(** [x - y] never raises. *)
Definition sub (x y : float) : float := PrimFloat.sub x y.

(** [x / y] raises ZeroDivisionError when [y] is 0.0 or -0.0. *)
Definition div (x y : float) : result float :=
  if PrimFloat.eqb y 0%float then Raise ZeroDivisionError else Ok (PrimFloat.div x y).

(** [int(x)]: truncation towards zero; an infinity is an OverflowError and
    a NaN a ValueError. *)
Definition int (x : float) : result Z :=
  match Prim2SF x with
  | S754_zero _ => Ok 0%Z
  | S754_infinity _ => Raise OverflowError
  | S754_nan => Raise (ValueError CannotConvertNaN)
  | S754_finite s m e =>
      let v := (if 0 <=? e then Z.pos m * 2 ^ e else Z.pos m / 2 ^ (- e))%Z in
      Ok (if s then (- v)%Z else v)
  end.

End pyfloat.

(** [bool(v)] *)
Definition truthy (v : pyval) : bool :=
  match v with
  | PyInt z => negb (z =? 0)%Z
  | PyBool b => b
  | PyStr s => negb (String.eqb s "")
  | PyDatetime _ => true
  | PyNone => false
  | PyFloat x => negb (PrimFloat.eqb x 0%float)
  end.

(** ** The tile *)

(** Modelled from the spec: the feature categories of [eolearn.core.FeatureType]
    that hold arrays, and the rank of the arrays of each (time x height x width
    x band, height x width x band, time x band, band). The enumeration is
    declared in eolearn.core, which is not part of this module. *)
Inductive FeatureType :=
| DATA | MASK | SCALAR | LABEL
| DATA_TIMELESS | MASK_TIMELESS | SCALAR_TIMELESS | LABEL_TIMELESS.

#[global] Instance FeatureType_eq_dec : EqDecision FeatureType.
Proof. solve_decision. Defined.

Definition FeatureType_code (t : FeatureType) : nat :=
  match t with
  | DATA => 0 | MASK => 1 | SCALAR => 2 | LABEL => 3
  | DATA_TIMELESS => 4 | MASK_TIMELESS => 5 | SCALAR_TIMELESS => 6 | LABEL_TIMELESS => 7
  end.

Definition FeatureType_of_code (n : nat) : option FeatureType :=
  match n with
  | 0 => Some DATA | 1 => Some MASK | 2 => Some SCALAR | 3 => Some LABEL
  | 4 => Some DATA_TIMELESS | 5 => Some MASK_TIMELESS | 6 => Some SCALAR_TIMELESS
  | 7 => Some LABEL_TIMELESS
  | _ => None
  end.

#[global] Program Instance FeatureType_countable : Countable FeatureType :=
  inj_countable FeatureType_code FeatureType_of_code _.
Next Obligation. by intros []. Qed.

Definition FeatureType_ndim (t : FeatureType) : nat :=
  match t with
  | DATA | MASK => 4
  | DATA_TIMELESS | MASK_TIMELESS => 3
  | SCALAR | LABEL => 2
  | SCALAR_TIMELESS | LABEL_TIMELESS => 1
  end.

(** The four categories the exporter brings to rank 4. *)
Definition exportable (t : FeatureType) : bool :=
  match t with
  | DATA | MASK | DATA_TIMELESS | MASK_TIMELESS | SCALAR | SCALAR_TIMELESS => true
  | LABEL | LABEL_TIMELESS => false
  end.

Record BBox := mkBBox {
  min_x : float; min_y : float; max_x : float; max_y : float;
  crs : string }.

Record EOPatch := mkEOPatch {
  features : gmap (FeatureType * string) np.ndarray;
  timestamp : list Z;
  bbox : BBox }.

(** [next(self.feature(eopatch))] followed by
    [eopatch[feature_type][feature_name]]: the feature parser of eolearn.core
    raises a ValueError when the tile does not hold the attribute. *)
Definition get_feature (eopatch : EOPatch) (key : FeatureType * string) : result np.ndarray :=
  match features eopatch !! key with
  | Some a => Ok a
  | None => Raise (ValueError (LibraryMessage "feature was not found in EOPatch"))
  end.

(** [eopatch[feature_type][feature_name] = a] *)
Definition set_feature (eopatch : EOPatch) (key : FeatureType * string) (a : np.ndarray)
  : EOPatch :=
  mkEOPatch (<[key := a]> (features eopatch)) (timestamp eopatch) (bbox eopatch).

(** An affine transform [(a, b, c, d, e, f)]; item 0 is [a], the pixel width, and
    item 4 is [e], the pixel height (negative in a north-up raster). *)
Record Affine := mkAffine {
  af_a : float; af_b : float; af_c : float;
  af_d : float; af_e : float; af_f : float }.

(** ** Raster files *)

Record Profile := mkProfile {
  p_width : nat; p_height : nat; p_count : nat;
  p_dtype : np.dtype; p_nodata : Z;
  p_transform : Affine; p_crs : string }.

(** A file on disk: its profile and its bands in file order, each a
    [height * width] plane in row-major order. File band [k], counted from 1, is
    element [k - 1] of [r_bands]. *)
Record Raster := mkRaster { r_profile : Profile; r_bands : list (list Z) }.

Definition read_band (r : Raster) (k : nat) : option (list Z) :=
  match k with
  | 0 => None
  | S j => nth_error (r_bands r) j
  end.

(** Pixel in row [y] and column [x] of file band [k] (counted from 1). *)
Definition pixel (r : Raster) (k y x : nat) : option Z :=
  match read_band r k with
  | Some plane =>
      if (y <? p_height (r_profile r)) && (x <? p_width (r_profile r))
      then nth_error plane (y * p_width (r_profile r) + x)
      else None
  | None => None
  end.

(** [os.path.join(folder, filename)] on a POSIX system. *)
Definition ends_with_slash (s : string) : bool :=
  match String.length s with
  | 0 => false
  | S n => String.eqb (String.substring n 1 s) "/"
  end.

Definition path_join (folder filename : string) : string :=
  if String.prefix "/" filename then filename
  else if String.eqb folder "" || ends_with_slash folder then (folder ++ filename)%string
  else (folder ++ "/" ++ filename)%string.


(** ** Collaborators *)

(** What the exporter calls outside this module. A call that can fail returns a
    [result]; [open_for_writing] and [write_bands] say whether
    [rasterio.open(path, 'w', ...)] and [dst.write(...)] raise. *)
Class ExportEnv := {
  iso_to_datetime : string -> result Z;
  from_bounds : BBox -> nat -> nat -> result Affine;
  ogc_string : string -> string;
  open_for_writing : string -> Profile -> option exn;
  write_bands : string -> list (list Z) -> option exn }.

(** An opened source raster: [src.transform], [src.crs], [src.bounds.left],
    [src.bounds.top], [src.count] and [src.profile['dtype']]. *)
Record Source := mkSource {
  src_transform : Affine;
  src_crs : string;
  bounds_left : float;
  bounds_top : float;
  src_count : nat;
  src_dtype : np.dtype }.

(** A pixel window [((top, bottom), (left, right))]. *)
Definition Window : Type := (Z * Z) * (Z * Z).

(** What the importer calls outside this module: [rasterio.open(path)],
    pyproj's [transform(Proj(crs1), Proj(crs2), x, y)], and
    [src.read(band, window=window, out=buffer, boundless=True)], which gives the
    value written at each row and column of a buffer of the given shape. *)
Class ImportEnv := {
  rasterio_open : string -> result Source;
  transform : string -> string -> float -> float -> result (float * float);
  src_read : Source -> nat -> Window -> nat * nat -> result (nat -> nat -> Z) }.

(** The files on disk, by the path string they were opened with; two strings
    that name one file are two keys. *)
Abbreviation filesystem := (gmap string Raster).

(** ** ExportToTiff *)

Module ExportToTiff.

Record t := mk {
  feature : FeatureType * string;
  folder : string;
  band_indices : selector;
  date_indices : selector;
  image_dtype : np.dtype;
  no_data_value : Z }.

(** The constructor's defaults: [folder='.'], [band_indices=[0]],
    [date_indices=[0]], [image_dtype=np.uint8], [no_data_value=0]. *)
Definition default (feature : FeatureType * string) : t :=
  mk feature "." (SelList [PyInt 0]) (SelList [PyInt 0]) np.uint8 0.

Definition with_band_indices (self : t) (s : selector) : t :=
  mk (feature self) (folder self) s (date_indices self) (image_dtype self)
     (no_data_value self).

Definition with_date_indices (self : t) (s : selector) : t :=
  mk (feature self) (folder self) (band_indices self) s (image_dtype self)
     (no_data_value self).

(** [np.array(range(n))] *)
Definition arange (n : nat) : list Z := map Z.of_nat (seq 0 n).

(** [(xs >= lo) & (xs <= hi)] *)
Definition between (lo hi : Z) (xs : list Z) : list bool :=
  map (fun x => (lo <=? x)%Z && (x <=? hi)%Z) xs.

(** The index array [np.nonzero(np.where(cond, bands, 0))[0]] of the band
    range. *)
Definition band_range_positions (n : nat) (lo hi : Z) : list nat :=
  let bands := arange n in
  np.nonzero (fun z : Z => negb (z =? 0)%Z) (np.where_ (between lo hi bands) bands 0%Z).

(** The tuple branch tests [tuple(map(type, band_indices)) != (int, int)]: the
    only tuples that pass hold exactly two values whose type is [int] itself. *)
Definition _get_bands_subset (self : t) (array : np.ndarray) : result np.ndarray :=
  n ← np.last_dim array;
  match band_indices self with
  | SelList l =>
      if existsb (fun band => negb (isinstance_int band)) l
      then Raise (ValueError (InvalidListExpectedIntegers (band_indices self)))
      else np.index_last array (np.array_of_ints l)
  | SelTuple l =>
      match l with
      | [PyInt lo; PyInt hi] =>
          np.index_last array (np.IntIndex (map Z.of_nat (band_range_positions n lo hi)))
      | _ => Raise (ValueError (InvalidTupleExpectedIntegers (band_indices self)))
      end
  | SelOther _ => Raise (ValueError (InvalidExpectedTupleOrList (band_indices self)))
  end.

(** [dates[i]] for the timestamp array and a Python int [i]. *)
Definition date_item (dates : list Z) (i : Z) : result Z :=
  k ← np.normalize_index (length dates) i;
  Ok (nth k dates 0%Z).

(** The index array [np.nonzero(np.where(cond, dates, 0))[0]] of the date
    range; [dates] is an array of date-time objects and the fill is the int 0. *)
Definition date_range_positions (dates : list Z) (start_date end_date : Z) : list nat :=
  np.nonzero truthy
    (np.where_ (between start_date end_date dates) (map PyDatetime dates) (PyInt 0)).

Definition _get_dates_subset `{ExportEnv} (self : t) (array : np.ndarray) (dates : list Z)
  : result np.ndarray :=
  match date_indices self with
  | SelList l =>
      if existsb (fun date => negb (isinstance_int date)) l
      then Raise (ValueError (InvalidListExpectedIntegers (date_indices self)))
      else np.index_first array (np.array_of_ints l)
  | SelTuple l =>
      ends ← match l with
             | [PyInt i; PyInt j] =>
                 start_date ← date_item dates i;
                 end_date ← date_item dates j;
                 Ok (start_date, end_date)
             | [PyStr s; PyStr e] =>
                 start_date ← iso_to_datetime s;
                 end_date ← iso_to_datetime e;
                 Ok (start_date, end_date)
             | [PyDatetime s; PyDatetime e] => Ok (s, e)
             | _ => Raise (ValueError
                             (InvalidTupleExpectedIntsStringsDatetimes (date_indices self)))
             end;
      np.index_first array
        (np.IntIndex (map Z.of_nat (date_range_positions dates (fst ends) (snd ends))))
  | SelOther _ => Raise (ValueError (InvalidExpectedTupleOrList (date_indices self)))
  end.

(** [feature_type in [FeatureType.DATA, FeatureType.MASK, FeatureType.SCALAR]] *)
Definition time_dependent (ft : FeatureType) : bool :=
  match ft with
  | DATA | MASK | SCALAR => true
  | _ => false
  end.

(** Lines 101 to 118 of [execute]: the array whose shape is unpacked and that
    is handed to the writer. *)
Definition canonical_array `{ExportEnv} (self : t) (eopatch : EOPatch) : result np.ndarray :=
  let feature_type := fst (feature self) in
  array ← get_feature eopatch (feature self);
  array_sub ← _get_bands_subset self array;
  if time_dependent feature_type then
    array_sub ← _get_dates_subset self array_sub (timestamp eopatch);
    if decide (feature_type = SCALAR)
    then Ok (np.expand_dims (np.expand_dims array_sub 1) 1)
    else Ok array_sub
  else
    let array_sub := np.expand_dims array_sub 0 in
    if decide (feature_type = SCALAR_TIMELESS)
    then Ok (np.expand_dims (np.expand_dims array_sub 1) 1)
    else Ok array_sub.

(** [time_dim, height, width, band_dim = array_sub.shape] *)
Definition unpack_shape (s : list nat) : result (nat * nat * nat * nat) :=
  match s with
  | [time_dim; height; width; band_dim] => Ok (time_dim, height, width, band_dim)
  | _ => Raise (ValueError NotEnoughOrTooManyValuesToUnpack)
  end.

(** The planes of an array of shape [(count, height, width)], in order. *)
Definition planes (count height width : nat) (a : np.ndarray) : list (list Z) :=
  map (fun j => firstn (height * width) (skipn (j * (height * width)) (np.data a)))
      (seq 0 count).

(** [execute]: the value returned or the exception raised, and the files on
    disk afterwards. Opening the destination creates it before anything is
    written to it. What rasterio leaves on disk when opening fails is its own
    business; here the disk is then as before. *)
Definition execute `{ExportEnv} (self : t) (eopatch : EOPatch) (filename : string)
    (fs : filesystem) : result EOPatch * filesystem :=
  match canonical_array self eopatch with
  | Raise e => (Raise e, fs)
  | Ok array_sub =>
  match unpack_shape (np.shape array_sub) with
  | Raise e => (Raise e, fs)
  | Ok (time_dim, height, width, band_dim) =>
  let index := time_dim * band_dim in
  match from_bounds (bbox eopatch) width height with
  | Raise e => (Raise e, fs)
  | Ok dst_transform =>
  let dst_crs := ogc_string (crs (bbox eopatch)) in
  let path := path_join (folder self) filename in
  let profile := mkProfile width height index (image_dtype self) (no_data_value self)
                           dst_transform dst_crs in
  match open_for_writing path profile with
  | Some e => (Raise e, fs)
  | None =>
  let fs_opened := <[path := mkRaster profile []]> fs in
  let output_array := np.astype array_sub (image_dtype self) in
  match np.reshape (np.moveaxis_last_to_1 output_array) [index; height; width] with
  | Raise e => (Raise e, fs_opened)
  | Ok output_array =>
  match write_bands path (planes index height width output_array) with
  | Some e => (Raise e, fs_opened)
  | None =>
      (Ok eopatch,
       <[path := mkRaster profile (planes index height width output_array)]> fs_opened)
  end end end end end end.

End ExportToTiff.

(** ** ReadFromTiff *)

Module ReadFromTiff.

Record t := mk { path : string; mask_name : string }.

(** [int((tile - origin) / res)] *)
Definition pixel_index (tile origin res : float) : result Z :=
  q ← pyfloat.div (pyfloat.sub tile origin) res;
  pyfloat.int q.

Definition _get_window `{ImportEnv} (src : Source) (bbox : BBox) : result Window :=
  let x_res := af_a (src_transform src) in
  let y_res := af_e (src_transform src) in
  tile_ul_proj ← transform (crs bbox) (src_crs src) (min_x bbox) (max_y bbox);
  tile_lr_proj ← transform (crs bbox) (src_crs src) (max_x bbox) (min_y bbox);
  let tif_ul_proj := (bounds_left src, bounds_top src) in
  top ← pixel_index (snd tile_ul_proj) (snd tif_ul_proj) y_res;
  left ← pixel_index (fst tile_ul_proj) (fst tif_ul_proj) x_res;
  bottom ← pixel_index (snd tile_lr_proj) (snd tif_ul_proj) y_res;
  right ← pixel_index (fst tile_lr_proj) (fst tif_ul_proj) x_res;
  Ok ((top, bottom), (left, right)).

Definition _get_width_height `{ImportEnv} (src : Source) (bbox : BBox) : result (Z * Z) :=
  window ← _get_window src bbox;
  Ok (snd (snd window) - fst (snd window), snd (fst window) - fst (fst window))%Z.

(** [not v] for an argument that is [None] or an int. *)
Definition falsy (v : option Z) : bool :=
  match v with
  | None => true
  | Some z => (z =? 0)%Z
  end.

(** Lines 190 and 191 of [execute]: the width and height the buffer is
    allocated with. *)
Definition width_height `{ImportEnv} (src : Source) (bbox : BBox) (width height : option Z)
  : result (Z * Z) :=
  if falsy width || falsy height then _get_width_height src bbox
  else Ok (default 0%Z width, default 0%Z height).

(** [buffer[band] = px] for a buffer of shape [(bands, rows, cols)]. *)
Definition fill_band (buffer : np.ndarray) (band rows cols : nat) (px : nat -> nat -> Z)
  : np.ndarray :=
  np.mk (np.shape buffer)
        (firstn (band * (rows * cols)) (np.data buffer)
         ++ flat_map (fun i => map (fun j => px i j) (seq 0 cols)) (seq 0 rows)
         ++ skipn (S band * (rows * cols)) (np.data buffer)).

(** The loop [for band in range(bands): src.read(band + 1, ...)] over the bands
    still to read. *)
Fixpoint read_bands `{ImportEnv} (src : Source) (window : Window) (rows cols : nat)
    (todo : list nat) (buffer : np.ndarray) : result np.ndarray :=
  match todo with
  | [] => Ok buffer
  | band :: todo' =>
      px ← src_read src (band + 1) window (rows, cols);
      read_bands src window rows cols todo' (fill_band buffer band rows cols px)
  end.

(** Everything inside the [with rasterio.open(self.path) as src] block: the
    filled buffer [data]. *)
Definition read_data `{ImportEnv} (self : t) (bbox : BBox) (width height : option Z)
  : result np.ndarray :=
  src ← rasterio_open (path self);
  wh ← width_height src bbox width height;
  let bands := src_count src in
  data ← np.empty [Z.of_nat bands; fst wh; snd wh];
  let data := np.astype data (src_dtype src) in
  window ← _get_window src bbox;
  read_bands src window (Z.to_nat (fst wh)) (Z.to_nat (snd wh)) (seq 0 bands) data.

(** [execute]: the value returned or the exception raised, and the tile
    afterwards. *)
Definition execute `{ImportEnv} (self : t) (eopatch : EOPatch) (width height : option Z)
  : result EOPatch * EOPatch :=
  match read_data self (bbox eopatch) width height with
  | Raise e => (Raise e, eopatch)
  | Ok data =>
      let eopatch' :=
        set_feature eopatch (MASK_TIMELESS, mask_name self) (np.moveaxis_first_to_last data) in
      (Ok eopatch', eopatch')
  end.

End ReadFromTiff.

(** ** The properties as the specification words them *)

Module Spec.

(** A band selector that is malformed: not a list or tuple, a list with an
    element that is not an integer, or a tuple that is not a pair of ints. *)
Definition malformed_band (s : selector) : bool :=
  match s with
  | SelList l => existsb (fun v => negb (isinstance_int v)) l
  | SelTuple l => negb (bool_decide (map type_of l = [TInt; TInt]))
  | SelOther _ => true
  end.

(** A date selector that is malformed: as for bands, except that a pair of
    strings and a pair of date-times are allowed tuples too. *)
Definition malformed_date (s : selector) : bool :=
  match s with
  | SelList l => existsb (fun v => negb (isinstance_int v)) l
  | SelTuple l =>
      negb (bool_decide (map type_of l = [TInt; TInt])
            || bool_decide (map type_of l = [TStr; TStr])
            || bool_decide (map type_of l = [TDatetime; TDatetime]))
  | SelOther _ => true
  end.

(** The band positions of an inclusive range: every index [i] of the band
    axis with [lo <= i <= hi], ascending. *)
Definition range_positions (n : nat) (lo hi : Z) : list nat :=
  List.filter (fun i => (lo <=? Z.of_nat i)%Z && (Z.of_nat i <=? hi)%Z) (seq 0 n).

(** The axes of the canonical array are (time, height, width, band): the
    height and width are those of the attribute, or 1 for a scalar category,
    and the time axis has length 1 for a timeless category. *)
Definition canonical_shape (ft : FeatureType) (attribute canonical : list nat) : Prop :=
  match ft, attribute with
  | (DATA | MASK), [_; height; width; _] =>
      exists time_dim band_dim, canonical = [time_dim; height; width; band_dim]
  | (DATA_TIMELESS | MASK_TIMELESS), [height; width; _] =>
      exists band_dim, canonical = [1; height; width; band_dim]
  | SCALAR, [_; _] => exists time_dim band_dim, canonical = [time_dim; 1; 1; band_dim]
  | SCALAR_TIMELESS, [_] => exists band_dim, canonical = [1; 1; 1; band_dim]
  | _, _ => False
  end.

(** [num / den] truncated to an integer. *)
Definition truncated_quotient (num den : float) : result Z :=
  q ← pyfloat.div num den;
  pyfloat.int q.

(** The pixel window: top and left are the distances of the projected
    upper-left corner from the source's top and left, divided by the y and the
    x resolution; bottom and right are the same for the projected lower-right
    corner; each is truncated to an integer. *)
Definition window (tile_ul tile_lr : float * float) (source_left source_top : float)
    (x_resolution y_resolution : float) : result Window :=
  top ← truncated_quotient (pyfloat.sub (snd tile_ul) source_top) y_resolution;
  left ← truncated_quotient (pyfloat.sub (fst tile_ul) source_left) x_resolution;
  bottom ← truncated_quotient (pyfloat.sub (snd tile_lr) source_top) y_resolution;
  right ← truncated_quotient (pyfloat.sub (fst tile_lr) source_left) x_resolution;
  Ok ((top, bottom), (left, right)).


End Spec.

(** ** Sample tiles, rasters and collaborators *)

Module Sample.

Definition float_of_nat (n : nat) : float :=
  PrimFloat.of_uint63 (Uint63.of_Z (Z.of_nat n)).

(** rasterio's [from_bounds(west, south, east, north, width, height)]. *)
Definition sample_from_bounds (b : BBox) (width height : nat) : result Affine :=
  a ← pyfloat.div (pyfloat.sub (max_x b) (min_x b)) (float_of_nat width);
  e ← pyfloat.div (pyfloat.sub (min_y b) (max_y b)) (float_of_nat height);
  Ok (mkAffine a 0%float (min_x b) 0%float e (max_y b)).

(** Two dates in ISO form and their microseconds since the epoch. *)
Definition sample_iso_to_datetime (s : string) : result Z :=
  if String.eqb s "2018-01-01" then Ok 1514764800000000%Z
  else if String.eqb s "2018-01-11" then Ok 1515628800000000%Z
  else if String.eqb s "2018-01-21" then Ok 1516492800000000%Z
  else Raise (ValueError (LibraryMessage "Unknown string format")).

#[global] Instance export_env : ExportEnv := {
  iso_to_datetime := sample_iso_to_datetime;
  from_bounds := sample_from_bounds;
  ogc_string := fun c => c;
  open_for_writing := fun path _ =>
    if String.prefix "/readonly/" path then Some (LibraryError "RasterioIOError") else None;
  write_bands := fun _ _ => None }.

Definition sample_bbox : BBox :=
  mkBBox 500100 3999700 500300 3999900 "EPSG:32633".

Definition timestamps : list Z :=
  [1514764800000000; 1515628800000000; 1516492800000000]%Z.

(** A 2 x 1 x 1 x 2 array (two times, two bands) with distinct values. *)
Definition data_2x1x1x2 : np.ndarray := np.mk [2; 1; 1; 2] [10; 11; 20; 21]%Z.

(** A 1 x 1 x 4 array: one pixel with four bands. *)
Definition mask_1x1x4 : np.ndarray := np.mk [1; 1; 4] [10; 11; 12; 13]%Z.

(** A 3 x 1 x 1 x 1 array: three times, one band. *)
Definition data_3x1x1x1 : np.ndarray := np.mk [3; 1; 1; 1] [7; 8; 9]%Z.

Definition tile : EOPatch :=
  mkEOPatch (<[(DATA, "bands") := data_2x1x1x2]>
             (<[(MASK_TIMELESS, "lulc") := mask_1x1x4]>
              (<[(DATA, "ndvi") := data_3x1x1x1]> ∅)))
            timestamps sample_bbox.

(** A north-up source raster with 10 m pixels whose upper-left corner is at
    (500000, 4000000). *)
Definition source (count : nat) : Source :=
  mkSource (mkAffine 10 0 500000 0 (-10) 4000000) "EPSG:32633" 500000 4000000 count np.uint8.

(** [missing.tif] cannot be opened, [corrupt.tif] has three bands of which the
    second cannot be read, any other path is a readable raster with two bands;
    only coordinates of the source's own reference system can be projected. *)
#[global] Instance import_env : ImportEnv := {
  rasterio_open := fun path =>
    if String.eqb path "missing.tif" then Raise (LibraryError "RasterioIOError")
    else if String.eqb path "corrupt.tif" then Ok (source 3)
    else Ok (source 2);
  transform := fun crs1 crs2 x y =>
    if String.eqb crs1 crs2 then Ok (x, y) else Raise (LibraryError "ProjError");
  src_read := fun src band _ _ =>
    if (src_count src =? 3) && (band =? 2) then Raise (LibraryError "RasterioIOError")
    else Ok (fun i j => Z.of_nat (100 * band + 10 * i + j)) }.

End Sample.

(** ** Quantities the further properties speak of *)

(** The smallest and the largest value of a pixel type. *)
Definition dtype_min (t : np.dtype) : Z :=
  if np.signed t then (- 2 ^ (np.bits t - 1))%Z else 0%Z.

Definition dtype_max (t : np.dtype) : Z :=
  if np.signed t then (2 ^ (np.bits t - 1) - 1)%Z else (2 ^ np.bits t - 1)%Z.

(** The number of axes lines 106 to 118 of the exporter's [execute] add to the
    attribute: none on the time dependent branch, two more for SCALAR; one on
    the other branch, two more for SCALAR_TIMELESS. *)
Definition added_axes (ft : FeatureType) : nat :=
  match ft with
  | DATA | MASK => 0
  | SCALAR => 2
  | SCALAR_TIMELESS => 3
  | LABEL | DATA_TIMELESS | MASK_TIMELESS | LABEL_TIMELESS => 1
  end.

(** Python's [i % n] as a position of an axis of length [n]. *)
Definition wrap (n : nat) (i : Z) : nat := Z.to_nat (i mod Z.of_nat n).

(** More sample data: a tile with a LABEL attribute (time x class) and a
    data attribute with three times, two rows, one column and two bands, and a
    tile with scalar attributes. *)
Module Sample2.

Definition label_3x2 : np.ndarray := np.mk [3; 2] [1; 0; 0; 1; 1; 1]%Z.

Definition data_3x2x1x2 : np.ndarray :=
  np.mk [3; 2; 1; 2] [1; 2; 3; 4; 5; 6; 7; 8; 9; 10; 11; 300]%Z.

Definition tile : EOPatch :=
  mkEOPatch (<[(LABEL, "classes") := label_3x2]>
             (<[(DATA, "cube") := data_3x2x1x2]> ∅))
            Sample.timestamps Sample.sample_bbox.

(** A tile with a per-timestamp scalar (time x band) and a timeless scalar. *)
Definition scalar_3x2 : np.ndarray := np.mk [3; 2] [11; 12; 21; 22; 31; 32]%Z.

Definition scalar_timeless_3 : np.ndarray := np.mk [3] [5; 6; 7]%Z.

Definition scalars : EOPatch :=
  mkEOPatch (<[(SCALAR, "mean") := scalar_3x2]>
             (<[(SCALAR_TIMELESS, "total") := scalar_timeless_3]> ∅))
            Sample.timestamps Sample.sample_bbox.


End Sample2.

(** * Properties *)

(** ** Facts about lists laid out in row-major order *)

Section RowMajor.
Context {A : Type}.

Lemma length_flat_map_const (f : nat -> list A) (m : nat) (l : list nat) :
  (forall k, length (f k) = m) -> length (flat_map f l) = length l * m.
Proof.
  intros Hf. induction l as [|k l IH]; simpl; [reflexivity|].
  rewrite List.length_app, Hf, IH. reflexivity.
Qed.

Lemma nth_error_flat_map_seq (f : nat -> list A) (m s n i j : nat) :
  (forall k, length (f k) = m) -> i < n -> j < m ->
  nth_error (flat_map f (seq s n)) (i * m + j) = nth_error (f (s + i)) j.
Proof.
  intros Hf. revert s i. induction n as [|n IH]; intros s i Hi Hj; [lia|].
  simpl. destruct i as [|i].
  - rewrite nth_error_app1 by (rewrite Hf; lia).
    simpl. rewrite Nat.add_0_r. reflexivity.
  - rewrite nth_error_app2 by (rewrite Hf; lia).
    rewrite Hf. replace (S i * m + j - m) with (i * m + j) by lia.
    rewrite IH by lia. f_equal. f_equal. lia.
Qed.

Lemma nth_error_map_seq (g : nat -> A) (n x : nat) :
  x < n -> nth_error (map g (seq 0 n)) x = Some (g x).
Proof.
  intros Hx. rewrite nth_error_map, nth_error_seq.
  destruct (Nat.ltb_spec x n); [reflexivity | lia].
Qed.

Lemma nth_error_chunk (l : list A) (k n i : nat) :
  i < n -> nth_error (firstn n (skipn k l)) i = nth_error l (k + i).
Proof.
  intros Hi. rewrite nth_error_firstn.
  destruct (Nat.ltb_spec i n); [|lia].
  apply nth_error_skipn.
Qed.

End RowMajor.

(** ** The result monad *)

Lemma bind_Ok {A B} (r : result A) (k : A -> result B) (b : B) :
  r ≫= k = Ok b -> exists a, r = Ok a /\ k a = Ok b.
Proof. destruct r as [a|e]; simpl; [eauto | discriminate]. Qed.

Lemma bind_Raise {A B} (r : result A) (k : A -> result B) (e : exn) :
  r = Raise e -> r ≫= k = Raise e.
Proof. intros ->. reflexivity. Qed.

Ltac inv_bind H :=
  let a := fresh "a" in
  let Ha := fresh "Ha" in
  apply bind_Ok in H; destruct H as (a & Ha & H).

(** ** The importer *)

Section Importer.
Context `{env : ImportEnv}.
Import ReadFromTiff.

Lemma pixel_index_truncated_quotient (tile origin res : float) :
  pixel_index tile origin res = Spec.truncated_quotient (pyfloat.sub tile origin) res.
Proof. reflexivity. Qed.

(** C8: the importer's window is defined exactly when both corners of the
    bounding box can be projected and the four truncated quotients exist, and
    then top and left are the truncated quotients of the projected upper-left
    corner's distance from the source's top and left by the y and x resolution,
    and bottom and right those of the projected lower-right corner; the
    resolutions are items 0 and 4 of the source's transform, sign included. *)
Theorem get_window_formula (src : Source) (bbox : BBox) (w : Window) :
  _get_window src bbox = Ok w <->
  exists tile_ul tile_lr,
    transform (crs bbox) (src_crs src) (min_x bbox) (max_y bbox) = Ok tile_ul /\
    transform (crs bbox) (src_crs src) (max_x bbox) (min_y bbox) = Ok tile_lr /\
    Spec.window tile_ul tile_lr (bounds_left src) (bounds_top src)
                (af_a (src_transform src)) (af_e (src_transform src)) = Ok w.
Proof.
  unfold _get_window, Spec.window. split.
  - intros Hw. inv_bind Hw. inv_bind Hw. exists a, a0. auto.
  - intros (ul & lr & -> & -> & Hw). exact Hw.
Qed.

Lemma get_width_height_window (src : Source) (bbox : BBox) (top bottom left right : Z) :
  _get_window src bbox = Ok ((top, bottom), (left, right)) ->
  _get_width_height src bbox = Ok (right - left, bottom - top)%Z.
Proof. unfold _get_width_height. intros ->. reflexivity. Qed.

Lemma fill_band_shape buffer band rows cols px :
  np.shape (fill_band buffer band rows cols px) = np.shape buffer.
Proof. reflexivity. Qed.

Lemma read_bands_shape src window rows cols todo :
  forall buffer data,
    read_bands src window rows cols todo buffer = Ok data ->
    np.shape data = np.shape buffer.
Proof.
  induction todo as [|band todo IH]; intros buffer data Hr; simpl in Hr.
  - congruence.
  - inv_bind Hr. apply IH in Hr. rewrite Hr. apply fill_band_shape.
Qed.

Lemma empty_shape (s : list Z) (a : np.ndarray) :
  np.empty s = Ok a -> np.shape a = map Z.to_nat s /\ Forall (fun d => (0 <= d)%Z) s.
Proof.
  unfold np.empty. destruct (forallb _ s) eqn:Hs; [|discriminate].
  intros [= <-]. split; [reflexivity|].
  apply Forall_forall. intros d Hd.
  apply list_elem_of_In in Hd.
  rewrite forallb_forall in Hs. apply Hs in Hd. lia.
Qed.

(** The buffer a successful call fills has shape (bands, width, height). *)
Lemma read_data_shape self bbox width height data :
  read_data self bbox width height = Ok data ->
  exists src w h,
    rasterio_open (path self) = Ok src /\
    width_height src bbox width height = Ok (w, h) /\
    (0 <= w)%Z /\ (0 <= h)%Z /\
    np.shape data = [src_count src; Z.to_nat w; Z.to_nat h].
Proof.
  unfold read_data. intros Hd.
  inv_bind Hd. inv_bind Hd. inv_bind Hd. inv_bind Hd.
  destruct a0 as [w h]. simpl in *.
  apply read_bands_shape in Hd. simpl in Hd.
  apply empty_shape in Ha1. destruct Ha1 as [Hs Hpos].
  exists a, w, h. repeat split; try assumption.
  - inversion Hpos as [|? ? _ Hpos']. inversion Hpos'. assumption.
  - inversion Hpos as [|? ? _ Hpos']. inversion Hpos' as [|? ? _ Hpos'']. inversion Hpos''.
    assumption.
  - rewrite Hd, Hs. simpl. rewrite Nat2Z.id. reflexivity.
Qed.

(** A successful call attaches an array of shape (width, height, bands) under
    the configured name, replacing what was there, and returns the tile. *)
Lemma execute_attaches self eopatch width height eopatch' :
  fst (execute self eopatch width height) = Ok eopatch' ->
  snd (execute self eopatch width height) = eopatch' /\
  exists src w h data,
    rasterio_open (path self) = Ok src /\
    width_height src (bbox eopatch) width height = Ok (w, h) /\
    features eopatch' = <[(MASK_TIMELESS, mask_name self) := data]> (features eopatch) /\
    np.shape data = [Z.to_nat w; Z.to_nat h; src_count src].
Proof.
  unfold execute. destruct (read_data _ _ _ _) as [data|e] eqn:Hd; simpl; [|discriminate].
  intros [= <-]. split; [reflexivity|].
  apply read_data_shape in Hd. destruct Hd as (src & w & h & Ho & Hwh & _ & _ & Hs).
  exists src, w, h, (np.moveaxis_first_to_last data). repeat split; try assumption.
  unfold np.moveaxis_first_to_last. rewrite Hs. reflexivity.
Qed.

End Importer.

Section ImporterClaims.
Context `{env : ImportEnv}.
Import ReadFromTiff.

(** C10: when the width or the height argument is omitted or zero, the
    importer drops both arguments and allocates with the dimensions of the
    window, width = right - left and height = bottom - top, whatever the other
    argument was; a successful call then attaches an array whose first two
    axes have these extents. *)
Theorem falsy_dimension_discards_both (self : t) (eopatch : EOPatch)
    (width height : option Z) (src : Source) (top bottom left right : Z) :
  falsy width || falsy height = true ->
  rasterio_open (path self) = Ok src ->
  _get_window src (bbox eopatch) = Ok ((top, bottom), (left, right)) ->
  width_height src (bbox eopatch) width height = Ok (right - left, bottom - top)%Z /\
  forall eopatch',
    fst (execute self eopatch width height) = Ok eopatch' ->
    exists data,
      features eopatch' !! (MASK_TIMELESS, mask_name self) = Some data /\
      np.shape data = [Z.to_nat (right - left); Z.to_nat (bottom - top); src_count src].
Proof.
  intros Hfalsy Hopen Hwin.
  assert (Hwh : width_height src (bbox eopatch) width height
                = Ok (right - left, bottom - top)%Z).
  { unfold width_height. rewrite Hfalsy. by apply get_width_height_window. }
  split; [exact Hwh|].
  intros eopatch' Hex. apply execute_attaches in Hex.
  destruct Hex as (_ & src' & w & h & data & Hopen' & Hwh' & Hfeat & Hshape).
  rewrite Hopen in Hopen'. injection Hopen' as <-.
  rewrite Hwh in Hwh'. injection Hwh' as <- <-.
  exists data. rewrite Hfeat, lookup_insert_eq. auto.
Qed.






(** Whatever makes a call fail, the tile is what it was before the call. *)
Lemma import_error_leaves_tile (self : t) (eopatch : EOPatch)
    (width height : option Z) (e : exn) :
  fst (execute self eopatch width height) = Raise e ->
  snd (execute self eopatch width height) = eopatch.
Proof.
  unfold execute. destruct (read_data _ _ _ _); simpl; [discriminate | reflexivity].
Qed.

End ImporterClaims.

(** C3: a call with width 3 and height 2 on a source with two bands attaches,
    under the configured name, an array of shape (3, 2, 2): the first axis has
    the extent of the width and the second that of the height. *)
Theorem import_shape_is_width_height_bands :
  exists eopatch' data,
    ReadFromTiff.execute (ReadFromTiff.mk "a.tif" "m") Sample.tile (Some 3%Z) (Some 2%Z)
    = (Ok eopatch', eopatch') /\
    features eopatch' !! (MASK_TIMELESS, "m") = Some data /\
    np.shape data = [3; 2; 2] /\
    np.shape data <> [2; 3; 2].
Proof.
  eexists _, _. split; [reflexivity|].
  split; [vm_compute; reflexivity|].
  split; [reflexivity | discriminate].
Qed.

Lemma falsy_dimension_discards_both_witness :
  ReadFromTiff.width_height (Sample.source 2) (bbox Sample.tile) (Some 3%Z) None
  = Ok (20, 20)%Z.
Proof.
  exact (proj1 (falsy_dimension_discards_both
                  (ReadFromTiff.mk "a.tif" "m") Sample.tile (Some 3%Z) None
                  (Sample.source 2) 10 30 10 30 eq_refl eq_refl eq_refl)).
Defined.


Lemma get_window_formula_witness :
  ReadFromTiff._get_window (Sample.source 2) Sample.sample_bbox = Ok ((10, 30), (10, 30))%Z.
Proof.
  apply get_window_formula.
  exists (500100%float, 3999900%float), (500300%float, 3999700%float).
  repeat split; vm_compute; reflexivity.
Defined.

(** ** numpy indexing *)

Lemma take_last_shape (a : np.ndarray) (pos : list nat) :
  np.shape (np.take_last a pos) = removelast (np.shape a) ++ [length pos].
Proof. reflexivity. Qed.

Lemma take_first_shape (a : np.ndarray) (pos : list nat) :
  np.shape (np.take_first a pos) = length pos :: tl (np.shape a).
Proof. reflexivity. Qed.

Lemma index_last_Ok (a b : np.ndarray) (ix : np.index) :
  np.index_last a ix = Ok b ->
  exists n pos,
    np.last_dim a = Ok n /\ np.resolve_index n ix = Ok pos /\ b = np.take_last a pos.
Proof.
  unfold np.index_last. intros Hb. inv_bind Hb. inv_bind Hb.
  injection Hb as <-. eauto.
Qed.

Lemma index_first_Ok (a b : np.ndarray) (ix : np.index) :
  np.index_first a ix = Ok b ->
  exists n pos,
    np.first_dim a = Ok n /\ np.resolve_index n ix = Ok pos /\ b = np.take_first a pos.
Proof.
  unfold np.index_first. intros Hb. inv_bind Hb. inv_bind Hb.
  injection Hb as <-. eauto.
Qed.

Lemma prod_app (s1 s2 : list nat) : np.prod (s1 ++ s2) = np.prod s1 * np.prod s2.
Proof.
  unfold np.prod. induction s1 as [|d s1 IH]; simpl; [lia|].
  rewrite IH. lia.
Qed.

Lemma take_last_wf (a : np.ndarray) (pos : list nat) : np.wf (np.take_last a pos).
Proof.
  unfold np.wf, np.take_last. simpl.
  rewrite (length_flat_map_const _ (length pos)) by (intros; apply List.length_map).
  rewrite List.length_seq, prod_app. simpl. lia.
Qed.

Lemma take_first_wf (a : np.ndarray) (pos : list nat) : np.wf (np.take_first a pos).
Proof.
  unfold np.wf, np.take_first. simpl.
  rewrite (length_flat_map_const _ (np.prod (tl (np.shape a)))).
  - reflexivity.
  - intros. rewrite List.length_map, List.length_seq. reflexivity.
Qed.

Lemma expand_dims_wf (a : np.ndarray) (axis : nat) :
  np.wf a -> np.wf (np.expand_dims a axis).
Proof.
  unfold np.wf, np.expand_dims. simpl. intros ->.
  rewrite <- (firstn_skipn axis (np.shape a)) at 1.
  rewrite !prod_app. simpl. lia.
Qed.

(** ** The exporter's selection *)

Section Exporter.
Context `{env : ExportEnv}.
Import ExportToTiff.

Lemma get_bands_subset_Ok (self : t) (array array_sub : np.ndarray) :
  _get_bands_subset self array = Ok array_sub ->
  exists pos, array_sub = np.take_last array pos.
Proof.
  unfold _get_bands_subset. intros Hs. inv_bind Hs.
  destruct (band_indices self) as [l | l | v]; try discriminate.
  - destruct (existsb _ l); [discriminate|].
    apply index_last_Ok in Hs. destruct Hs as (? & pos & _ & _ & ->). eauto.
  - destruct l as [|[] [|[] [|]]]; try discriminate.
    apply index_last_Ok in Hs. destruct Hs as (? & pos & _ & _ & ->). eauto.
Qed.

Lemma get_dates_subset_Ok (self : t) (array array_sub : np.ndarray) (dates : list Z) :
  _get_dates_subset self array dates = Ok array_sub ->
  exists pos, array_sub = np.take_first array pos.
Proof.
  unfold _get_dates_subset. intros Hs.
  destruct (date_indices self) as [l | l | v]; try discriminate.
  - destruct (existsb _ l); [discriminate|].
    apply index_first_Ok in Hs. destruct Hs as (? & pos & _ & _ & ->). eauto.
  - inv_bind Hs.
    apply index_first_Ok in Hs. destruct Hs as (? & pos & _ & _ & ->). eauto.
Qed.

(** The canonical array is well formed whatever the attribute holds. *)
Lemma canonical_array_wf (self : t) (eopatch : EOPatch) (array_sub : np.ndarray) :
  canonical_array self eopatch = Ok array_sub -> np.wf array_sub.
Proof.
  unfold canonical_array. intros Hc. inv_bind Hc. inv_bind Hc.
  apply get_bands_subset_Ok in Ha0. destruct Ha0 as [pos ->].
  destruct (time_dependent _).
  - inv_bind Hc. apply get_dates_subset_Ok in Ha0. destruct Ha0 as [pos' ->].
    destruct (decide _); injection Hc as <-;
      repeat apply expand_dims_wf; apply take_first_wf.
  - destruct (decide _); injection Hc as <-;
      repeat apply expand_dims_wf; apply take_last_wf.
Qed.

(** C6: for an attribute of one of the four exported kinds, held with the
    rank of its category, the array that reaches the shape unpacking and the
    writer has rank 4, with axes (time, height, width, band). *)
Theorem canonical_array_rank_4 (self : t) (eopatch : EOPatch)
    (array array_sub : np.ndarray) :
  exportable (fst (feature self)) = true ->
  features eopatch !! feature self = Some array ->
  np.ndim array = FeatureType_ndim (fst (feature self)) ->
  canonical_array self eopatch = Ok array_sub ->
  np.ndim array_sub = 4 /\
  Spec.canonical_shape (fst (feature self)) (np.shape array) (np.shape array_sub).
Proof.
  intros Hexp Hfeat Hrank Hc.
  unfold canonical_array, get_feature in Hc. rewrite Hfeat in Hc. simpl in Hc.
  inv_bind Hc. apply get_bands_subset_Ok in Ha. destruct Ha as [pos ->].
  unfold np.ndim in *.
  destruct (fst (feature self)); try discriminate; simpl in Hrank, Hc;
    destruct array as [[|d0 [|d1 [|d2 [|d3 [|d4 s]]]]] dat]; try discriminate;
    try (inv_bind Hc; apply get_dates_subset_Ok in Ha; destruct Ha as [pos' ->]);
    injection Hc as <-; simpl; split; try reflexivity; eauto.
Qed.

End Exporter.

(** ** [np.nonzero] and [np.where] *)

Section NonzeroWhere.
Context {A B : Type}.

Lemma where_map (f : A -> bool) (h : A -> B) (fill : B) (l : list A) :
  np.where_ (map f l) (map h l) fill = map (fun x => if f x then h x else fill) l.
Proof.
  unfold np.where_. induction l as [|x l IH]; simpl; [reflexivity|].
  rewrite IH. reflexivity.
Qed.

Lemma nonzero_map_from (truthy : B -> bool) (g : A -> B) (d : A) (l : list A) (s : nat) :
  map fst (List.filter (fun ix : nat * B => truthy (snd ix))
                       (combine (seq s (length l)) (map g l)))
  = List.filter (fun k => truthy (g (nth (k - s) l d))) (seq s (length l)).
Proof.
  revert s. induction l as [|x l IH]; intros s; [reflexivity|].
  cbn [length seq map combine List.filter snd].
  rewrite Nat.sub_diag. cbn [nth].
  assert (Htail :
    List.filter (fun k => truthy (g (nth (k - s) (x :: l) d))) (seq (S s) (length l))
    = List.filter (fun k => truthy (g (nth (k - S s) l d))) (seq (S s) (length l))).
  { apply filter_ext_in. intros k Hk. apply in_seq in Hk.
    replace (k - s) with (S (k - S s)) by lia. reflexivity. }
  cbn [nth] in Htail. rewrite Htail, <- IH.
  destruct (truthy (g x)); reflexivity.
Qed.

Lemma nonzero_map (truthy : B -> bool) (g : A -> B) (d : A) (l : list A) :
  np.nonzero truthy (map g l)
  = List.filter (fun k => truthy (g (nth k l d))) (seq 0 (length l)).
Proof.
  unfold np.nonzero. rewrite List.length_map, (nonzero_map_from truthy g d l 0).
  apply filter_ext. intros k. rewrite Nat.sub_0_r. reflexivity.
Qed.

End NonzeroWhere.

Lemma filter_filter_andb {A} (f g : A -> bool) (l : list A) :
  List.filter f (List.filter g l) = List.filter (fun x => g x && f x) l.
Proof.
  induction l as [|x l IH]; simpl; [reflexivity|].
  destruct (g x); simpl; [destruct (f x)|]; rewrite IH; reflexivity.
Qed.

Section ExporterSelectors.
Context `{env : ExportEnv}.
Import ExportToTiff.

(** The date range keeps exactly the positions whose timestamp lies between
    the two ends, both included, in ascending order. *)
Lemma date_range_positions_spec (dates : list Z) (start_date end_date : Z) :
  date_range_positions dates start_date end_date
  = List.filter (fun k => (start_date <=? nth k dates 0)%Z && (nth k dates 0 <=? end_date)%Z)
                (seq 0 (length dates)).
Proof.
  unfold date_range_positions, between.
  rewrite where_map, (nonzero_map _ _ 0%Z).
  apply filter_ext. intros k.
  destruct ((start_date <=? nth k dates 0)%Z && (nth k dates 0 <=? end_date)%Z); reflexivity.
Qed.

(** The band range keeps the positions of the range except position 0, which
    [np.where] fills with 0 whether or not it is in the range. *)
Lemma band_range_positions_spec (n : nat) (lo hi : Z) :
  band_range_positions n lo hi
  = List.filter (fun i => negb (i =? 0)) (Spec.range_positions n lo hi).
Proof.
  unfold band_range_positions, between, arange, Spec.range_positions.
  rewrite map_map, where_map, (nonzero_map _ _ 0), List.length_seq, filter_filter_andb.
  apply filter_ext_in. intros k Hk. apply in_seq in Hk.
  rewrite seq_nth by lia. simpl.
  destruct ((lo <=? Z.of_nat k)%Z && (Z.of_nat k <=? hi)%Z); simpl; [|reflexivity].
  destruct k; reflexivity.
Qed.

End ExporterSelectors.

Section ExporterClaims.
Context `{env : ExportEnv}.
Import ExportToTiff.

(** C5: a date range given as a pair of indices, as a pair of ISO strings or
    as a pair of date-times that denote the same two timestamps selects the
    same sub-array: the one of the positions whose timestamp lies between the
    two, both included. *)
Theorem date_range_forms_agree (self : t) (array : np.ndarray) (dates : list Z)
    (i j : Z) (s e : string) (start_date end_date : Z) :
  date_item dates i = Ok start_date ->
  date_item dates j = Ok end_date ->
  iso_to_datetime s = Ok start_date ->
  iso_to_datetime e = Ok end_date ->
  let by_index :=
    _get_dates_subset (with_date_indices self (SelTuple [PyInt i; PyInt j])) array dates in
  let by_iso :=
    _get_dates_subset (with_date_indices self (SelTuple [PyStr s; PyStr e])) array dates in
  let by_datetime :=
    _get_dates_subset
      (with_date_indices self (SelTuple [PyDatetime start_date; PyDatetime end_date]))
      array dates in
  by_index = by_datetime /\
  by_iso = by_datetime /\
  by_datetime
  = np.index_first array
      (np.IntIndex
         (map Z.of_nat
            (List.filter
               (fun k => (start_date <=? nth k dates 0)%Z && (nth k dates 0 <=? end_date)%Z)
               (seq 0 (length dates))))).
Proof.
  intros Hi Hj Hs He. unfold _get_dates_subset. simpl.
  rewrite Hi, Hj, Hs, He. simpl.
  rewrite date_range_positions_spec. auto.
Qed.

Lemma last_dim_Ok (array : np.ndarray) :
  np.shape array <> [] -> exists n, np.last_dim array = Ok n.
Proof.
  unfold np.last_dim. destruct (np.shape array); [congruence | eauto].
Qed.

Lemma malformed_band_Raise (self : t) (array : np.ndarray) :
  np.shape array <> [] ->
  Spec.malformed_band (band_indices self) = true ->
  exists e, _get_bands_subset self array = Raise e /\ names_selector e (band_indices self).
Proof.
  intros Hs Hbad. destruct (last_dim_Ok array Hs) as [n Hn].
  unfold _get_bands_subset. rewrite Hn. simpl.
  destruct (band_indices self) as [l | l | v]; simpl in Hbad.
  - rewrite Hbad. eexists. split; reflexivity.
  - destruct l as [|[] [|[] [|]]]; try discriminate;
      eexists; split; reflexivity.
  - eexists. split; reflexivity.
Qed.

Lemma malformed_date_Raise (self : t) (array : np.ndarray) (dates : list Z) :
  Spec.malformed_date (date_indices self) = true ->
  exists e,
    _get_dates_subset self array dates = Raise e /\ names_selector e (date_indices self).
Proof.
  intros Hbad. unfold _get_dates_subset.
  destruct (date_indices self) as [l | l | v]; simpl in Hbad.
  - rewrite Hbad. eexists. split; reflexivity.
  - destruct l as [|[] [|[] [|]]]; try discriminate;
      eexists; split; reflexivity.
  - eexists. split; reflexivity.
Qed.

(** C4 as the code has it: for a tile that holds the attribute as an array
    of at least one dimension, a malformed band selector makes the exporter
    raise an invalid-configuration error that names it, and so does a malformed
    date selector when the attribute is time dependent and the band selection
    succeeded; in both cases the files on disk are untouched. *)
Theorem malformed_selector_raises_before_io (self : t) (eopatch : EOPatch)
    (filename : string) (fs : filesystem) (array : np.ndarray) :
  features eopatch !! feature self = Some array ->
  np.shape array <> [] ->
  (Spec.malformed_band (band_indices self) = true ->
   exists e,
     execute self eopatch filename fs = (Raise e, fs) /\
     names_selector e (band_indices self)) /\
  (Spec.malformed_date (date_indices self) = true ->
   time_dependent (fst (feature self)) = true ->
   (exists array_sub, _get_bands_subset self array = Ok array_sub) ->
   exists e,
     execute self eopatch filename fs = (Raise e, fs) /\
     names_selector e (date_indices self)).
Proof.
  intros Hfeat Hs. split.
  - intros Hbad. destruct (malformed_band_Raise self array Hs Hbad) as (e & He & Hname).
    exists e. split; [|exact Hname].
    unfold execute, canonical_array, get_feature. rewrite Hfeat. simpl.
    rewrite He. reflexivity.
  - intros Hbad Htime [array_sub Hsub].
    destruct (malformed_date_Raise self array_sub (timestamp eopatch) Hbad)
      as (e & He & Hname).
    exists e. split; [|exact Hname].
    unfold execute, canonical_array, get_feature. rewrite Hfeat. simpl.
    rewrite Hsub. simpl. rewrite Htime, He. reflexivity.
Qed.

End ExporterClaims.

(** C1 on a pixel with the four bands 10, 11, 12, 13 and the range (0, 2):
    the exporter keeps the bands at positions 1 and 2 only, although position 0
    lies in the range. *)
Theorem band_range_drops_band_0 :
  ExportToTiff._get_bands_subset
    (ExportToTiff.with_band_indices (ExportToTiff.default (MASK_TIMELESS, "lulc"))
                                    (SelTuple [PyInt 0; PyInt 2]))
    Sample.mask_1x1x4
  = Ok (np.mk [1; 1; 2] [11; 12]%Z) /\
  ExportToTiff.band_range_positions 4 0 2 = [1; 2] /\
  Spec.range_positions 4 0 2 = [0; 1; 2].
Proof. repeat split. Qed.

(** C4 as stated fails: with a timeless attribute the date selector is never
    looked at, so a malformed one raises nothing and the file is written. *)
Lemma malformed_date_selector_ignored_when_timeless :
  let self := ExportToTiff.with_date_indices (ExportToTiff.default (MASK_TIMELESS, "lulc"))
                                             (SelOther (PyStr "2018-01-01")) in
  Spec.malformed_date (ExportToTiff.date_indices self) = true /\
  exists fs',
    ExportToTiff.execute self Sample.tile "out.tif" ∅ = (Ok Sample.tile, fs') /\
    is_Some (fs' !! "./out.tif").
Proof.
  split; [reflexivity|].
  eexists. split; [reflexivity|].
  vm_compute. eauto.
Qed.

Lemma date_range_forms_agree_witness :
  ExportToTiff._get_dates_subset
    (ExportToTiff.with_date_indices (ExportToTiff.default (DATA, "ndvi"))
                                    (SelTuple [PyInt 0; PyInt (-2)]))
    Sample.data_3x1x1x1 Sample.timestamps
  = ExportToTiff._get_dates_subset
      (ExportToTiff.with_date_indices (ExportToTiff.default (DATA, "ndvi"))
                                      (SelTuple [PyStr "2018-01-01"; PyStr "2018-01-11"]))
      Sample.data_3x1x1x1 Sample.timestamps.
Proof.
  destruct (date_range_forms_agree (env := Sample.export_env) (ExportToTiff.default (DATA, "ndvi"))
              Sample.data_3x1x1x1 Sample.timestamps 0 (-2) "2018-01-01" "2018-01-11"
              1514764800000000 1515628800000000 eq_refl eq_refl eq_refl eq_refl)
    as (Hindex & Hiso & _).
  cbv zeta in Hindex, Hiso. rewrite Hindex, Hiso. reflexivity.
Defined.

Lemma malformed_selector_raises_before_io_witness :
  (exists e,
     ExportToTiff.execute
       (ExportToTiff.with_band_indices (ExportToTiff.default (DATA, "bands"))
                                       (SelOther (PyStr "red")))
       Sample.tile "out.tif" ∅ = (Raise e, ∅)) /\
  (exists e,
     ExportToTiff.execute
       (ExportToTiff.with_date_indices (ExportToTiff.default (DATA, "bands"))
                                       (SelTuple [PyInt 0; PyStr "2018-01-11"]))
       Sample.tile "out.tif" ∅ = (Raise e, ∅)).
Proof.
  split.
  - destruct (malformed_selector_raises_before_io (env := Sample.export_env)
                (ExportToTiff.with_band_indices (ExportToTiff.default (DATA, "bands"))
                                                (SelOther (PyStr "red")))
                Sample.tile "out.tif" ∅ Sample.data_2x1x1x2) as [Hband _].
    + vm_compute. reflexivity.
    + discriminate.
    + destruct (Hband eq_refl) as (e & He & _). eauto.
  - destruct (malformed_selector_raises_before_io (env := Sample.export_env)
                (ExportToTiff.with_date_indices (ExportToTiff.default (DATA, "bands"))
                                                (SelTuple [PyInt 0; PyStr "2018-01-11"]))
                Sample.tile "out.tif" ∅ Sample.data_2x1x1x2) as [_ Hdate].
    + vm_compute. reflexivity.
    + discriminate.
    + destruct (Hdate eq_refl eq_refl) as (e & He & _).
      * eexists. vm_compute. reflexivity.
      * eauto.
Defined.

(** ** Reading an element of a gathered array *)

Lemma offset_from_app (s ix : list nat) (n q acc : nat) :
  length s = length ix ->
  fold_left (fun (a : nat) (di : nat * nat) => a * fst di + snd di)
            (combine (s ++ [n]) (ix ++ [q])) acc
  = fold_left (fun (a : nat) (di : nat * nat) => a * fst di + snd di) (combine s ix) acc * n + q.
Proof.
  revert ix acc. induction s as [|d s IH]; intros [|i ix] acc Hlen;
    try discriminate; simpl; [reflexivity|].
  apply IH. simpl in Hlen. lia.
Qed.

Lemma offset_app (s ix : list nat) (n q : nat) :
  length s = length ix ->
  np.offset (s ++ [n]) (ix ++ [q]) = np.offset s ix * n + q.
Proof. apply offset_from_app. Qed.

Lemma in_bounds_length (s ix : list nat) :
  np.in_bounds s ix = true -> length s = length ix.
Proof.
  unfold np.in_bounds. intros Hb. apply andb_true_iff in Hb.
  destruct Hb as [Hb _]. by apply Nat.eqb_eq in Hb.
Qed.

Lemma in_bounds_app (s ix : list nat) (n q : nat) :
  np.in_bounds s ix = true -> q < n -> np.in_bounds (s ++ [n]) (ix ++ [q]) = true.
Proof.
  intros Hb Hq. pose proof (in_bounds_length s ix Hb) as Hlen.
  unfold np.in_bounds in *. apply andb_true_iff in Hb. destruct Hb as [_ Hall].
  apply andb_true_iff. split.
  - apply Nat.eqb_eq. rewrite !List.length_app, Hlen. reflexivity.
  - revert ix Hlen Hall. induction s as [|d s IH]; intros [|i ix] Hlen Hall;
      try discriminate; simpl in *.
    + destruct (Nat.ltb_spec q n); [reflexivity | lia].
    + apply andb_true_iff in Hall. destruct Hall as [-> Hall]. simpl.
      apply IH; [lia | exact Hall].
Qed.

Lemma offset_from_lt (s ix : list nat) (acc : nat) :
  length s = length ix ->
  forallb (fun di : nat * nat => snd di <? fst di) (combine s ix) = true ->
  fold_left (fun (a : nat) (di : nat * nat) => a * fst di + snd di) (combine s ix) acc
  < (acc + 1) * np.prod s.
Proof.
  revert ix acc. induction s as [|d s IH]; intros [|i ix] acc Hlen Hall;
    try discriminate; simpl in *.
  - lia.
  - apply andb_true_iff in Hall. destruct Hall as [Hi Hall].
    apply Nat.ltb_lt in Hi.
    specialize (IH ix (acc * d + i) ltac:(lia) Hall).
    unfold np.prod in *.
    assert (acc * d + i + 1 <= (acc + 1) * d) by nia.
    nia.
Qed.

Lemma offset_lt (s ix : list nat) :
  np.in_bounds s ix = true -> np.offset s ix < np.prod s.
Proof.
  intros Hb. pose proof (in_bounds_length s ix Hb) as Hlen.
  unfold np.in_bounds in Hb. apply andb_true_iff in Hb. destruct Hb as [_ Hall].
  pose proof (offset_from_lt s ix 0 Hlen Hall). unfold np.offset. lia.
Qed.

Lemma last_cons_default (s : list nat) (d d0 : nat) :
  List.last (d :: s) d0 = List.last s d.
Proof.
  revert d d0. induction s as [|x s IH]; intros d d0; [reflexivity|].
  change (List.last (d :: x :: s) d0) with (List.last (x :: s) d0).
  rewrite (IH x d0), (IH x d). reflexivity.
Qed.

Lemma last_dim_shape (a : np.ndarray) (n : nat) :
  np.last_dim a = Ok n ->
  np.shape a = removelast (np.shape a) ++ [n] /\ List.last (np.shape a) 0 = n.
Proof.
  unfold np.last_dim. destruct (np.shape a) as [|d s] eqn:Hs; [discriminate|].
  intros [= <-].
  pose proof (last_cons_default s d) as Hlast.
  split; [|apply Hlast].
  rewrite <- (Hlast 0). apply app_removelast_last. discriminate.
Qed.

Lemma take_last_get (a : np.ndarray) (pos ix : list nat) (p n : nat) :
  np.wf a ->
  np.last_dim a = Ok n ->
  Forall (fun q => q < n) pos ->
  np.in_bounds (removelast (np.shape a)) ix = true ->
  p < length pos ->
  np.get (np.take_last a pos) (ix ++ [p]) = np.get a (ix ++ [nth p pos 0]).
Proof.
  intros Hwf Hn Hpos Hix Hp.
  destruct (last_dim_shape a n Hn) as [Hshape Hlast].
  assert (Hq : nth p pos 0 < n).
  { rewrite List.Forall_forall in Hpos. apply Hpos. by apply nth_In. }
  unfold np.get, np.take_last, np.wf in *. simpl. rewrite Hlast.
  remember (removelast (np.shape a)) as outer eqn:Houter. clear Houter.
  rewrite Hshape in *. clear Hshape Hlast.
  pose proof (in_bounds_length _ _ Hix) as Hlen.
  pose proof (offset_lt _ _ Hix) as Ho.
  rewrite (in_bounds_app _ _ _ _ Hix Hp), (in_bounds_app _ _ _ _ Hix Hq).
  rewrite !offset_app by exact Hlen.
  rewrite (nth_error_flat_map_seq _ (length pos)); try assumption;
    [|intros; apply List.length_map].
  simpl. rewrite nth_error_map, (nth_error_nth' pos 0 Hp). simpl.
  symmetry. apply nth_error_nth'.
  rewrite Hwf, prod_app. simpl.
  set (o := np.offset outer ix) in *.
  set (m := np.prod outer) in *.
  nia.
Qed.

Lemma normalize_index_mod (n : nat) (b : Z) :
  (- Z.of_nat n <= b < Z.of_nat n)%Z ->
  np.normalize_index n b = Ok (Z.to_nat (b mod Z.of_nat n)) /\
  Z.to_nat (b mod Z.of_nat n) < n.
Proof.
  intros Hb. unfold np.normalize_index.
  assert (Hmod : (0 <= b mod Z.of_nat n < Z.of_nat n)%Z) by (apply Z.mod_pos_bound; lia).
  split; [|lia].
  destruct (Z.leb_spec 0 b), (Z.ltb_spec b (Z.of_nat n)); simpl; try lia.
  - rewrite Z.mod_small by lia. reflexivity.
  - destruct (Z.leb_spec (- Z.of_nat n) b), (Z.ltb_spec b 0); simpl; try lia.
    rewrite <- (Z_mod_plus_full b 1 (Z.of_nat n)), Z.mod_small by lia.
    do 2 f_equal. lia.
Qed.

Lemma mapM_normalize_index (n : nat) (bs : list Z) :
  Forall (fun b => (- Z.of_nat n <= b < Z.of_nat n)%Z) bs ->
  mapM (np.normalize_index n) bs = Ok (map (fun b => Z.to_nat (b mod Z.of_nat n)) bs).
Proof.
  induction 1 as [|b bs Hb _ IH]; simpl; [reflexivity|].
  destruct (normalize_index_mod n b Hb) as [-> _]. simpl. rewrite IH. reflexivity.
Qed.

Lemma array_of_ints_PyInt (bs : list Z) :
  bs <> [] -> np.array_of_ints (map PyInt bs) = np.IntIndex bs.
Proof.
  destruct bs as [|b bs]; [congruence|]. intros _. simpl.
  rewrite map_map. simpl. rewrite map_id. reflexivity.
Qed.

Lemma existsb_not_int_PyInt (bs : list Z) :
  existsb (fun band => negb (isinstance_int band)) (map PyInt bs) = false.
Proof. induction bs as [|b bs IH]; simpl; [reflexivity | exact IH]. Qed.

Section BandList.
Import ExportToTiff.

(** C7 as the code has it: a band selector that is a non-empty list of
    ints proper (of type [int], not [bool]), each a valid index of the band axis
    (negative ones counting from the end), gathers the bands in the order of the
    list: position [p] of the result's band axis holds band [bs[p]]. A list
    with an element that is not an instance of [int] is rejected with the
    invalid-configuration error that names the list; [True] and [False] are
    instances of [int] and are not rejected. *)
Theorem band_list_order (self : t) (array : np.ndarray) :
  (forall (bs : list Z) (n : nat),
      band_indices self = SelList (map PyInt bs) ->
      bs <> [] ->
      np.wf array ->
      np.last_dim array = Ok n ->
      Forall (fun b => (- Z.of_nat n <= b < Z.of_nat n)%Z) bs ->
      exists out,
        _get_bands_subset self array = Ok out /\
        np.shape out = removelast (np.shape array) ++ [length bs] /\
        forall (ix : list nat) (p : nat),
          np.in_bounds (removelast (np.shape array)) ix = true ->
          p < length bs ->
          np.get out (ix ++ [p])
          = np.get array (ix ++ [Z.to_nat (nth p bs 0%Z mod Z.of_nat n)])) /\
  (forall l : list pyval,
      band_indices self = SelList l ->
      Exists (fun v => isinstance_int v = false) l ->
      np.shape array <> [] ->
      _get_bands_subset self array
      = Raise (ValueError (InvalidListExpectedIntegers (SelList l)))).
Proof.
  split.
  - intros bs n Hsel Hne Hwf Hn Hrange.
    exists (np.take_last array (map (fun b => Z.to_nat (b mod Z.of_nat n)) bs)).
    split; [|split].
    + unfold _get_bands_subset, np.index_last. rewrite Hn, Hsel. simpl.
      rewrite existsb_not_int_PyInt, (array_of_ints_PyInt bs Hne). simpl.
      rewrite (mapM_normalize_index n bs Hrange). reflexivity.
    + rewrite take_last_shape, List.length_map. reflexivity.
    + intros ix p Hix Hp.
      rewrite (take_last_get array _ ix p n Hwf Hn); try assumption.
      * rewrite (nth_indep _ 0 (Z.to_nat (0 mod Z.of_nat n)))
          by (rewrite List.length_map; exact Hp).
        rewrite (map_nth (fun b => Z.to_nat (b mod Z.of_nat n))). reflexivity.
      * apply List.Forall_forall. intros q Hq. apply in_map_iff in Hq.
        destruct Hq as (b & <- & Hb).
        rewrite List.Forall_forall in Hrange.
        apply (normalize_index_mod n b (Hrange b Hb)).
      * rewrite List.length_map. exact Hp.
  - intros l Hsel Hbad Hs. destruct (last_dim_Ok array Hs) as [n Hn].
    unfold _get_bands_subset. rewrite Hn, Hsel. simpl.
    assert (Hex : existsb (fun band => negb (isinstance_int band)) l = true).
    { apply existsb_exists. apply List.Exists_exists in Hbad.
      destruct Hbad as (v & Hv & Hint). exists v. rewrite Hint. auto. }
    rewrite Hex. reflexivity.
Qed.

End BandList.

Lemma band_list_order_witness :
  (exists out,
     ExportToTiff._get_bands_subset
       (ExportToTiff.with_band_indices (ExportToTiff.default (MASK_TIMELESS, "lulc"))
                                       (SelList [PyInt 3; PyInt (-4); PyInt 1]))
       Sample.mask_1x1x4 = Ok out /\
     np.shape out = [1; 1; 3] /\
     np.get out [0; 0; 1] = np.get Sample.mask_1x1x4 [0; 0; 0]) /\
  ExportToTiff._get_bands_subset
    (ExportToTiff.with_band_indices (ExportToTiff.default (MASK_TIMELESS, "lulc"))
                                    (SelList [PyInt 3; PyStr "1"]))
    Sample.mask_1x1x4
  = Raise (ValueError (InvalidListExpectedIntegers (SelList [PyInt 3; PyStr "1"]))).
Proof.
  split.
  - destruct (proj1 (band_list_order
                       (ExportToTiff.with_band_indices
                          (ExportToTiff.default (MASK_TIMELESS, "lulc"))
                          (SelList [PyInt 3; PyInt (-4); PyInt 1]))
                       Sample.mask_1x1x4)
                    [3; -4; 1]%Z 4 eq_refl ltac:(discriminate) eq_refl eq_refl)
      as (out & Hout & Hshape & Hget).
    + repeat constructor; lia.
    + exists out. split; [exact Hout|]. split; [exact Hshape|].
      exact (Hget [0; 0] 1 eq_refl ltac:(simpl; lia)).
  - apply (proj2 (band_list_order
                    (ExportToTiff.with_band_indices
                       (ExportToTiff.default (MASK_TIMELESS, "lulc"))
                       (SelList [PyInt 3; PyStr "1"]))
                    Sample.mask_1x1x4)).
    + reflexivity.
    + apply Exists_cons_tl, Exists_cons_hd. reflexivity.
    + discriminate.
Defined.

(** C7 as stated fails on a list of booleans: [True, False, False, True] on
    four bands is not rejected, and the result is not the bands in the order
    of the list (bands 1, 0, 0, 1 for the integers the booleans stand for) but
    the bands 0 and 3 the list marks as a mask. *)
Lemma band_list_of_bools_neither_rejected_nor_in_order :
  let l := [PyBool true; PyBool false; PyBool false; PyBool true] in
  let self := ExportToTiff.with_band_indices (ExportToTiff.default (MASK_TIMELESS, "lulc"))
                                             (SelList l) in
  Forall (fun v => isinstance_int v = true /\ type_of v <> TInt) l /\
  ExportToTiff._get_bands_subset self Sample.mask_1x1x4 = Ok (np.mk [1; 1; 2] [10; 13]%Z) /\
  ExportToTiff._get_bands_subset self Sample.mask_1x1x4
  <> Raise (ValueError (InvalidListExpectedIntegers (SelList l))) /\
  ExportToTiff._get_bands_subset self Sample.mask_1x1x4
  <> Ok (np.take_last Sample.mask_1x1x4 (map (fun v => Z.to_nat (np.as_int v)) l)) /\
  np.take_last Sample.mask_1x1x4 (map (fun v => Z.to_nat (np.as_int v)) l)
  = np.mk [1; 1; 4] [11; 10; 10; 11]%Z.
Proof.
  split; [repeat constructor; discriminate|].
  split; [reflexivity|].
  split; [discriminate|].
  split; [discriminate | reflexivity].
Qed.

(** ** The layout of the written bands *)

Lemma row_major_lt (n m i j : nat) : i < n -> j < m -> i * m + j < n * m.
Proof. intros Hi Hj. nia. Qed.

Lemma moveaxis_last_to_1_shape (a : np.ndarray) (T H W B : nat) :
  np.shape a = [T; H; W; B] -> np.shape (np.moveaxis_last_to_1 a) = [T; B; H; W].
Proof. unfold np.moveaxis_last_to_1. intros ->. reflexivity. Qed.

Lemma reshape_moved (a : np.ndarray) (T H W B : nat) :
  np.shape a = [T; H; W; B] ->
  np.reshape (np.moveaxis_last_to_1 a) [T * B; H; W]
  = Ok (np.mk [T * B; H; W] (np.data (np.moveaxis_last_to_1 a))).
Proof.
  intros Hs. unfold np.reshape. rewrite (moveaxis_last_to_1_shape a T H W B Hs).
  replace (np.prod [T * B; H; W] =? np.prod [T; B; H; W]) with true; [reflexivity|].
  symmetry. apply Nat.eqb_eq. unfold np.prod. simpl. lia.
Qed.

(** Element (t, b, y, x) of the moved array is element (t, y, x, b) of the
    array. *)
Lemma moveaxis_last_to_1_nth (a : np.ndarray) (T H W B t b y x : nat) :
  np.shape a = [T; H; W; B] ->
  t < T -> b < B -> y < H -> x < W ->
  nth_error (np.data (np.moveaxis_last_to_1 a)) ((t * B + b) * (H * W) + (y * W + x))
  = Some (nth (((t * H + y) * W + x) * B + b) (np.data a) 0%Z).
Proof.
  intros Hs Ht Hb Hy Hx. unfold np.moveaxis_last_to_1. rewrite Hs. simpl.
  assert (Hrow : forall t' b' y',
    length (map (fun x' => nth (((t' * H + y') * W + x') * B + b') (np.data a) 0%Z)
                (seq 0 W)) = W).
  { intros. rewrite List.length_map, List.length_seq. reflexivity. }
  assert (Hplane : forall t' b',
    length (flat_map (fun y' =>
              map (fun x' => nth (((t' * H + y') * W + x') * B + b') (np.data a) 0%Z)
                  (seq 0 W)) (seq 0 H)) = H * W).
  { intros. rewrite (length_flat_map_const _ W), List.length_seq by (intros; apply Hrow).
    reflexivity. }
  assert (Htime : forall t',
    length (flat_map (fun b' => flat_map (fun y' =>
              map (fun x' => nth (((t' * H + y') * W + x') * B + b') (np.data a) 0%Z)
                  (seq 0 W)) (seq 0 H)) (seq 0 B)) = B * (H * W)).
  { intros. rewrite (length_flat_map_const _ (H * W)), List.length_seq
      by (intros; apply Hplane).
    reflexivity. }
  replace ((t * B + b) * (H * W) + (y * W + x))
    with (t * (B * (H * W)) + (b * (H * W) + (y * W + x))) by lia.
  assert (Hyx : y * W + x < H * W) by (apply (row_major_lt H W y x); assumption).
  assert (Hbyx : b * (H * W) + (y * W + x) < B * (H * W))
    by (apply (row_major_lt B (H * W) b); assumption).
  rewrite (nth_error_flat_map_seq _ (B * (H * W))); [|exact Htime|exact Ht|exact Hbyx].
  rewrite (nth_error_flat_map_seq _ (H * W)); [|apply Hplane|exact Hb|exact Hyx].
  rewrite (nth_error_flat_map_seq _ W); [|apply Hrow|exact Hy|exact Hx].
  simpl. rewrite nth_error_map_seq by exact Hx. reflexivity.
Qed.

Lemma get_4d (a : np.ndarray) (T H W B t y x b : nat) :
  np.wf a ->
  np.shape a = [T; H; W; B] ->
  t < T -> y < H -> x < W -> b < B ->
  np.get a [t; y; x; b] = Some (nth (((t * H + y) * W + x) * B + b) (np.data a) 0%Z).
Proof.
  intros Hwf Hs Ht Hy Hx Hb. unfold np.get, np.in_bounds, np.offset, np.wf in *.
  rewrite Hs in *. simpl.
  destruct (Nat.ltb_spec t T), (Nat.ltb_spec y H), (Nat.ltb_spec x W), (Nat.ltb_spec b B);
    try lia.
  simpl. apply nth_error_nth'. rewrite Hwf. unfold np.prod. simpl.
  pose proof (row_major_lt T H t y ltac:(lia) ltac:(lia)) as Hty.
  pose proof (row_major_lt (T * H) W (t * H + y) x Hty ltac:(lia)) as Htyx.
  pose proof (row_major_lt (T * H * W) B ((t * H + y) * W + x) b Htyx ltac:(lia)) as Htyxb.
  lia.
Qed.

Lemma astype_wf (a : np.ndarray) (dt : np.dtype) : np.wf a -> np.wf (np.astype a dt).
Proof. unfold np.wf, np.astype. simpl. rewrite List.length_map. auto. Qed.

Lemma planes_pixel (count H W j y x : nat) (a : np.ndarray) :
  j < count -> y < H -> x < W ->
  match nth_error (ExportToTiff.planes count H W a) j with
  | Some plane => nth_error plane (y * W + x)
  | None => None
  end = nth_error (np.data a) (j * (H * W) + (y * W + x)).
Proof.
  intros Hj Hy Hx. unfold ExportToTiff.planes.
  rewrite nth_error_map_seq by exact Hj.
  apply nth_error_chunk. by apply row_major_lt.
Qed.

Section BandLayout.
Context `{env : ExportEnv}.
Import ExportToTiff.

(** What a successful call leaves on disk. *)
Lemma execute_Ok (self : t) (eopatch eopatch' : EOPatch) (filename : string)
    (fs fs' : filesystem) :
  execute self eopatch filename fs = (Ok eopatch', fs') ->
  eopatch' = eopatch /\
  exists array_sub T H W B dst_transform,
    canonical_array self eopatch = Ok array_sub /\
    np.shape array_sub = [T; H; W; B] /\
    fs' !! path_join (folder self) filename
    = Some (mkRaster
              (mkProfile W H (T * B) (image_dtype self) (no_data_value self) dst_transform
                         (ogc_string (crs (bbox eopatch))))
              (planes (T * B) H W
                 (np.mk [T * B; H; W]
                    (np.data (np.moveaxis_last_to_1
                                (np.astype array_sub (image_dtype self))))))).
Proof.
  unfold execute. intros Hex.
  destruct (canonical_array self eopatch) as [array_sub|] eqn:Hc; [|discriminate].
  destruct (np.shape array_sub) as [|T [|H [|W [|B [|]]]]] eqn:Hs; try discriminate.
  cbn [unpack_shape] in Hex.
  destruct (from_bounds (bbox eopatch) W H) as [dst_transform|]; [|discriminate].
  destruct (open_for_writing _ _); [discriminate|].
  rewrite (reshape_moved (np.astype array_sub (image_dtype self)) T H W B Hs) in Hex.
  destruct (write_bands _ _); [discriminate|].
  injection Hex as <- <-. split; [reflexivity|].
  exists array_sub, T, H, W, B, dst_transform.
  rewrite lookup_insert_eq. auto.
Qed.

(** C2 as the code has it: the written file has T x B bands, and file band
    [k] (counted from 1) holds the plane of time index [(k - 1) / B] and band
    index [(k - 1) mod B] of the selected array, cast to the pixel type. *)
Theorem exported_band_layout (self : t) (eopatch eopatch' : EOPatch) (filename : string)
    (fs fs' : filesystem) :
  execute self eopatch filename fs = (Ok eopatch', fs') ->
  exists array_sub T H W B r,
    canonical_array self eopatch = Ok array_sub /\
    np.shape array_sub = [T; H; W; B] /\
    fs' !! path_join (folder self) filename = Some r /\
    p_count (r_profile r) = T * B /\
    length (r_bands r) = T * B /\
    forall k y x,
      1 <= k <= T * B -> y < H -> x < W ->
      pixel r k y x
      = np.get (np.astype array_sub (image_dtype self)) [(k - 1) / B; y; x; (k - 1) mod B].
Proof.
  intros Hex. apply execute_Ok in Hex.
  destruct Hex as (_ & array_sub & T & H & W & B & dst_transform & Hc & Hs & Hfs).
  eexists array_sub, T, H, W, B, _. split; [exact Hc|]. split; [exact Hs|].
  split; [exact Hfs|]. split; [reflexivity|]. split.
  { simpl. unfold planes. rewrite List.length_map, List.length_seq. reflexivity. }
  intros k y x Hk Hy Hx.
  destruct k as [|j]; [lia|]. replace (S j - 1) with j by lia.
  assert (HB : B <> 0) by nia.
  assert (Ht : j / B < T) by (apply Nat.Div0.div_lt_upper_bound; lia).
  assert (Hb : j mod B < B) by (apply Nat.mod_upper_bound; exact HB).
  unfold pixel, read_band. cbn [r_bands r_profile p_height p_width].
  destruct (Nat.ltb_spec y H), (Nat.ltb_spec x W); try lia. cbn [andb].
  pose proof (planes_pixel (T * B) H W j y x
                (np.mk [T * B; H; W]
                   (np.data (np.moveaxis_last_to_1
                               (np.astype array_sub (image_dtype self)))))
                ltac:(lia) Hy Hx) as Hpx.
  destruct (nth_error _ j) as [plane|]; rewrite Hpx; clear Hpx; cbn [np.data].
  - rewrite (Nat.div_mod_eq j B) at 1.
    replace (B * (j / B) + j mod B) with (j / B * B + j mod B) by lia.
    rewrite (moveaxis_last_to_1_nth _ T H W B) by assumption.
    symmetry. apply (get_4d _ T H W B); try assumption.
    apply astype_wf. by apply (canonical_array_wf self eopatch).
  - rewrite (Nat.div_mod_eq j B) at 1.
    replace (B * (j / B) + j mod B) with (j / B * B + j mod B) by lia.
    rewrite (moveaxis_last_to_1_nth _ T H W B) by assumption.
    symmetry. apply (get_4d _ T H W B); try assumption.
    apply astype_wf. by apply (canonical_array_wf self eopatch).
Qed.

End BandLayout.

(** C2 as stated fails on two times and two bands: file band 1 holds the plane
    of time 0 and band 0, not that of time [1 / 2] and band [1 mod 2], and for
    the last file band, 4, the time index [4 / 2] does not exist. *)
Lemma file_band_k_is_not_k_div_mod :
  let self := ExportToTiff.with_band_indices (ExportToTiff.default (DATA, "bands"))
                                             (SelList [PyInt 0; PyInt 1]) in
  let self := ExportToTiff.with_date_indices self (SelList [PyInt 0; PyInt 1]) in
  exists fs' r,
    ExportToTiff.execute self Sample.tile "out.tif" ∅ = (Ok Sample.tile, fs') /\
    ExportToTiff.canonical_array self Sample.tile = Ok Sample.data_2x1x1x2 /\
    fs' !! "./out.tif" = Some r /\
    p_count (r_profile r) = 2 * 2 /\
    pixel r 1 0 0 = Some 10%Z /\
    np.get (np.astype Sample.data_2x1x1x2 np.uint8) [1 / 2; 0; 0; 1 mod 2] = Some 11%Z /\
    pixel r 4 0 0 = Some 21%Z /\
    np.get (np.astype Sample.data_2x1x1x2 np.uint8) [4 / 2; 0; 0; 4 mod 2] = None.
Proof.
  eexists _, _. split; [reflexivity|].
  split; [reflexivity|].
  split; [vm_compute; reflexivity|].
  repeat split.
Qed.

Lemma exported_band_layout_witness :
  exists r,
    snd (ExportToTiff.execute
           (ExportToTiff.with_date_indices
              (ExportToTiff.with_band_indices (ExportToTiff.default (DATA, "bands"))
                                              (SelList [PyInt 0; PyInt 1]))
              (SelList [PyInt 0; PyInt 1]))
           Sample.tile "out.tif" ∅)
    !! "./out.tif" = Some r /\
    p_count (r_profile r) = 4 /\
    pixel r 2 0 0 = Some 11%Z /\
    pixel r 3 0 0 = Some 20%Z.
Proof.
  destruct (exported_band_layout (env := Sample.export_env)
              (ExportToTiff.with_date_indices
                 (ExportToTiff.with_band_indices (ExportToTiff.default (DATA, "bands"))
                                                 (SelList [PyInt 0; PyInt 1]))
                 (SelList [PyInt 0; PyInt 1]))
              Sample.tile Sample.tile "out.tif" ∅ _ eq_refl)
    as (array_sub & T & H & W & B & r & Hc & Hs & Hfs & Hcount & _ & Hpx).
  vm_compute in Hc. injection Hc as <-. injection Hs as <- <- <- <-.
  exists r. split; [exact Hfs|]. split; [exact Hcount|].
  rewrite (Hpx 2 0 0), (Hpx 3 0 0) by (simpl; lia). split; reflexivity.
Defined.

Lemma canonical_array_rank_4_witness :
  exists array_sub,
    ExportToTiff.canonical_array
      (ExportToTiff.with_band_indices (ExportToTiff.default (MASK_TIMELESS, "lulc"))
                                      (SelList [PyInt 2; PyInt 0]))
      Sample.tile = Ok array_sub /\
    np.ndim array_sub = 4.
Proof.
  eexists. split; [reflexivity|].
  apply (canonical_array_rank_4 (env := Sample.export_env)
           (ExportToTiff.with_band_indices (ExportToTiff.default (MASK_TIMELESS, "lulc"))
                                           (SelList [PyInt 2; PyInt 0]))
           Sample.tile Sample.mask_1x1x4).
  - reflexivity.
  - vm_compute. reflexivity.
  - reflexivity.
  - reflexivity.
Defined.

(** ** The model on concrete inputs *)

(** [int] truncates towards zero: a tile that starts 15 m left of a source
    with 10 m pixels starts at column -1, and one that starts 95 m below the
    source's top starts at row 9. *)
Example window_truncates_towards_zero :
  ReadFromTiff._get_window (Sample.source 2)
    (mkBBox 499985 3999700 500300 3999905 "EPSG:32633")
  = Ok ((9, 30), (-1, 30))%Z.
Proof. reflexivity. Qed.

Example window_of_flat_source_raises :
  ReadFromTiff._get_window
    (mkSource (mkAffine 10 0 500000 0 0 4000000) "EPSG:32633" 500000 4000000 1 np.uint8)
    Sample.sample_bbox
  = Raise ZeroDivisionError.
Proof. reflexivity. Qed.

Example projection_failure_leaves_tile :
  ReadFromTiff.execute (ReadFromTiff.mk "a.tif" "m")
    (mkEOPatch (features Sample.tile) (timestamp Sample.tile)
               (mkBBox 15 46 16 47 "EPSG:4326"))
    None (Some 5%Z)
  = (Raise (LibraryError "ProjError"),
     mkEOPatch (features Sample.tile) (timestamp Sample.tile)
               (mkBBox 15 46 16 47 "EPSG:4326")).
Proof. reflexivity. Qed.

Example read_failure_leaves_tile :
  ReadFromTiff.execute (ReadFromTiff.mk "corrupt.tif" "m") Sample.tile (Some 2%Z) (Some 2%Z)
  = (Raise (LibraryError "RasterioIOError"), Sample.tile).
Proof. reflexivity. Qed.

(** A square request hides the order of the first two axes; the bands are the
    last axis and hold what each read returned. *)
Example import_2x2 :
  features (snd (ReadFromTiff.execute (ReadFromTiff.mk "a.tif" "m") Sample.tile None None))
  !! (MASK_TIMELESS, "m")
  = Some (np.moveaxis_first_to_last
            (np.mk [2; 20; 20]
               (flat_map (fun band =>
                  flat_map (fun i => map (fun j => Z.of_nat (100 * band + 10 * i + j))
                                         (seq 0 20)) (seq 0 20)) [1; 2]))).
Proof. vm_compute. reflexivity. Qed.

(** The exporter with its default selectors on a single-time, single-band
    2 x 2 attribute [[1, 2], [3, 4]]: one band with those pixels. *)
Example export_2x2_default :
  let eopatch := mkEOPatch {[ (DATA, "b") := np.mk [1; 2; 2; 1] [1; 2; 3; 4]%Z ]}
                           [1514764800000000%Z] Sample.sample_bbox in
  r_bands <$> (snd (ExportToTiff.execute (ExportToTiff.default (DATA, "b")) eopatch
                      "out.tif" ∅) !! "./out.tif")
  = Some [[1; 2; 3; 4]%Z].
Proof. vm_compute. reflexivity. Qed.

(** A band range that starts at 1 is what the specification says. *)
Example band_range_from_1 :
  ExportToTiff.band_range_positions 4 1 2 = Spec.range_positions 4 1 2.
Proof. reflexivity. Qed.

(** A list with no element is an index array of floats. *)
Example empty_band_list_raises :
  ExportToTiff._get_bands_subset
    (ExportToTiff.with_band_indices (ExportToTiff.default (MASK_TIMELESS, "lulc")) (SelList []))
    Sample.mask_1x1x4
  = Raise IndexError.
Proof. reflexivity. Qed.

(** A tuple of bools is not a tuple of ints, a list of bools is a mask. *)
Example bool_selectors :
  ExportToTiff._get_bands_subset
    (ExportToTiff.with_band_indices (ExportToTiff.default (MASK_TIMELESS, "lulc"))
                                    (SelTuple [PyBool false; PyBool true]))
    Sample.mask_1x1x4
  = Raise (ValueError (InvalidTupleExpectedIntegers (SelTuple [PyBool false; PyBool true]))) /\
  ExportToTiff._get_bands_subset
    (ExportToTiff.with_band_indices (ExportToTiff.default (MASK_TIMELESS, "lulc"))
                                    (SelList [PyBool true; PyBool false; PyBool false; PyBool true]))
    Sample.mask_1x1x4
  = Ok (np.mk [1; 1; 2] [10; 13]%Z).
Proof. split; reflexivity. Qed.

(** * Further properties of the exporter *)

(** ** Positions an index array selects *)

Lemma normalize_index_lt (n : nat) (i : Z) (k : nat) :
  np.normalize_index n i = Ok k -> k < n.
Proof.
  unfold np.normalize_index.
  destruct (Z.leb_spec 0 i), (Z.ltb_spec i (Z.of_nat n)); simpl;
    try (intros [= <-]; lia);
    destruct (Z.leb_spec (- Z.of_nat n) i), (Z.ltb_spec i 0); simpl;
    try discriminate; intros [= <-]; lia.
Qed.

Lemma normalize_index_Raise (n : nat) (i : Z) :
  ~ (- Z.of_nat n <= i < Z.of_nat n)%Z -> np.normalize_index n i = Raise IndexError.
Proof.
  intros Hout. unfold np.normalize_index.
  destruct (Z.leb_spec 0 i), (Z.ltb_spec i (Z.of_nat n)); simpl; try lia;
    destruct (Z.leb_spec (- Z.of_nat n) i), (Z.ltb_spec i 0); simpl; try lia; reflexivity.
Qed.

Lemma mapM_normalize_index_lt (n : nat) (l : list Z) (pos : list nat) :
  mapM (np.normalize_index n) l = Ok pos -> Forall (fun q => q < n) pos.
Proof.
  revert pos. induction l as [|i l IH]; intros pos Hm; simpl in Hm.
  - injection Hm as <-. constructor.
  - inv_bind Hm. inv_bind Hm. injection Hm as <-.
    constructor; [by apply (normalize_index_lt n i) | by apply IH].
Qed.

Lemma mapM_normalize_index_Raise (n : nat) (l : list Z) :
  Exists (fun i => ~ (- Z.of_nat n <= i < Z.of_nat n)%Z) l ->
  mapM (np.normalize_index n) l = Raise IndexError.
Proof.
  induction l as [|i l IH]; intros Hex; [by inversion Hex|].
  simpl. destruct (np.normalize_index n i) as [k|e] eqn:Hi.
  - simpl. inversion Hex as [? ? Hout | ? ? Hl]; subst.
    + rewrite (normalize_index_Raise n i Hout) in Hi. discriminate.
    + rewrite (IH Hl). reflexivity.
  - unfold np.normalize_index in Hi.
    destruct (_ && _); [discriminate|]. destruct (_ && _); [discriminate|].
    injection Hi as <-. reflexivity.
Qed.

Lemma normalize_index_of_nat (n q : nat) :
  q < n -> np.normalize_index n (Z.of_nat q) = Ok q.
Proof.
  intros Hq. unfold np.normalize_index.
  destruct (Z.leb_spec 0 (Z.of_nat q)), (Z.ltb_spec (Z.of_nat q) (Z.of_nat n)); try lia.
  simpl. rewrite Nat2Z.id. reflexivity.
Qed.

Lemma mapM_normalize_index_of_nat (n : nat) (pos : list nat) :
  Forall (fun q => q < n) pos ->
  mapM (np.normalize_index n) (map Z.of_nat pos) = Ok pos.
Proof.
  induction 1 as [|q pos Hq _ IH]; [reflexivity|].
  cbn [map mapM]. rewrite (normalize_index_of_nat n q Hq), IH. reflexivity.
Qed.

Lemma nonzero_lt {A} (truthy : A -> bool) (xs : list A) :
  Forall (fun q => q < length xs) (np.nonzero truthy xs).
Proof.
  unfold np.nonzero. apply List.Forall_forall. intros q Hq.
  apply in_map_iff in Hq. destruct Hq as ([k v] & <- & Hin).
  apply filter_In in Hin. destruct Hin as [Hin _].
  apply in_combine_l in Hin. apply in_seq in Hin. simpl. lia.
Qed.

Lemma resolve_index_lt (n : nat) (ix : np.index) (pos : list nat) :
  np.resolve_index n ix = Ok pos -> Forall (fun q => q < n) pos.
Proof.
  destruct ix as [l | m |]; simpl; [| |discriminate].
  - apply mapM_normalize_index_lt.
  - destruct (Nat.eqb_spec (length m) n) as [<-|]; [|discriminate].
    intros [= <-]. apply nonzero_lt.
Qed.

Lemma filter_seq_lt (f : nat -> bool) (n : nat) :
  Forall (fun q => q < n) (List.filter f (seq 0 n)).
Proof.
  apply List.Forall_forall. intros q Hq. apply filter_In in Hq.
  destruct Hq as [Hq _]. apply in_seq in Hq. lia.
Qed.

(** ** Reading an element of an array gathered along the first axis *)

Lemma nth_error_flat_map_list {A} (f : nat -> list A) (m : nat) (l : list nat) (i j : nat) :
  (forall k, length (f k) = m) -> i < length l -> j < m ->
  nth_error (flat_map f l) (i * m + j) = nth_error (f (nth i l 0)) j.
Proof.
  intros Hf. revert i. induction l as [|k l IH]; intros i Hi Hj; simpl in *; [lia|].
  destruct i as [|i].
  - rewrite nth_error_app1 by (rewrite Hf; lia). reflexivity.
  - rewrite nth_error_app2 by (rewrite Hf; lia).
    rewrite Hf. replace (S i * m + j - m) with (i * m + j) by lia.
    apply IH; lia.
Qed.

Lemma offset_from_acc (s ix : list nat) (acc : nat) :
  length s = length ix ->
  fold_left (fun (a : nat) (di : nat * nat) => a * fst di + snd di) (combine s ix) acc
  = acc * np.prod s
    + fold_left (fun (a : nat) (di : nat * nat) => a * fst di + snd di) (combine s ix) 0.
Proof.
  revert ix acc. induction s as [|d s IH]; intros [|i ix] acc Hlen;
    try discriminate; simpl in *; [lia|].
  rewrite (IH ix (acc * d + i)), (IH ix i) by lia. unfold np.prod. simpl. lia.
Qed.

Lemma offset_cons (d i : nat) (s ix : list nat) :
  length s = length ix ->
  np.offset (d :: s) (i :: ix) = i * np.prod s + np.offset s ix.
Proof.
  intros Hlen. unfold np.offset. simpl. apply offset_from_acc. exact Hlen.
Qed.

Lemma in_bounds_cons (d i : nat) (s ix : list nat) :
  np.in_bounds (d :: s) (i :: ix) = (i <? d) && np.in_bounds s ix.
Proof.
  unfold np.in_bounds. simpl.
  destruct (length s =? length ix), (i <? d); reflexivity.
Qed.

Lemma take_first_get (a : np.ndarray) (pos ix : list nat) (p d : nat) (s : list nat) :
  np.wf a ->
  np.shape a = d :: s ->
  Forall (fun q => q < d) pos ->
  np.in_bounds s ix = true ->
  p < length pos ->
  np.get (np.take_first a pos) (p :: ix) = np.get a (nth p pos 0 :: ix).
Proof.
  intros Hwf Hs Hpos Hix Hp.
  assert (Hq : nth p pos 0 < d).
  { rewrite List.Forall_forall in Hpos. apply Hpos. by apply nth_In. }
  pose proof (in_bounds_length _ _ Hix) as Hlen.
  pose proof (offset_lt _ _ Hix) as Ho.
  unfold np.get, np.take_first, np.wf in *. rewrite Hs in *. simpl np.shape. simpl np.data.
  rewrite !in_bounds_cons, Hix, !offset_cons by exact Hlen.
  destruct (Nat.ltb_spec p (length pos)), (Nat.ltb_spec (nth p pos 0) d); try lia.
  simpl andb. cbv iota. simpl tl.
  rewrite (nth_error_flat_map_list _ (np.prod s)); try assumption;
    [|intros; rewrite List.length_map, List.length_seq; reflexivity].
  rewrite nth_error_map_seq by exact Ho.
  symmetry. apply nth_error_nth'. rewrite Hwf. unfold np.prod in *. simpl.
  apply row_major_lt; assumption.
Qed.

(** ** Selecting bands and dates *)

Lemma index_last_positions (a : np.ndarray) (n : nat) (pos : list nat) :
  np.last_dim a = Ok n ->
  Forall (fun q => q < n) pos ->
  np.index_last a (np.IntIndex (map Z.of_nat pos)) = Ok (np.take_last a pos).
Proof.
  intros Hn Hpos. unfold np.index_last. rewrite Hn. simpl.
  rewrite (mapM_normalize_index_of_nat n pos Hpos). reflexivity.
Qed.

Lemma index_first_positions (a : np.ndarray) (d : nat) (s : list nat) (pos : list nat) :
  np.shape a = d :: s ->
  Forall (fun q => q < d) pos ->
  np.index_first a (np.IntIndex (map Z.of_nat pos)) = Ok (np.take_first a pos).
Proof.
  intros Hs Hpos. unfold np.index_first, np.first_dim. rewrite Hs. simpl.
  rewrite (mapM_normalize_index_of_nat d pos Hpos). reflexivity.
Qed.

Lemma band_range_positions_filter (n : nat) (lo hi : Z) :
  ExportToTiff.band_range_positions n lo hi
  = List.filter (fun i => (1 <=? i) && ((lo <=? Z.of_nat i)%Z && (Z.of_nat i <=? hi)%Z))
                (seq 0 n).
Proof.
  rewrite band_range_positions_spec. unfold Spec.range_positions.
  rewrite filter_filter_andb. apply filter_ext. intros i.
  destruct i; simpl; [rewrite andb_false_r | rewrite andb_true_r]; reflexivity.
Qed.

Section Selectors.
Context `{env : ExportEnv}.
Import ExportToTiff.

Lemma execute_canonical_Raise (self : t) (eopatch : EOPatch) (filename : string)
    (fs : filesystem) (e : exn) :
  canonical_array self eopatch = Raise e ->
  execute self eopatch filename fs = (Raise e, fs).
Proof. unfold execute. intros ->. reflexivity. Qed.

Lemma canonical_array_bands_Raise (self : t) (eopatch : EOPatch) (array : np.ndarray)
    (e : exn) :
  features eopatch !! feature self = Some array ->
  _get_bands_subset self array = Raise e ->
  canonical_array self eopatch = Raise e.
Proof.
  intros Hfeat Hb. unfold canonical_array, get_feature. rewrite Hfeat. simpl.
  rewrite Hb. reflexivity.
Qed.

Lemma canonical_array_dates_Raise (self : t) (eopatch : EOPatch)
    (array array_sub : np.ndarray) (e : exn) :
  features eopatch !! feature self = Some array ->
  _get_bands_subset self array = Ok array_sub ->
  time_dependent (fst (feature self)) = true ->
  _get_dates_subset self array_sub (timestamp eopatch) = Raise e ->
  canonical_array self eopatch = Raise e.
Proof.
  intros Hfeat Hb Htime Hd. unfold canonical_array, get_feature. rewrite Hfeat. simpl.
  rewrite Hb. simpl. rewrite Htime, Hd. reflexivity.
Qed.

(** X1: a band range (lo, hi) never raises on an array with a band axis; it
    gathers, in ascending order, the bands whose index i satisfies 1 <= i and
    lo <= i <= hi. A range that holds no such index gives an array with no
    band. *)
Theorem band_range_selection (self : t) (array : np.ndarray) (lo hi : Z) (n : nat) :
  band_indices self = SelTuple [PyInt lo; PyInt hi] ->
  np.wf array ->
  np.last_dim array = Ok n ->
  let pos := List.filter
               (fun i => (1 <=? i) && ((lo <=? Z.of_nat i)%Z && (Z.of_nat i <=? hi)%Z))
               (seq 0 n) in
  exists out,
    _get_bands_subset self array = Ok out /\
    np.shape out = removelast (np.shape array) ++ [length pos] /\
    forall (ix : list nat) (p : nat),
      np.in_bounds (removelast (np.shape array)) ix = true ->
      p < length pos ->
      np.get out (ix ++ [p]) = np.get array (ix ++ [nth p pos 0]).
Proof.
  intros Hsel Hwf Hn pos.
  assert (Hpos : Forall (fun q => q < n) pos) by apply filter_seq_lt.
  exists (np.take_last array pos). split; [|split].
  - unfold _get_bands_subset. rewrite Hn, Hsel. simpl.
    rewrite band_range_positions_filter. by apply (index_last_positions array n).
  - apply take_last_shape.
  - intros ix p Hix Hp. by apply (take_last_get array pos ix p n).
Qed.

(** X2: a band range that does not contain index 0 selects exactly the
    indices of the range that exist, ascending. *)
Theorem band_range_exact_without_zero (n : nat) (lo hi : Z) :
  (0 < lo \/ hi < 0)%Z ->
  band_range_positions n lo hi
  = List.filter (fun i => (lo <=? Z.of_nat i)%Z && (Z.of_nat i <=? hi)%Z) (seq 0 n).
Proof.
  intros Hzero. rewrite band_range_positions_filter.
  apply filter_ext. intros i. destruct i; [|reflexivity].
  simpl. symmetry. apply andb_false_iff.
  destruct Hzero; [left; apply Z.leb_gt | right; apply Z.leb_gt]; lia.
Qed.

(** X3: a date selector that is a non-empty list of integers, each a valid
    index of the time axis, gathers the times in the order of the list,
    negative indices counting from the end; the timestamps of the tile play no
    part. *)
Theorem date_list_order (self : t) (array : np.ndarray) (dates : list Z)
    (ds : list Z) (d : nat) (s : list nat) :
  date_indices self = SelList (map PyInt ds) ->
  ds <> [] ->
  np.wf array ->
  np.shape array = d :: s ->
  Forall (fun i => (- Z.of_nat d <= i < Z.of_nat d)%Z) ds ->
  exists out,
    _get_dates_subset self array dates = Ok out /\
    np.shape out = length ds :: s /\
    forall (ix : list nat) (p : nat),
      np.in_bounds s ix = true ->
      p < length ds ->
      np.get out (p :: ix) = np.get array (wrap d (nth p ds 0%Z) :: ix).
Proof.
  intros Hsel Hne Hwf Hs Hrange.
  exists (np.take_first array (map (wrap d) ds)). split; [|split].
  - unfold _get_dates_subset, np.index_first, np.first_dim. rewrite Hsel, Hs. simpl.
    rewrite existsb_not_int_PyInt, (array_of_ints_PyInt ds Hne). simpl.
    rewrite (mapM_normalize_index d ds Hrange). reflexivity.
  - rewrite take_first_shape, List.length_map, Hs. reflexivity.
  - intros ix p Hix Hp.
    rewrite (take_first_get array _ ix p d s Hwf Hs); try assumption.
    + rewrite (nth_indep _ 0 (wrap d 0%Z)) by (rewrite List.length_map; exact Hp).
      rewrite (map_nth (wrap d)). reflexivity.
    + apply List.Forall_forall. intros q Hq. apply in_map_iff in Hq.
      destruct Hq as (i & <- & Hi).
      rewrite List.Forall_forall in Hrange.
      apply (normalize_index_mod d i (Hrange i Hi)).
    + rewrite List.length_map. exact Hp.
Qed.

(** X4: an empty band list, and an empty date list for a time dependent
    attribute, make the exporter raise IndexError, not an invalid-configuration
    error, before any file is touched. *)
Theorem empty_list_raises_IndexError (self : t) (eopatch : EOPatch) (filename : string)
    (fs : filesystem) (array : np.ndarray) :
  features eopatch !! feature self = Some array ->
  np.shape array <> [] ->
  (band_indices self = SelList [] ->
   execute self eopatch filename fs = (Raise IndexError, fs)) /\
  (date_indices self = SelList [] ->
   time_dependent (fst (feature self)) = true ->
   (exists array_sub, _get_bands_subset self array = Ok array_sub) ->
   execute self eopatch filename fs = (Raise IndexError, fs)).
Proof.
  intros Hfeat Hs. destruct (last_dim_Ok array Hs) as [n Hn]. split.
  - intros Hsel. apply execute_canonical_Raise.
    apply (canonical_array_bands_Raise self eopatch array); [exact Hfeat|].
    unfold _get_bands_subset, np.index_last. rewrite Hn, Hsel. reflexivity.
  - intros Hsel Htime [array_sub Hsub]. apply execute_canonical_Raise.
    apply (canonical_array_dates_Raise self eopatch array array_sub); try assumption.
    unfold _get_dates_subset, np.index_first, np.first_dim. rewrite Hsel. simpl.
    destruct (np.shape array_sub); reflexivity.
Qed.

(** X5: a band list of ints that all fit a signed 64-bit integer, with an
    element outside [-n, n) for a band axis of length n, raises IndexError. *)
Theorem band_list_out_of_range (self : t) (array : np.ndarray) (bs : list Z) (n : nat) :
  band_indices self = SelList (map PyInt bs) ->
  np.last_dim array = Ok n ->
  Forall (fun b => (- 2 ^ 63 <= b < 2 ^ 63)%Z) bs ->
  Exists (fun b => ~ (- Z.of_nat n <= b < Z.of_nat n)%Z) bs ->
  _get_bands_subset self array = Raise IndexError.
Proof.
  intros Hsel Hn _ Hout.
  assert (Hne : bs <> []) by (intros ->; inversion Hout).
  unfold _get_bands_subset, np.index_last. rewrite Hn, Hsel. simpl.
  rewrite existsb_not_int_PyInt, (array_of_ints_PyInt bs Hne). simpl.
  rewrite (mapM_normalize_index_Raise n bs Hout). reflexivity.
Qed.

End Selectors.

(** ** Date ranges over ordered timestamps, and boolean masks *)

Lemma filter_none {A} (f : A -> bool) (l : list A) :
  (forall x, In x l -> f x = false) -> List.filter f l = [].
Proof.
  induction l as [|x l IH]; intros Hf; simpl; [reflexivity|].
  rewrite (Hf x) by (by left). apply IH. intros y Hy. apply Hf. by right.
Qed.

Lemma filter_all {A} (f : A -> bool) (l : list A) :
  (forall x, In x l -> f x = true) -> List.filter f l = l.
Proof.
  induction l as [|x l IH]; intros Hf; simpl; [reflexivity|].
  rewrite (Hf x) by (by left). f_equal. apply IH. intros y Hy. apply Hf. by right.
Qed.

Lemma filter_seq_interval (i j n : nat) :
  i <= j < n ->
  List.filter (fun k => (i <=? k) && (k <=? j)) (seq 0 n) = seq i (S j - i).
Proof.
  intros Hij.
  replace n with (i + ((S j - i) + (n - S j))) by lia.
  rewrite !seq_app, !List.filter_app. simpl (0 + i).
  rewrite filter_none, filter_all, filter_none.
  - rewrite app_nil_r. reflexivity.
  - intros k Hk. apply in_seq in Hk.
    destruct (Nat.leb_spec i k), (Nat.leb_spec k j); simpl; try reflexivity; lia.
  - intros k Hk. apply in_seq in Hk.
    destruct (Nat.leb_spec i k), (Nat.leb_spec k j); simpl; try reflexivity; lia.
  - intros k Hk. apply in_seq in Hk.
    destruct (Nat.leb_spec i k), (Nat.leb_spec k j); simpl; try reflexivity; lia.
Qed.

Lemma increasing_le (dates : list Z) (a b : nat) :
  (forall a b, a < b < length dates -> (nth a dates 0 < nth b dates 0)%Z) ->
  a < length dates -> b < length dates ->
  (nth a dates 0 <=? nth b dates 0)%Z = (a <=? b).
Proof.
  intros Hinc Ha Hb.
  destruct (Nat.leb_spec a b) as [Hab|Hab].
  - apply Z.leb_le. destruct (Nat.eq_dec a b) as [->|Hne]; [lia|].
    specialize (Hinc a b ltac:(lia)). lia.
  - apply Z.leb_gt. apply Hinc. lia.
Qed.

Lemma array_of_ints_PyBool (m : list bool) :
  m <> [] -> np.array_of_ints (map PyBool m) = np.BoolIndex m.
Proof.
  destruct m as [|b m]; [congruence|]. intros _. simpl.
  assert (Hall : forallb np.is_bool (map PyBool m) = true)
    by (induction m; simpl; auto).
  rewrite Hall, map_map. simpl. rewrite map_id. reflexivity.
Qed.

Lemma existsb_not_int_PyBool (m : list bool) :
  existsb (fun band => negb (isinstance_int band)) (map PyBool m) = false.
Proof. induction m as [|b m IH]; simpl; [reflexivity | exact IH]. Qed.

Section OrderedDatesAndMasks.
Context `{env : ExportEnv}.
Import ExportToTiff.

(** X6: when the timestamps are strictly increasing, an integer date range
    (i, j) with i <= j keeps exactly the times i, i + 1, ..., j, in this
    order. *)
Theorem date_range_of_increasing_timestamps (self : t) (array : np.ndarray)
    (dates : list Z) (i j d : nat) (s : list nat) :
  date_indices self = SelTuple [PyInt (Z.of_nat i); PyInt (Z.of_nat j)] ->
  (forall a b, a < b < length dates -> (nth a dates 0 < nth b dates 0)%Z) ->
  i <= j < length dates ->
  j < d ->
  np.wf array ->
  np.shape array = d :: s ->
  exists out,
    _get_dates_subset self array dates = Ok out /\
    np.shape out = (S j - i) :: s /\
    forall (ix : list nat) (p : nat),
      np.in_bounds s ix = true ->
      p < S j - i ->
      np.get out (p :: ix) = np.get array ((i + p) :: ix).
Proof.
  intros Hsel Hinc Hij Hjd Hwf Hs.
  assert (Hpos : date_range_positions dates (nth i dates 0%Z) (nth j dates 0%Z)
                 = seq i (S j - i)).
  { rewrite date_range_positions_spec, <- (filter_seq_interval i j (length dates) Hij).
    apply filter_ext_in. intros k Hk. apply in_seq in Hk.
    rewrite !(increasing_le dates) by (assumption || lia). reflexivity. }
  assert (Hlt : Forall (fun q => q < d) (seq i (S j - i))).
  { apply List.Forall_forall. intros q Hq. apply in_seq in Hq. lia. }
  exists (np.take_first array (seq i (S j - i))). split; [|split].
  - unfold _get_dates_subset, date_item. rewrite Hsel.
    rewrite !normalize_index_of_nat by lia. simpl.
    rewrite Hpos. by apply (index_first_positions array d s).
  - rewrite take_first_shape, List.length_seq, Hs. reflexivity.
  - intros ix p Hix Hp.
    rewrite (take_first_get array _ ix p d s Hwf Hs Hlt Hix)
      by (rewrite List.length_seq; exact Hp).
    rewrite seq_nth by exact Hp. reflexivity.
Qed.

(** X7: a band list that holds only booleans is used as a mask over the band
    axis: a list whose length is not the number of bands raises IndexError, and
    one of the right length keeps the bands at its True positions, ascending. *)
Theorem band_list_of_bools_is_mask (self : t) (array : np.ndarray) (m : list bool)
    (n : nat) :
  band_indices self = SelList (map PyBool m) ->
  m <> [] ->
  np.wf array ->
  np.last_dim array = Ok n ->
  (length m <> n -> _get_bands_subset self array = Raise IndexError) /\
  (length m = n ->
   let pos := List.filter (fun k => nth k m false) (seq 0 n) in
   exists out,
     _get_bands_subset self array = Ok out /\
     np.shape out = removelast (np.shape array) ++ [length pos] /\
     forall (ix : list nat) (p : nat),
       np.in_bounds (removelast (np.shape array)) ix = true ->
       p < length pos ->
       np.get out (ix ++ [p]) = np.get array (ix ++ [nth p pos 0])).
Proof.
  intros Hsel Hne Hwf Hn.
  assert (Hrun : _get_bands_subset self array
                 = (pos ← np.resolve_index n (np.BoolIndex m); Ok (np.take_last array pos))).
  { unfold _get_bands_subset, np.index_last. rewrite Hn, Hsel. simpl.
    rewrite existsb_not_int_PyBool, (array_of_ints_PyBool m Hne). reflexivity. }
  split.
  - intros Hlen. rewrite Hrun. simpl.
    destruct (Nat.eqb_spec (length m) n); [contradiction | reflexivity].
  - intros Hlen pos. rewrite Hrun. simpl.
    destruct (Nat.eqb_spec (length m) n); [|contradiction]. simpl.
    assert (Hpos : np.nonzero (fun b : bool => b) m = pos).
    { rewrite <- (map_id m) at 1. rewrite (nonzero_map _ _ false), Hlen. reflexivity. }
    rewrite Hpos. eexists. split; [reflexivity|]. split; [apply take_last_shape|].
    intros ix p Hix Hp. apply (take_last_get array pos ix p n); try assumption.
    apply filter_seq_lt.
Qed.

End OrderedDatesAndMasks.

(** ** What a call of the exporter leaves on disk *)

Lemma moveaxis_last_to_1_length (a : np.ndarray) (T H W B : nat) :
  np.shape a = [T; H; W; B] ->
  length (np.data (np.moveaxis_last_to_1 a)) = T * (B * (H * W)).
Proof.
  intros Hs. unfold np.moveaxis_last_to_1. rewrite Hs. simpl.
  rewrite (length_flat_map_const _ (B * (H * W))), List.length_seq; [reflexivity|].
  intros t. rewrite (length_flat_map_const _ (H * W)), List.length_seq; [reflexivity|].
  intros b. rewrite (length_flat_map_const _ W), List.length_seq; [reflexivity|].
  intros y. rewrite List.length_map, List.length_seq. reflexivity.
Qed.

Lemma planes_lengths (count H W : nat) (a : np.ndarray) :
  length (np.data a) = count * (H * W) ->
  length (ExportToTiff.planes count H W a) = count /\
  Forall (fun plane => length plane = H * W) (ExportToTiff.planes count H W a).
Proof.
  intros Hlen. unfold ExportToTiff.planes. split.
  - rewrite List.length_map, List.length_seq. reflexivity.
  - apply List.Forall_forall. intros plane Hin. apply in_map_iff in Hin.
    destruct Hin as (j & <- & Hj). apply in_seq in Hj.
    rewrite List.length_firstn, List.length_skipn, Hlen. nia.
Qed.

Lemma pixel_Some (r : Raster) (k y x : nat) (v : Z) :
  pixel r k y x = Some v ->
  1 <= k <= length (r_bands r) /\ y < p_height (r_profile r) /\ x < p_width (r_profile r).
Proof.
  unfold pixel, read_band. destruct k as [|j]; [discriminate|].
  destruct (nth_error (r_bands r) j) as [plane|] eqn:Hj; [|discriminate].
  assert (Hlt : j < length (r_bands r)) by (apply nth_error_Some; congruence).
  destruct (Nat.ltb_spec y (p_height (r_profile r))),
           (Nat.ltb_spec x (p_width (r_profile r))); simpl; try discriminate.
  intros _. lia.
Qed.

Lemma get_astype (a : np.ndarray) (dt : np.dtype) (ix : list nat) :
  np.get (np.astype a dt) ix = np.cast dt <$> np.get a ix.
Proof.
  unfold np.get, np.astype. simpl.
  destruct (np.in_bounds (np.shape a) ix); [|reflexivity].
  rewrite nth_error_map. destruct (nth_error (np.data a) _); reflexivity.
Qed.

(** The pixels of the raster that [execute] writes for a canonical array. *)
Lemma written_pixel (array_sub : np.ndarray) (T H W B : nat) (dt : np.dtype)
    (profile : Profile) (k y x : nat) :
  np.wf array_sub ->
  np.shape array_sub = [T; H; W; B] ->
  p_width profile = W ->
  p_height profile = H ->
  1 <= k <= T * B -> y < H -> x < W ->
  pixel (mkRaster profile
           (ExportToTiff.planes (T * B) H W
              (np.mk [T * B; H; W]
                 (np.data (np.moveaxis_last_to_1 (np.astype array_sub dt))))))
        k y x
  = np.cast dt <$> np.get array_sub [(k - 1) / B; y; x; (k - 1) mod B].
Proof.
  intros Hwf Hs Hpw Hph Hk Hy Hx.
  destruct k as [|j]; [lia|]. replace (S j - 1) with j by lia.
  assert (HB : B <> 0) by nia.
  assert (Ht : j / B < T) by (apply Nat.Div0.div_lt_upper_bound; lia).
  assert (Hb : j mod B < B) by (apply Nat.mod_upper_bound; exact HB).
  unfold pixel, read_band. cbn [r_bands r_profile]. rewrite Hpw, Hph.
  destruct (Nat.ltb_spec y H), (Nat.ltb_spec x W); try lia. cbn [andb].
  pose proof (planes_pixel (T * B) H W j y x
                (np.mk [T * B; H; W]
                   (np.data (np.moveaxis_last_to_1 (np.astype array_sub dt))))
                ltac:(lia) Hy Hx) as Hpx.
  assert (Hgoal :
    nth_error (np.data (np.moveaxis_last_to_1 (np.astype array_sub dt)))
              (j * (H * W) + (y * W + x))
    = np.cast dt <$> np.get array_sub [j / B; y; x; j mod B]).
  { rewrite (Nat.div_mod_eq j B) at 1.
    replace (B * (j / B) + j mod B) with (j / B * B + j mod B) by lia.
    rewrite (moveaxis_last_to_1_nth _ T H W B) by assumption.
    rewrite <- get_astype. symmetry. apply (get_4d _ T H W B); try assumption.
    by apply astype_wf. }
  destruct (nth_error _ j) as [plane|]; rewrite Hpx; exact Hgoal.
Qed.

Section OnDisk.
Context `{env : ExportEnv}.
Import ExportToTiff.

(** X9: the exporter changes the disk only after the selection, the shape
    unpacking and the computation of the transform have all succeeded: a call
    that fails in one of them has opened no file. *)
Theorem export_changes_disk_only_after_transform (self : t) (eopatch : EOPatch)
    (filename : string) (fs : filesystem) :
  snd (execute self eopatch filename fs) <> fs ->
  exists array_sub T H W B dst_transform,
    canonical_array self eopatch = Ok array_sub /\
    np.shape array_sub = [T; H; W; B] /\
    from_bounds (bbox eopatch) W H = Ok dst_transform.
Proof.
  unfold execute. intros Hchanged.
  destruct (canonical_array self eopatch) as [array_sub|] eqn:Hc;
    [|simpl in Hchanged; congruence].
  destruct (np.shape array_sub) as [|T [|H [|W [|B [|]]]]] eqn:Hs;
    try (simpl in Hchanged; congruence).
  cbn [unpack_shape] in Hchanged.
  destruct (from_bounds (bbox eopatch) W H) as [dst_transform|] eqn:Hfrom;
    [|simpl in Hchanged; congruence].
  exists array_sub, T, H, W, B, dst_transform. auto.
Qed.

Lemma canonical_array_rank (self : t) (eopatch : EOPatch) (array array_sub : np.ndarray) :
  features eopatch !! feature self = Some array ->
  canonical_array self eopatch = Ok array_sub ->
  np.ndim array_sub = np.ndim array + added_axes (fst (feature self)).
Proof.
  intros Hfeat Hc.
  unfold canonical_array, get_feature in Hc. rewrite Hfeat in Hc. simpl in Hc.
  inv_bind Hc.
  assert (Hrank : np.ndim a = np.ndim array /\ np.shape a <> []).
  { pose proof Ha as Hb. unfold _get_bands_subset in Hb. inv_bind Hb.
    destruct (last_dim_shape array a0 Ha0) as [Hshape _].
    apply get_bands_subset_Ok in Ha. destruct Ha as [pos ->].
    unfold np.ndim. rewrite take_last_shape. split.
    - rewrite Hshape at 2. rewrite !List.length_app. reflexivity.
    - destruct (removelast (np.shape array)); discriminate. }
  destruct Hrank as [Hrank Hne]. rewrite <- Hrank. clear Hrank Hfeat.
  assert (Hexp : forall b axis, np.ndim (np.expand_dims b axis) = S (np.ndim b)).
  { intros b axis. unfold np.ndim, np.expand_dims. simpl.
    rewrite List.length_app. simpl.
    rewrite <- (firstn_skipn axis (np.shape b)) at 3. rewrite List.length_app. lia. }
  assert (Hfirst : forall pos, np.ndim (np.take_first a pos) = np.ndim a).
  { intros pos. unfold np.ndim. rewrite take_first_shape.
    destruct (np.shape a); [congruence | reflexivity]. }
  destruct (fst (feature self)); simpl in Hc |- *;
    try (inv_bind Hc; apply get_dates_subset_Ok in Ha0; destruct Ha0 as [pos' ->]);
    injection Hc as <-; rewrite ?Hexp, ?Hfirst; lia.
Qed.

(** X10: an attribute whose rank is not the one the exporter needs for its
    category (4 for DATA and MASK, 2 for SCALAR, 1 for SCALAR_TIMELESS, 3 for
    any other category) is never exported: the call raises and the disk is
    untouched; when the selection itself succeeds the exception is the
    ValueError of the shape unpacking. No LABEL or LABEL_TIMELESS attribute of
    its category's rank can be exported. *)
Theorem export_wrong_rank_raises (self : t) (eopatch : EOPatch) (filename : string)
    (fs : filesystem) (array : np.ndarray) :
  features eopatch !! feature self = Some array ->
  np.ndim array + added_axes (fst (feature self)) <> 4 ->
  exists e,
    execute self eopatch filename fs = (Raise e, fs) /\
    ((exists array_sub, canonical_array self eopatch = Ok array_sub) ->
     e = ValueError NotEnoughOrTooManyValuesToUnpack).
Proof.
  intros Hfeat Hrank. unfold execute.
  destruct (canonical_array self eopatch) as [array_sub|e] eqn:Hc.
  - pose proof (canonical_array_rank self eopatch array array_sub Hfeat Hc) as Hn.
    unfold np.ndim in Hn.
    destruct (np.shape array_sub) as [|T [|H [|W [|B [|]]]]] eqn:Hs;
      try (eexists; split; [reflexivity | intros _; reflexivity]).
    unfold np.ndim in Hrank. simpl in Hn. lia.
  - exists e. split; [reflexivity|]. intros [? ?]. discriminate.
Qed.

(** X11: the raster a successful call writes is well formed: it holds as
    many bands as its profile counts, and every band has height x width
    pixels. *)
Theorem exported_raster_well_formed (self : t) (eopatch eopatch' : EOPatch)
    (filename : string) (fs fs' : filesystem) :
  execute self eopatch filename fs = (Ok eopatch', fs') ->
  exists r,
    fs' !! path_join (folder self) filename = Some r /\
    length (r_bands r) = p_count (r_profile r) /\
    Forall (fun plane => length plane = p_height (r_profile r) * p_width (r_profile r))
           (r_bands r).
Proof.
  intros Hex. apply execute_Ok in Hex.
  destruct Hex as (_ & array_sub & T & H & W & B & dst_transform & Hc & Hs & Hfs).
  eexists. split; [exact Hfs|]. cbn [r_bands r_profile p_count p_height p_width].
  apply planes_lengths. cbn [np.data].
  rewrite (moveaxis_last_to_1_length _ T H W B) by exact Hs. lia.
Qed.

End OnDisk.

(** ** The values of the written pixels *)

Lemma dtype_modulus (t : np.dtype) :
  (2 ^ np.bits t = 2 * 2 ^ (np.bits t - 1) /\ 2 ^ np.bits t / 2 = 2 ^ (np.bits t - 1)
   /\ 0 < 2 ^ (np.bits t - 1))%Z.
Proof. destruct t; repeat split. Qed.

Lemma cast_range (t : np.dtype) (z : Z) :
  (dtype_min t <= np.cast t z <= dtype_max t)%Z.
Proof.
  unfold np.cast, dtype_min, dtype_max.
  destruct (dtype_modulus t) as (Hm & Hhalf & Hpos). rewrite Hhalf.
  pose proof (Z.mod_pos_bound z (2 ^ np.bits t) ltac:(lia)) as Hu.
  destruct (np.signed t); simpl; [|lia].
  destruct (Z.leb_spec (2 ^ (np.bits t - 1)) (z mod 2 ^ np.bits t)); lia.
Qed.

Lemma cast_in_range (t : np.dtype) (z : Z) :
  (dtype_min t <= z <= dtype_max t)%Z -> np.cast t z = z.
Proof.
  unfold np.cast, dtype_min, dtype_max.
  destruct (dtype_modulus t) as (Hm & Hhalf & Hpos). rewrite Hhalf.
  destruct (np.signed t); simpl; intros Hz.
  - destruct (Z.leb_spec 0 z).
    + rewrite Z.mod_small by lia.
      destruct (Z.leb_spec (2 ^ (np.bits t - 1)) z); lia.
    + rewrite <- (Z_mod_plus_full z 1 (2 ^ np.bits t)), Z.mod_small by lia.
      destruct (Z.leb_spec (2 ^ (np.bits t - 1)) (z + 1 * 2 ^ np.bits t)); lia.
  - apply Z.mod_small. lia.
Qed.

Lemma gathered_values (P : Z -> Prop) (f : nat -> nat -> nat) (data : list Z)
    (outer inner : list nat) :
  P 0%Z -> Forall P data ->
  Forall P (flat_map (fun o => map (fun p => nth (f o p) data 0%Z) inner) outer).
Proof.
  intros H0 Hdata. apply List.Forall_forall. intros v Hv.
  apply in_flat_map in Hv. destruct Hv as (o & _ & Hv).
  apply in_map_iff in Hv. destruct Hv as (p & <- & _).
  destruct (nth_in_or_default (f o p) data 0%Z) as [Hin | ->]; [|exact H0].
  rewrite List.Forall_forall in Hdata. by apply Hdata.
Qed.

Lemma take_last_values (P : Z -> Prop) (a : np.ndarray) (pos : list nat) :
  P 0%Z -> Forall P (np.data a) -> Forall P (np.data (np.take_last a pos)).
Proof.
  intros H0 Ha. unfold np.take_last. simpl.
  apply (gathered_values P (fun o p => o * List.last (np.shape a) 0 + p)); assumption.
Qed.

Lemma take_first_values (P : Z -> Prop) (a : np.ndarray) (pos : list nat) :
  P 0%Z -> Forall P (np.data a) -> Forall P (np.data (np.take_first a pos)).
Proof.
  intros H0 Ha. unfold np.take_first. simpl.
  apply (gathered_values P (fun p r => p * np.prod (tl (np.shape a)) + r)); assumption.
Qed.

Section PixelValues.
Context `{env : ExportEnv}.
Import ExportToTiff.

(** Every element of the canonical array is an element of the attribute (or
    the filler 0 of a gather). *)
Lemma canonical_array_values (P : Z -> Prop) (self : t) (eopatch : EOPatch)
    (array array_sub : np.ndarray) :
  features eopatch !! feature self = Some array ->
  canonical_array self eopatch = Ok array_sub ->
  P 0%Z -> Forall P (np.data array) -> Forall P (np.data array_sub).
Proof.
  intros Hfeat Hc H0 Harray.
  unfold canonical_array, get_feature in Hc. rewrite Hfeat in Hc. simpl in Hc.
  inv_bind Hc. apply get_bands_subset_Ok in Ha. destruct Ha as [pos ->].
  pose proof (take_last_values P array pos H0 Harray) as Hlast.
  destruct (time_dependent _).
  - inv_bind Hc. apply get_dates_subset_Ok in Ha. destruct Ha as [pos' ->].
    destruct (decide _); injection Hc as <-;
      exact (take_first_values P _ pos' H0 Hlast).
  - destruct (decide _); injection Hc as <-; exact Hlast.
Qed.

(** X12: every pixel of the raster a successful call writes lies in the
    range of the configured pixel type. *)
Theorem exported_pixels_fit_dtype (self : t) (eopatch eopatch' : EOPatch)
    (filename : string) (fs fs' : filesystem) (r : Raster) (k y x : nat) (v : Z) :
  execute self eopatch filename fs = (Ok eopatch', fs') ->
  fs' !! path_join (folder self) filename = Some r ->
  pixel r k y x = Some v ->
  (dtype_min (image_dtype self) <= v <= dtype_max (image_dtype self))%Z.
Proof.
  intros Hex Hr Hpx. apply execute_Ok in Hex.
  destruct Hex as (_ & array_sub & T & H & W & B & dst_transform & Hc & Hs & Hfs).
  rewrite Hfs in Hr. injection Hr as <-.
  pose proof (pixel_Some _ _ _ _ _ Hpx) as (Hk & Hy & Hx).
  cbn [r_bands r_profile p_height p_width] in Hk, Hy, Hx.
  unfold planes in Hk. rewrite List.length_map, List.length_seq in Hk.
  rewrite (written_pixel array_sub T H W B) in Hpx;
    try assumption; try reflexivity; [|by apply (canonical_array_wf self eopatch)].
  destruct (np.get array_sub _) as [z|]; [|discriminate].
  injection Hpx as <-. apply cast_range.
Qed.

(** X13: when every value of the attribute lies in the range of the
    configured pixel type, the written pixels are the selected values
    themselves: file band [k] holds, unchanged, the plane of time
    [(k - 1) / B] and band [(k - 1) mod B] of the selected array. *)
Theorem export_exact_when_values_fit (self : t) (eopatch eopatch' : EOPatch)
    (filename : string) (fs fs' : filesystem) (array : np.ndarray) :
  features eopatch !! feature self = Some array ->
  Forall (fun z => (dtype_min (image_dtype self) <= z <= dtype_max (image_dtype self))%Z)
         (np.data array) ->
  execute self eopatch filename fs = (Ok eopatch', fs') ->
  exists array_sub T H W B r,
    canonical_array self eopatch = Ok array_sub /\
    np.shape array_sub = [T; H; W; B] /\
    fs' !! path_join (folder self) filename = Some r /\
    forall k y x,
      1 <= k <= T * B -> y < H -> x < W ->
      pixel r k y x = np.get array_sub [(k - 1) / B; y; x; (k - 1) mod B].
Proof.
  intros Hfeat Hfit Hex. apply execute_Ok in Hex.
  destruct Hex as (_ & array_sub & T & H & W & B & dst_transform & Hc & Hs & Hfs).
  eexists array_sub, T, H, W, B, _. split; [exact Hc|]. split; [exact Hs|].
  split; [exact Hfs|]. intros k y x Hk Hy Hx.
  rewrite (written_pixel array_sub T H W B);
    try assumption; try reflexivity; [|by apply (canonical_array_wf self eopatch)].
  assert (Hsub : Forall (fun z => (dtype_min (image_dtype self) <= z
                                   <= dtype_max (image_dtype self))%Z)
                        (np.data array_sub)).
  { apply (canonical_array_values _ self eopatch array); try assumption.
    pose proof (cast_range (image_dtype self) 0) as H0.
    rewrite (cast_in_range (image_dtype self) 0) in H0; [exact H0|].
    unfold dtype_min, dtype_max. destruct (dtype_modulus (image_dtype self)) as (? & ? & ?).
    destruct (np.signed _); lia. }
  unfold np.get. destruct (np.in_bounds _ _); [|reflexivity].
  destruct (nth_error (np.data array_sub) _) as [z|] eqn:Hz; [|reflexivity].
  simpl. f_equal. apply cast_in_range.
  rewrite List.Forall_forall in Hsub. apply Hsub. by apply nth_error_In in Hz.
Qed.

End PixelValues.

(** ** From the attribute to the written bands *)

Lemma in_bounds_3 (d0 d1 d2 i0 i1 i2 : nat) :
  i0 < d0 -> i1 < d1 -> i2 < d2 -> np.in_bounds [d0; d1; d2] [i0; i1; i2] = true.
Proof.
  intros H0 H1 H2. unfold np.in_bounds. simpl.
  destruct (Nat.ltb_spec i0 d0), (Nat.ltb_spec i1 d1), (Nat.ltb_spec i2 d2);
    try lia; reflexivity.
Qed.

Lemma nth_map_wrap (n : nat) (l : list Z) (p : nat) :
  p < length l -> nth p (map (wrap n) l) 0 = wrap n (nth p l 0%Z).
Proof.
  intros Hp. rewrite (nth_indep _ 0 (wrap n 0%Z)) by (rewrite List.length_map; exact Hp).
  apply map_nth.
Qed.

Lemma wrap_positions_lt (n : nat) (l : list Z) :
  Forall (fun i => (- Z.of_nat n <= i < Z.of_nat n)%Z) l ->
  Forall (fun q => q < n) (map (wrap n) l).
Proof.
  intros Hrange. apply List.Forall_forall. intros q Hq. apply in_map_iff in Hq.
  destruct Hq as (i & <- & Hi). rewrite List.Forall_forall in Hrange.
  apply (normalize_index_mod n i (Hrange i Hi)).
Qed.

Lemma get_expand_dims_0 (a : np.ndarray) (ix : list nat) :
  np.get (np.expand_dims a 0) (0 :: ix) = np.get a ix.
Proof.
  unfold np.get, np.expand_dims. cbn [np.shape np.data].
  change (firstn 0 (np.shape a) ++ 1 :: skipn 0 (np.shape a)) with (1 :: np.shape a).
  rewrite in_bounds_cons. simpl andb.
  destruct (np.in_bounds (np.shape a) ix) eqn:Hix; [|reflexivity].
  rewrite offset_cons by (by apply in_bounds_length). reflexivity.
Qed.

Section EndToEnd.
Context `{env : ExportEnv}.
Import ExportToTiff.

Lemma get_bands_subset_int_list (self : t) (array : np.ndarray) (bs : list Z) (n : nat) :
  band_indices self = SelList (map PyInt bs) ->
  bs <> [] ->
  np.last_dim array = Ok n ->
  Forall (fun b => (- Z.of_nat n <= b < Z.of_nat n)%Z) bs ->
  _get_bands_subset self array = Ok (np.take_last array (map (wrap n) bs)).
Proof.
  intros Hsel Hne Hn Hrange.
  unfold _get_bands_subset, np.index_last. rewrite Hn, Hsel. simpl.
  rewrite existsb_not_int_PyInt, (array_of_ints_PyInt bs Hne). simpl.
  rewrite (mapM_normalize_index n bs Hrange). reflexivity.
Qed.

Lemma get_dates_subset_int_list (self : t) (array : np.ndarray) (dates : list Z)
    (ds : list Z) (d : nat) (s : list nat) :
  date_indices self = SelList (map PyInt ds) ->
  ds <> [] ->
  np.shape array = d :: s ->
  Forall (fun i => (- Z.of_nat d <= i < Z.of_nat d)%Z) ds ->
  _get_dates_subset self array dates = Ok (np.take_first array (map (wrap d) ds)).
Proof.
  intros Hsel Hne Hs Hrange.
  unfold _get_dates_subset, np.index_first, np.first_dim. rewrite Hsel, Hs. simpl.
  rewrite existsb_not_int_PyInt, (array_of_ints_PyInt ds Hne). simpl.
  rewrite (mapM_normalize_index d ds Hrange). reflexivity.
Qed.

(** The written pixels of a time dependent raster attribute selected by two
    lists of integers. *)
Lemma export_int_lists (self : t) (eopatch eopatch' : EOPatch) (filename : string)
    (fs fs' : filesystem) (array : np.ndarray) (T H W B : nat) (ds bs : list Z) :
  fst (feature self) = DATA \/ fst (feature self) = MASK ->
  features eopatch !! feature self = Some array ->
  np.wf array ->
  np.shape array = [T; H; W; B] ->
  date_indices self = SelList (map PyInt ds) -> ds <> [] ->
  Forall (fun i => (- Z.of_nat T <= i < Z.of_nat T)%Z) ds ->
  band_indices self = SelList (map PyInt bs) -> bs <> [] ->
  Forall (fun b => (- Z.of_nat B <= b < Z.of_nat B)%Z) bs ->
  execute self eopatch filename fs = (Ok eopatch', fs') ->
  exists r,
    fs' !! path_join (folder self) filename = Some r /\
    p_count (r_profile r) = length ds * length bs /\
    forall k y x,
      1 <= k <= length ds * length bs -> y < H -> x < W ->
      pixel r k y x
      = np.cast (image_dtype self)
          <$> np.get array [wrap T (nth ((k - 1) / length bs) ds 0%Z); y; x;
                            wrap B (nth ((k - 1) mod length bs) bs 0%Z)].
Proof.
  intros Hft Hfeat Hwf Hs Hdsel Hdne Hdrange Hbsel Hbne Hbrange Hex.
  assert (Hn : np.last_dim array = Ok B) by (unfold np.last_dim; rewrite Hs; reflexivity).
  pose proof (get_bands_subset_int_list self array bs B Hbsel Hbne Hn Hbrange) as Hbands.
  set (a1 := np.take_last array (map (wrap B) bs)) in *.
  assert (Hs1 : np.shape a1 = [T; H; W; length bs]).
  { unfold a1. rewrite take_last_shape, Hs, List.length_map. reflexivity. }
  pose proof (get_dates_subset_int_list self a1 (timestamp eopatch) ds T _
                Hdsel Hdne Hs1 Hdrange) as Hdates.
  set (a2 := np.take_first a1 (map (wrap T) ds)) in *.
  assert (Hs2 : np.shape a2 = [length ds; H; W; length bs]).
  { unfold a2. rewrite take_first_shape, Hs1, List.length_map. reflexivity. }
  assert (Hc : canonical_array self eopatch = Ok a2).
  { unfold canonical_array, get_feature. rewrite Hfeat. simpl. rewrite Hbands. simpl.
    destruct Hft as [-> | ->]; simpl; rewrite Hdates; reflexivity. }
  apply execute_Ok in Hex.
  destruct Hex as (_ & array_sub & T' & H' & W' & B' & dst_transform & Hc' & Hs' & Hfs).
  rewrite Hc in Hc'. injection Hc' as <-.
  rewrite Hs2 in Hs'. injection Hs' as <- <- <- <-.
  eexists. split; [exact Hfs|]. split; [reflexivity|].
  intros k y x Hk Hy Hx.
  assert (HB : length bs <> 0) by nia.
  assert (Ht : (k - 1) / length bs < length ds)
    by (apply Nat.Div0.div_lt_upper_bound; lia).
  assert (Hb : (k - 1) mod length bs < length bs) by (by apply Nat.mod_upper_bound).
  rewrite (written_pixel a2 (length ds) H W (length bs));
    try assumption; try reflexivity; [|apply take_first_wf].
  f_equal. unfold a2.
  rewrite (take_first_get a1 _ [y; x; (k - 1) mod length bs] _ T [H; W; length bs]);
    [| apply take_last_wf | exact Hs1 | by apply wrap_positions_lt
     | by apply in_bounds_3 | by rewrite List.length_map].
  rewrite nth_map_wrap by exact Ht.
  assert (Hq : wrap T (nth ((k - 1) / length bs) ds 0%Z) < T).
  { rewrite List.Forall_forall in Hdrange.
    apply (normalize_index_mod T), Hdrange, nth_In, Ht. }
  unfold a1.
  change [wrap T (nth ((k - 1) / length bs) ds 0%Z); y; x; (k - 1) mod length bs]
    with ([wrap T (nth ((k - 1) / length bs) ds 0%Z); y; x] ++ [(k - 1) mod length bs]).
  rewrite (take_last_get array _ _ _ B Hwf Hn);
    [| by apply wrap_positions_lt
     | rewrite Hs; by apply in_bounds_3
     | by rewrite List.length_map].
  rewrite nth_map_wrap by exact Hb. reflexivity.
Qed.

(** X14: for a time dependent raster attribute (DATA or MASK) selected by a
    list of date indices and a list of band indices, file band [k] of the
    written raster holds, cast to the pixel type, the plane of time
    [ds[(k - 1) / n]] and band [bs[(k - 1) mod n]] of the attribute, where [n]
    is the number of band indices; negative indices count from the end. *)
Theorem exported_pixels_of_index_lists (self : t) (eopatch eopatch' : EOPatch)
    (filename : string) (fs fs' : filesystem) (array : np.ndarray) (T H W B : nat)
    (ds bs : list Z) :
  fst (feature self) = DATA \/ fst (feature self) = MASK ->
  features eopatch !! feature self = Some array ->
  np.wf array ->
  np.shape array = [T; H; W; B] ->
  date_indices self = SelList (map PyInt ds) -> ds <> [] ->
  Forall (fun i => (- Z.of_nat T <= i < Z.of_nat T)%Z) ds ->
  band_indices self = SelList (map PyInt bs) -> bs <> [] ->
  Forall (fun b => (- Z.of_nat B <= b < Z.of_nat B)%Z) bs ->
  execute self eopatch filename fs = (Ok eopatch', fs') ->
  exists r,
    fs' !! path_join (folder self) filename = Some r /\
    p_count (r_profile r) = length ds * length bs /\
    forall k y x,
      1 <= k <= length ds * length bs -> y < H -> x < W ->
      pixel r k y x
      = np.cast (image_dtype self)
          <$> np.get array [wrap T (nth ((k - 1) / length bs) ds 0%Z); y; x;
                            wrap B (nth ((k - 1) mod length bs) bs 0%Z)].
Proof. apply export_int_lists. Qed.

End EndToEnd.

Lemma in_bounds_2 (d0 d1 i0 i1 : nat) :
  i0 < d0 -> i1 < d1 -> np.in_bounds [d0; d1] [i0; i1] = true.
Proof.
  intros H0 H1. unfold np.in_bounds. simpl.
  destruct (Nat.ltb_spec i0 d0), (Nat.ltb_spec i1 d1); try lia; reflexivity.
Qed.

Lemma wrap_0 (n : nat) : wrap n 0 = 0.
Proof. unfold wrap. rewrite Zmod_0_l. reflexivity. Qed.

Section Orderings.
Context `{env : ExportEnv}.
Import ExportToTiff.

(** X15: with the constructor's default selectors, exporting a DATA or MASK
    attribute that has at least one time and one band writes a raster with
    exactly one band: the plane of time 0 and band 0, cast to 8-bit unsigned. *)
Theorem default_export_is_first_time_first_band (key : FeatureType * string)
    (eopatch eopatch' : EOPatch) (filename : string) (fs fs' : filesystem)
    (array : np.ndarray) (T H W B : nat) :
  fst key = DATA \/ fst key = MASK ->
  features eopatch !! key = Some array ->
  np.wf array ->
  np.shape array = [T; H; W; B] ->
  0 < T -> 0 < B ->
  execute (default key) eopatch filename fs = (Ok eopatch', fs') ->
  exists r,
    fs' !! path_join "." filename = Some r /\
    p_count (r_profile r) = 1 /\
    forall y x, y < H -> x < W ->
      pixel r 1 y x = np.cast np.uint8 <$> np.get array [0; y; x; 0].
Proof.
  intros Hft Hfeat Hwf Hs HT HB Hex.
  destruct (export_int_lists (default key) eopatch eopatch' filename fs fs' array
              T H W B [0%Z] [0%Z]) as (r & Hr & Hcount & Hpx);
    try assumption; try reflexivity; try discriminate;
    try (repeat constructor; lia).
  exists r. split; [exact Hr|]. split; [exact Hcount|].
  intros y x Hy Hx. rewrite (Hpx 1 y x) by (simpl; lia).
  simpl. rewrite !wrap_0. reflexivity.
Qed.

(** X16: the two orders of the class docstring. With a single band index
    [b] and a list of date indices, file band [k] is time [ds[k - 1]] of band
    [b]; with a single date index [d] and a list of band indices, file band [k]
    is band [bs[k - 1]] of time [d]. *)
Theorem export_one_band_or_one_time_in_list_order (self : t) (eopatch eopatch' : EOPatch)
    (filename : string) (fs fs' : filesystem) (array : np.ndarray) (T H W B : nat)
    (ds bs : list Z) :
  fst (feature self) = DATA \/ fst (feature self) = MASK ->
  features eopatch !! feature self = Some array ->
  np.wf array ->
  np.shape array = [T; H; W; B] ->
  date_indices self = SelList (map PyInt ds) -> ds <> [] ->
  Forall (fun i => (- Z.of_nat T <= i < Z.of_nat T)%Z) ds ->
  band_indices self = SelList (map PyInt bs) -> bs <> [] ->
  Forall (fun b => (- Z.of_nat B <= b < Z.of_nat B)%Z) bs ->
  execute self eopatch filename fs = (Ok eopatch', fs') ->
  exists r,
    fs' !! path_join (folder self) filename = Some r /\
    (forall b, bs = [b] ->
       p_count (r_profile r) = length ds /\
       forall k y x, 1 <= k <= length ds -> y < H -> x < W ->
         pixel r k y x
         = np.cast (image_dtype self)
             <$> np.get array [wrap T (nth (k - 1) ds 0%Z); y; x; wrap B b]) /\
    (forall d, ds = [d] ->
       p_count (r_profile r) = length bs /\
       forall k y x, 1 <= k <= length bs -> y < H -> x < W ->
         pixel r k y x
         = np.cast (image_dtype self)
             <$> np.get array [wrap T d; y; x; wrap B (nth (k - 1) bs 0%Z)]).
Proof.
  intros Hft Hfeat Hwf Hs Hdsel Hdne Hdrange Hbsel Hbne Hbrange Hex.
  destruct (export_int_lists self eopatch eopatch' filename fs fs' array T H W B ds bs)
    as (r & Hr & Hcount & Hpx); try assumption.
  exists r. split; [exact Hr|]. split.
  - intros b ->. cbn [length] in Hcount, Hpx. split; [lia|].
    intros k y x Hk Hy Hx. rewrite (Hpx k y x) by lia.
    rewrite Nat.div_1_r, Nat.mod_1_r. reflexivity.
  - intros d ->. cbn [length] in Hcount, Hpx. split; [lia|].
    intros k y x Hk Hy Hx. rewrite (Hpx k y x) by lia.
    rewrite Nat.div_small, Nat.mod_small by lia. reflexivity.
Qed.

(** X17: for a timeless raster attribute (DATA_TIMELESS or MASK_TIMELESS)
    selected by a list of band indices, the date selector plays no part, even a
    malformed one: the written raster has one band per band index, and file
    band [k] holds, cast to the pixel type, band [bs[k - 1]] of the attribute. *)
Theorem export_timeless_bands_in_list_order (self : t) (eopatch eopatch' : EOPatch)
    (filename : string) (fs fs' : filesystem) (array : np.ndarray) (H W B : nat)
    (bs : list Z) :
  fst (feature self) = DATA_TIMELESS \/ fst (feature self) = MASK_TIMELESS ->
  features eopatch !! feature self = Some array ->
  np.wf array ->
  np.shape array = [H; W; B] ->
  band_indices self = SelList (map PyInt bs) -> bs <> [] ->
  Forall (fun b => (- Z.of_nat B <= b < Z.of_nat B)%Z) bs ->
  execute self eopatch filename fs = (Ok eopatch', fs') ->
  exists r,
    fs' !! path_join (folder self) filename = Some r /\
    p_count (r_profile r) = length bs /\
    forall k y x,
      1 <= k <= length bs -> y < H -> x < W ->
      pixel r k y x
      = np.cast (image_dtype self) <$> np.get array [y; x; wrap B (nth (k - 1) bs 0%Z)].
Proof.
  intros Hft Hfeat Hwf Hs Hbsel Hbne Hbrange Hex.
  assert (Hn : np.last_dim array = Ok B) by (unfold np.last_dim; rewrite Hs; reflexivity).
  pose proof (get_bands_subset_int_list self array bs B Hbsel Hbne Hn Hbrange) as Hbands.
  set (a1 := np.take_last array (map (wrap B) bs)) in *.
  assert (Hs1 : np.shape a1 = [H; W; length bs]).
  { unfold a1. rewrite take_last_shape, Hs, List.length_map. reflexivity. }
  assert (Hc : canonical_array self eopatch = Ok (np.expand_dims a1 0)).
  { unfold canonical_array, get_feature. rewrite Hfeat. simpl. rewrite Hbands. simpl.
    destruct Hft as [-> | ->]; reflexivity. }
  assert (Hs2 : np.shape (np.expand_dims a1 0) = [1; H; W; length bs]).
  { unfold np.expand_dims. cbn [np.shape]. rewrite Hs1. reflexivity. }
  apply execute_Ok in Hex.
  destruct Hex as (_ & array_sub & T' & H' & W' & B' & dst_transform & Hc' & Hs' & Hfs).
  rewrite Hc in Hc'. injection Hc' as <-.
  rewrite Hs2 in Hs'. injection Hs' as <- <- <- <-.
  eexists. split; [exact Hfs|]. split; [simpl; lia|].
  intros k y x Hk Hy Hx.
  rewrite (written_pixel (np.expand_dims a1 0) 1 H W (length bs));
    try assumption; try reflexivity; try lia;
    [|apply expand_dims_wf, take_last_wf].
  rewrite Nat.div_small, Nat.mod_small by lia.
  f_equal. rewrite get_expand_dims_0. unfold a1.
  change [y; x; k - 1] with ([y; x] ++ [k - 1]).
  rewrite (take_last_get array _ _ _ B Hwf Hn);
    [| by apply wrap_positions_lt
     | rewrite Hs; by apply in_bounds_2
     | rewrite List.length_map; lia].
  rewrite nth_map_wrap by lia. reflexivity.
Qed.

End Orderings.

(** * Further properties of the importer *)

(** ** The buffer the bands are read into *)

Lemma slot_before (b b' rc r : nat) : b' < b -> r < rc -> b' * rc + r < b * rc.
Proof. intros Hb Hr. nia. Qed.

Lemma slot_after (b b' rc r : nat) : b < b' -> S b * rc <= b' * rc + r.
Proof. intros Hb. nia. Qed.

Lemma table_length (px : nat -> nat -> Z) (rows cols : nat) :
  length (flat_map (fun i => map (fun j => px i j) (seq 0 cols)) (seq 0 rows)) = rows * cols.
Proof.
  rewrite (length_flat_map_const _ cols), List.length_seq; [reflexivity|].
  intros. rewrite List.length_map, List.length_seq. reflexivity.
Qed.

Section FillBand.
Variables (buffer : np.ndarray) (N rows cols band : nat) (px : nat -> nat -> Z).
Hypothesis Hlen : length (np.data buffer) = N * (rows * cols).
Hypothesis Hband : band < N.

Lemma fill_band_prefix_length :
  length (firstn (band * (rows * cols)) (np.data buffer)) = band * (rows * cols).
Proof. rewrite List.length_firstn, Hlen. nia. Qed.

Lemma fill_band_length :
  length (np.data (ReadFromTiff.fill_band buffer band rows cols px)) = N * (rows * cols).
Proof.
  unfold ReadFromTiff.fill_band. cbn [np.data].
  rewrite !List.length_app, fill_band_prefix_length, table_length, List.length_skipn, Hlen.
  nia.
Qed.

Lemma fill_band_same (i j : nat) :
  i < rows -> j < cols ->
  nth_error (np.data (ReadFromTiff.fill_band buffer band rows cols px))
            (band * (rows * cols) + (i * cols + j))
  = Some (px i j).
Proof.
  intros Hi Hj. unfold ReadFromTiff.fill_band. cbn [np.data].
  pose proof (row_major_lt rows cols i j Hi Hj) as Hij.
  rewrite nth_error_app2 by (rewrite fill_band_prefix_length; lia).
  rewrite fill_band_prefix_length.
  replace (band * (rows * cols) + (i * cols + j) - band * (rows * cols))
    with (i * cols + j) by lia.
  rewrite nth_error_app1 by (rewrite table_length; exact Hij).
  rewrite (nth_error_flat_map_seq _ cols); try assumption;
    [|intros; rewrite List.length_map, List.length_seq; reflexivity].
  simpl. rewrite nth_error_map_seq by exact Hj. reflexivity.
Qed.

Lemma fill_band_other (b r : nat) :
  b <> band -> r < rows * cols ->
  nth_error (np.data (ReadFromTiff.fill_band buffer band rows cols px))
            (b * (rows * cols) + r)
  = nth_error (np.data buffer) (b * (rows * cols) + r).
Proof.
  intros Hne Hr. unfold ReadFromTiff.fill_band. cbn [np.data].
  destruct (Nat.lt_ge_cases b band) as [Hlt | Hge].
  - pose proof (slot_before band b (rows * cols) r Hlt Hr) as Hslot.
    rewrite nth_error_app1 by (rewrite fill_band_prefix_length; exact Hslot).
    rewrite nth_error_firstn.
    destruct (Nat.ltb_spec (b * (rows * cols) + r) (band * (rows * cols))); [reflexivity | lia].
  - pose proof (slot_after band b (rows * cols) r ltac:(lia)) as Hslot.
    rewrite nth_error_app2 by (rewrite fill_band_prefix_length; lia).
    rewrite fill_band_prefix_length.
    rewrite nth_error_app2 by (rewrite table_length; lia).
    rewrite table_length, nth_error_skipn. f_equal. lia.
Qed.

End FillBand.

Lemma moveaxis_first_to_last_nth (a : np.ndarray) (N P Q b i j : nat) :
  np.shape a = [N; P; Q] ->
  b < N -> i < P -> j < Q ->
  nth_error (np.data (np.moveaxis_first_to_last a)) ((i * Q + j) * N + b)
  = Some (nth ((b * P + i) * Q + j) (np.data a) 0%Z).
Proof.
  intros Hs Hb Hi Hj. unfold np.moveaxis_first_to_last. rewrite Hs. simpl.
  assert (Hrow : forall i' j',
    length (map (fun b' => nth ((b' * P + i') * Q + j') (np.data a) 0%Z) (seq 0 N)) = N).
  { intros. rewrite List.length_map, List.length_seq. reflexivity. }
  assert (Hplane : forall i',
    length (flat_map (fun j' =>
              map (fun b' => nth ((b' * P + i') * Q + j') (np.data a) 0%Z) (seq 0 N))
              (seq 0 Q)) = Q * N).
  { intros. rewrite (length_flat_map_const _ N), List.length_seq by (intros; apply Hrow).
    reflexivity. }
  replace ((i * Q + j) * N + b) with (i * (Q * N) + (j * N + b)) by lia.
  pose proof (row_major_lt Q N j b Hj Hb) as Hjb.
  rewrite (nth_error_flat_map_seq _ (Q * N)); [|exact Hplane|exact Hi|exact Hjb].
  rewrite (nth_error_flat_map_seq _ N); [|apply Hrow|exact Hj|exact Hb].
  simpl. rewrite nth_error_map_seq by exact Hb. reflexivity.
Qed.

Section ImporterContents.
Context `{env : ImportEnv}.
Import ReadFromTiff.

(** What the loop leaves in the buffer: the slot of every band it read holds
    what the read returned, every other slot is untouched. *)
Lemma read_bands_content (src : Source) (window : Window) (N rows cols : nat)
    (todo : list nat) :
  forall buffer data,
    List.NoDup todo ->
    (forall b, In b todo -> b < N) ->
    length (np.data buffer) = N * (rows * cols) ->
    read_bands src window rows cols todo buffer = Ok data ->
    length (np.data data) = N * (rows * cols) /\
    (forall b, In b todo ->
       exists px,
         src_read src (b + 1) window (rows, cols) = Ok px /\
         forall i j, i < rows -> j < cols ->
           nth_error (np.data data) (b * (rows * cols) + (i * cols + j)) = Some (px i j)) /\
    (forall b r, ~ In b todo -> r < rows * cols ->
       nth_error (np.data data) (b * (rows * cols) + r)
       = nth_error (np.data buffer) (b * (rows * cols) + r)).
Proof.
  induction todo as [|band todo IH]; intros buffer data Hnd Hlt Hlen Hr; simpl in Hr.
  - injection Hr as <-. split; [exact Hlen|]. split; [intros b []|]. reflexivity.
  - inv_bind Hr. rename a into px.
    apply List.NoDup_cons_iff in Hnd. destruct Hnd as [Hnotin Hnd].
    assert (Hband : band < N) by (apply Hlt; by left).
    pose proof (fill_band_length buffer N rows cols band px Hlen Hband) as Hlen'.
    destruct (IH _ _ Hnd (fun b Hb => Hlt b (or_intror Hb)) Hlen' Hr)
      as (Hlend & Hread & Hkeep).
    split; [exact Hlend|]. split.
    + intros b [<- | Hb].
      * exists px. split; [exact Ha|]. intros i j Hi Hj.
        rewrite (Hkeep band (i * cols + j) Hnotin) by (by apply row_major_lt).
        by apply (fill_band_same buffer N).
      * by apply Hread.
    + intros b r Hb Hrc.
      rewrite (Hkeep b r) by (try assumption; intros Hin; apply Hb; by right).
      apply (fill_band_other buffer N); try assumption.
      intros ->. apply Hb. by left.
Qed.

(** X18: after a successful call the attached array holds, at row [i],
    column [j] and last index [b], the value that the read of band [b + 1]
    returned for position (i, j) of its buffer; all reads use the same window
    and a buffer of [width] rows and [height] columns. *)
Theorem import_holds_what_was_read (self : t) (eopatch eopatch' : EOPatch)
    (width height : option Z) :
  fst (execute self eopatch width height) = Ok eopatch' ->
  exists src w h window attached,
    rasterio_open (path self) = Ok src /\
    width_height src (bbox eopatch) width height = Ok (w, h) /\
    _get_window src (bbox eopatch) = Ok window /\
    features eopatch' !! (MASK_TIMELESS, mask_name self) = Some attached /\
    np.shape attached = [Z.to_nat w; Z.to_nat h; src_count src] /\
    forall b, b < src_count src ->
      exists px,
        src_read src (b + 1) window (Z.to_nat w, Z.to_nat h) = Ok px /\
        forall i j, i < Z.to_nat w -> j < Z.to_nat h ->
          np.get attached [i; j; b] = Some (px i j).
Proof.
  unfold execute. destruct (read_data _ _ _ _) as [data|] eqn:Hd; [|discriminate].
  simpl. intros [= <-].
  pose proof Hd as Hshape. apply read_data_shape in Hshape.
  destruct Hshape as (src & w & h & Hopen & Hwh & Hw & Hh & Hs).
  unfold read_data in Hd. rewrite Hopen in Hd. simpl in Hd.
  rewrite Hwh in Hd. simpl in Hd.
  inv_bind Hd. rename a into buffer. inv_bind Hd. rename a into window.
  assert (Hlen : length (np.data (np.astype buffer (src_dtype src)))
                 = src_count src * (Z.to_nat w * Z.to_nat h)).
  { unfold np.empty in Ha. destruct (forallb _ _); [|discriminate].
    injection Ha as <-. unfold np.astype. cbn [np.data np.shape].
    rewrite List.length_map, repeat_length. unfold np.prod. simpl.
    rewrite Nat2Z.id. lia. }
  destruct (read_bands_content src window (src_count src) (Z.to_nat w) (Z.to_nat h)
              (seq 0 (src_count src)) _ data (List.seq_NoDup _ _)
              ltac:(intros b Hb; apply in_seq in Hb; lia) Hlen Hd)
    as (Hlend & Hread & _).
  exists src, w, h, window, (np.moveaxis_first_to_last data).
  split; [exact Hopen|]. split; [exact Hwh|]. split; [exact Ha0|].
  split; [apply lookup_insert_eq|].
  split; [unfold np.moveaxis_first_to_last; rewrite Hs; reflexivity|].
  intros b Hb. destruct (Hread b ltac:(apply in_seq; lia)) as (px & Hpx & Hval).
  exists px. split; [exact Hpx|]. intros i j Hi Hj.
  unfold np.get. replace (np.shape (np.moveaxis_first_to_last data))
    with [Z.to_nat w; Z.to_nat h; src_count src]
    by (unfold np.moveaxis_first_to_last; rewrite Hs; reflexivity).
  rewrite in_bounds_3 by assumption.
  replace (np.offset [Z.to_nat w; Z.to_nat h; src_count src] [i; j; b])
    with ((i * Z.to_nat h + j) * src_count src + b) by (unfold np.offset; simpl; lia).
  rewrite (moveaxis_first_to_last_nth data (src_count src) (Z.to_nat w) (Z.to_nat h))
    by assumption.
  specialize (Hval i j Hi Hj).
  replace ((b * Z.to_nat w + i) * Z.to_nat h + j)
    with (b * (Z.to_nat w * Z.to_nat h) + (i * Z.to_nat h + j)) by lia.
  f_equal. by apply nth_error_nth.
Qed.

(** X19: a successful call returns the tile it has updated, and changes
    nothing in it but the attribute of the configured name: every other
    attribute, the timestamps and the bounding box are as before. *)
Theorem import_changes_only_its_attribute (self : t) (eopatch eopatch' : EOPatch)
    (width height : option Z) :
  fst (execute self eopatch width height) = Ok eopatch' ->
  snd (execute self eopatch width height) = eopatch' /\
  timestamp eopatch' = timestamp eopatch /\
  bbox eopatch' = bbox eopatch /\
  forall key, key <> (MASK_TIMELESS, mask_name self) ->
    features eopatch' !! key = features eopatch !! key.
Proof.
  unfold execute. destruct (read_data _ _ _ _) as [data|]; [|discriminate].
  simpl. intros [= <-]. repeat split.
  intros key Hne. simpl. by rewrite lookup_insert_ne.
Qed.

(** X20: when the width or the height the buffer is allocated with is
    negative, as for a window whose right is left of its left, the call raises
    the ValueError of the allocation and the tile is unchanged. *)
Theorem import_negative_extent_raises (self : t) (eopatch : EOPatch)
    (width height : option Z) (src : Source) (w h : Z) :
  rasterio_open (path self) = Ok src ->
  width_height src (bbox eopatch) width height = Ok (w, h) ->
  (w < 0 \/ h < 0)%Z ->
  execute self eopatch width height = (Raise (ValueError NegativeDimensions), eopatch).
Proof.
  intros Hopen Hwh Hneg.
  unfold execute, read_data. rewrite Hopen. simpl. rewrite Hwh. simpl.
  unfold np.empty. simpl.
  destruct (Z.leb_spec 0 (Z.of_nat (src_count src))); [|lia]. simpl.
  destruct (Z.leb_spec 0 w), (Z.leb_spec 0 h); simpl; try reflexivity; lia.
Qed.

End ImporterContents.

(** * The further properties on concrete inputs *)

Lemma band_range_selection_witness :
  exists out,
    ExportToTiff._get_bands_subset
      (ExportToTiff.with_band_indices (ExportToTiff.default (MASK_TIMELESS, "lulc"))
                                      (SelTuple [PyInt (-5); PyInt 2]))
      Sample.mask_1x1x4 = Ok out /\
    np.shape out = [1; 1; 2] /\
    np.get out [0; 0; 1] = np.get Sample.mask_1x1x4 [0; 0; 2].
Proof.
  destruct (band_range_selection
              (ExportToTiff.with_band_indices (ExportToTiff.default (MASK_TIMELESS, "lulc"))
                                              (SelTuple [PyInt (-5); PyInt 2]))
              Sample.mask_1x1x4 (-5) 2 4 eq_refl eq_refl eq_refl)
    as (out & Hout & Hshape & Hget).
  exists out. split; [exact Hout|]. split; [exact Hshape|].
  exact (Hget [0; 0] 1 eq_refl ltac:(simpl; lia)).
Defined.

Lemma band_range_exact_without_zero_witness :
  ExportToTiff.band_range_positions 4 1 2 = [1; 2].
Proof.
  rewrite (band_range_exact_without_zero 4 1 2) by (left; lia). reflexivity.
Defined.

Lemma date_list_order_witness :
  exists out,
    ExportToTiff._get_dates_subset
      (ExportToTiff.with_date_indices (ExportToTiff.default (DATA, "ndvi"))
                                      (SelList [PyInt 2; PyInt (-3)]))
      Sample.data_3x1x1x1 [] = Ok out /\
    np.shape out = [2; 1; 1; 1] /\
    np.get out [1; 0; 0; 0] = np.get Sample.data_3x1x1x1 [0; 0; 0; 0].
Proof.
  destruct (date_list_order (env := Sample.export_env)
              (ExportToTiff.with_date_indices (ExportToTiff.default (DATA, "ndvi"))
                                              (SelList [PyInt 2; PyInt (-3)]))
              Sample.data_3x1x1x1 [] [2; -3]%Z 3 [1; 1; 1]
              eq_refl ltac:(discriminate) eq_refl eq_refl ltac:(repeat constructor; lia))
    as (out & Hout & Hshape & Hget).
  exists out. split; [exact Hout|]. split; [exact Hshape|].
  exact (Hget [0; 0; 0] 1 eq_refl ltac:(simpl; lia)).
Defined.

Lemma empty_list_raises_IndexError_witness :
  ExportToTiff.execute
    (ExportToTiff.with_band_indices (ExportToTiff.default (DATA, "bands")) (SelList []))
    Sample.tile "out.tif" ∅
  = (Raise IndexError, ∅) /\
  ExportToTiff.execute
    (ExportToTiff.with_date_indices (ExportToTiff.default (DATA, "bands")) (SelList []))
    Sample.tile "out.tif" ∅
  = (Raise IndexError, ∅).
Proof.
  split.
  - apply (proj1 (empty_list_raises_IndexError (env := Sample.export_env)
                    (ExportToTiff.with_band_indices (ExportToTiff.default (DATA, "bands"))
                                                    (SelList []))
                    Sample.tile "out.tif" ∅ Sample.data_2x1x1x2
                    ltac:(vm_compute; reflexivity) ltac:(discriminate))).
    reflexivity.
  - apply (proj2 (empty_list_raises_IndexError (env := Sample.export_env)
                    (ExportToTiff.with_date_indices (ExportToTiff.default (DATA, "bands"))
                                                    (SelList []))
                    Sample.tile "out.tif" ∅ Sample.data_2x1x1x2
                    ltac:(vm_compute; reflexivity) ltac:(discriminate))).
    + reflexivity.
    + reflexivity.
    + eexists. reflexivity.
Defined.

Lemma band_list_out_of_range_witness :
  ExportToTiff._get_bands_subset
    (ExportToTiff.with_band_indices (ExportToTiff.default (MASK_TIMELESS, "lulc"))
                                    (SelList [PyInt 0; PyInt 4]))
    Sample.mask_1x1x4
  = Raise IndexError.
Proof.
  apply (band_list_out_of_range _ _ [0; 4]%Z 4); try reflexivity.
  - repeat constructor; lia.
  - apply Exists_cons_tl, Exists_cons_hd. simpl. lia.
Defined.

Lemma date_range_of_increasing_timestamps_witness :
  exists out,
    ExportToTiff._get_dates_subset
      (ExportToTiff.with_date_indices (ExportToTiff.default (DATA, "ndvi"))
                                      (SelTuple [PyInt 1; PyInt 2]))
      Sample.data_3x1x1x1 Sample.timestamps = Ok out /\
    np.shape out = [2; 1; 1; 1] /\
    np.get out [0; 0; 0; 0] = np.get Sample.data_3x1x1x1 [1; 0; 0; 0].
Proof.
  destruct (date_range_of_increasing_timestamps (env := Sample.export_env)
              (ExportToTiff.with_date_indices (ExportToTiff.default (DATA, "ndvi"))
                                              (SelTuple [PyInt 1; PyInt 2]))
              Sample.data_3x1x1x1 Sample.timestamps 1 2 3 [1; 1; 1] eq_refl)
    as (out & Hout & Hshape & Hget).
  - intros a b Hab. simpl in Hab.
    destruct a as [|[|[|a]]], b as [|[|[|b]]]; simpl; lia.
  - simpl. lia.
  - lia.
  - reflexivity.
  - reflexivity.
  - exists out. split; [exact Hout|]. split; [exact Hshape|].
    exact (Hget [0; 0; 0] 0 eq_refl ltac:(lia)).
Defined.

Lemma band_list_of_bools_is_mask_witness :
  ExportToTiff._get_bands_subset
    (ExportToTiff.with_band_indices (ExportToTiff.default (MASK_TIMELESS, "lulc"))
                                    (SelList [PyBool true; PyBool false]))
    Sample.mask_1x1x4
  = Raise IndexError /\
  exists out,
    ExportToTiff._get_bands_subset
      (ExportToTiff.with_band_indices
         (ExportToTiff.default (MASK_TIMELESS, "lulc"))
         (SelList [PyBool false; PyBool true; PyBool false; PyBool true]))
      Sample.mask_1x1x4 = Ok out /\
    np.shape out = [1; 1; 2].
Proof.
  split.
  - apply (proj1 (band_list_of_bools_is_mask
                    (ExportToTiff.with_band_indices
                       (ExportToTiff.default (MASK_TIMELESS, "lulc"))
                       (SelList [PyBool true; PyBool false]))
                    Sample.mask_1x1x4 [true; false] 4
                    eq_refl ltac:(discriminate) eq_refl eq_refl)).
    simpl. lia.
  - destruct (proj2 (band_list_of_bools_is_mask
                       (ExportToTiff.with_band_indices
                          (ExportToTiff.default (MASK_TIMELESS, "lulc"))
                          (SelList [PyBool false; PyBool true; PyBool false; PyBool true]))
                       Sample.mask_1x1x4 [false; true; false; true] 4
                       eq_refl ltac:(discriminate) eq_refl eq_refl) eq_refl)
      as (out & Hout & Hshape & _).
    exists out. split; [exact Hout | exact Hshape].
Defined.

Lemma export_changes_disk_only_after_transform_witness :
  exists array_sub,
    ExportToTiff.canonical_array (ExportToTiff.default (DATA, "ndvi")) Sample.tile
    = Ok array_sub /\
    np.shape array_sub = [1; 1; 1; 1].
Proof.
  destruct (export_changes_disk_only_after_transform (env := Sample.export_env)
              (ExportToTiff.default (DATA, "ndvi")) Sample.tile "out.tif" ∅)
    as (array_sub & T & H & W & B & dst_transform & Hc & Hs & _).
  - intros Hsame.
    apply (f_equal (fun disk : filesystem => disk !! "./out.tif")) in Hsame.
    vm_compute in Hsame. discriminate.
  - exists array_sub. split; [exact Hc|].
    vm_compute in Hc. injection Hc as <-. reflexivity.
Defined.

Lemma export_wrong_rank_raises_witness :
  exists e,
    ExportToTiff.execute (ExportToTiff.default (LABEL, "classes")) Sample2.tile "out.tif" ∅
    = (Raise e, ∅).
Proof.
  destruct (export_wrong_rank_raises (env := Sample.export_env)
              (ExportToTiff.default (LABEL, "classes")) Sample2.tile "out.tif" ∅
              Sample2.label_3x2 ltac:(vm_compute; reflexivity) ltac:(simpl; lia))
    as (e & He & _).
  exists e. exact He.
Defined.

Lemma exported_raster_well_formed_witness :
  exists r,
    snd (ExportToTiff.execute
           (ExportToTiff.with_band_indices (ExportToTiff.default (DATA, "cube"))
                                           (SelList [PyInt 1; PyInt 0]))
           Sample2.tile "out.tif" ∅)
    !! "./out.tif" = Some r /\
    length (r_bands r) = p_count (r_profile r).
Proof.
  destruct (exported_raster_well_formed (env := Sample.export_env)
              (ExportToTiff.with_band_indices (ExportToTiff.default (DATA, "cube"))
                                              (SelList [PyInt 1; PyInt 0]))
              Sample2.tile Sample2.tile "out.tif" ∅ _ eq_refl)
    as (r & Hr & Hcount & _).
  exists r. split; [exact Hr | exact Hcount].
Defined.

Lemma exported_pixels_fit_dtype_witness :
  (dtype_min np.uint8 <= 44 <= dtype_max np.uint8)%Z.
Proof.
  eapply (exported_pixels_fit_dtype (env := Sample.export_env)
            (ExportToTiff.with_date_indices
               (ExportToTiff.with_band_indices (ExportToTiff.default (DATA, "cube"))
                                               (SelList [PyInt 1]))
               (SelList [PyInt 2]))
            Sample2.tile Sample2.tile "out.tif" ∅ _ _ 1 1 0 44).
  - reflexivity.
  - vm_compute. reflexivity.
  - vm_compute. reflexivity.
Defined.

Lemma export_exact_when_values_fit_witness :
  exists r,
    snd (ExportToTiff.execute (ExportToTiff.default (DATA, "ndvi")) Sample.tile "out.tif" ∅)
    !! "./out.tif" = Some r /\
    pixel r 1 0 0 = np.get Sample.data_3x1x1x1 [0; 0; 0; 0].
Proof.
  destruct (export_exact_when_values_fit (env := Sample.export_env)
              (ExportToTiff.default (DATA, "ndvi")) Sample.tile Sample.tile "out.tif" ∅ _
              Sample.data_3x1x1x1 ltac:(vm_compute; reflexivity)
              ltac:(repeat constructor; vm_compute; discriminate) eq_refl)
    as (array_sub & T & H & W & B & r & Hc & Hs & Hr & Hpx).
  vm_compute in Hc. injection Hc as <-. injection Hs as <- <- <- <-.
  exists r. split; [exact Hr|].
  rewrite (Hpx 1 0 0) by (simpl; lia). reflexivity.
Defined.

Lemma exported_pixels_of_index_lists_witness :
  exists r,
    snd (ExportToTiff.execute
           (ExportToTiff.with_date_indices
              (ExportToTiff.with_band_indices (ExportToTiff.default (DATA, "cube"))
                                              (SelList [PyInt 1; PyInt 0]))
              (SelList [PyInt (-1); PyInt 0]))
           Sample2.tile "out.tif" ∅)
    !! "./out.tif" = Some r /\
    p_count (r_profile r) = 4 /\
    pixel r 1 1 0 = Some 44%Z /\
    pixel r 4 0 0 = Some 1%Z.
Proof.
  set (fs' := snd (ExportToTiff.execute
                   (ExportToTiff.with_date_indices
                      (ExportToTiff.with_band_indices (ExportToTiff.default (DATA, "cube"))
                                                      (SelList [PyInt 1; PyInt 0]))
                      (SelList [PyInt (-1); PyInt 0]))
                   Sample2.tile "out.tif" ∅)).
  destruct (exported_pixels_of_index_lists (env := Sample.export_env)
              (ExportToTiff.with_date_indices
                 (ExportToTiff.with_band_indices (ExportToTiff.default (DATA, "cube"))
                                                 (SelList [PyInt 1; PyInt 0]))
                 (SelList [PyInt (-1); PyInt 0]))
              Sample2.tile Sample2.tile "out.tif" ∅ fs' Sample2.data_3x2x1x2 3 2 1 2
              [-1; 0]%Z [1; 0]%Z)
    as (r & Hr & Hcount & Hpx).
  - left. reflexivity.
  - vm_compute. reflexivity.
  - reflexivity.
  - reflexivity.
  - reflexivity.
  - discriminate.
  - repeat constructor; lia.
  - reflexivity.
  - discriminate.
  - repeat constructor; lia.
  - reflexivity.
  - exists r. split; [exact Hr|]. split; [exact Hcount|].
    rewrite (Hpx 1 1 0), (Hpx 4 0 0) by (simpl; lia). split; reflexivity.
Defined.

Lemma default_export_is_first_time_first_band_witness :
  exists r,
    snd (ExportToTiff.execute (ExportToTiff.default (DATA, "cube")) Sample2.tile
           "out.tif" ∅)
    !! "./out.tif" = Some r /\
    p_count (r_profile r) = 1 /\
    pixel r 1 1 0 = Some 3%Z.
Proof.
  set (fs' := snd (ExportToTiff.execute
                   (ExportToTiff.default (DATA, "cube"))
                   Sample2.tile "out.tif" ∅)).
  destruct (default_export_is_first_time_first_band (env := Sample.export_env)
              (DATA, "cube") Sample2.tile Sample2.tile "out.tif" ∅ fs'
              Sample2.data_3x2x1x2 3 2 1 2)
    as (r & Hr & Hcount & Hpx).
  - left. reflexivity.
  - vm_compute. reflexivity.
  - reflexivity.
  - reflexivity.
  - lia.
  - lia.
  - reflexivity.
  - exists r. split; [exact Hr|]. split; [exact Hcount|].
    rewrite (Hpx 1 0) by lia. reflexivity.
Defined.

Lemma export_one_band_or_one_time_in_list_order_witness :
  exists r,
    snd (ExportToTiff.execute
           (ExportToTiff.with_date_indices
              (ExportToTiff.with_band_indices (ExportToTiff.default (DATA, "cube"))
                                              (SelList [PyInt 1]))
              (SelList [PyInt 2; PyInt 0]))
           Sample2.tile "out.tif" ∅)
    !! "./out.tif" = Some r /\
    p_count (r_profile r) = 2 /\
    pixel r 1 0 0 = Some 10%Z /\
    pixel r 2 0 0 = Some 2%Z.
Proof.
  set (fs' := snd (ExportToTiff.execute
                   (ExportToTiff.with_date_indices
                      (ExportToTiff.with_band_indices (ExportToTiff.default (DATA, "cube"))
                                                      (SelList [PyInt 1]))
                      (SelList [PyInt 2; PyInt 0]))
                   Sample2.tile "out.tif" ∅)).
  destruct (export_one_band_or_one_time_in_list_order (env := Sample.export_env)
              (ExportToTiff.with_date_indices
                 (ExportToTiff.with_band_indices (ExportToTiff.default (DATA, "cube"))
                                                 (SelList [PyInt 1]))
                 (SelList [PyInt 2; PyInt 0]))
              Sample2.tile Sample2.tile "out.tif" ∅ fs' Sample2.data_3x2x1x2 3 2 1 2
              [2; 0]%Z [1]%Z)
    as (r & Hr & Hband & _).
  - left. reflexivity.
  - vm_compute. reflexivity.
  - reflexivity.
  - reflexivity.
  - reflexivity.
  - discriminate.
  - repeat constructor; lia.
  - reflexivity.
  - discriminate.
  - repeat constructor; lia.
  - reflexivity.
  - destruct (Hband 1%Z eq_refl) as [Hcount Hpx].
    exists r. split; [exact Hr|]. split; [exact Hcount|].
    rewrite (Hpx 1 0 0), (Hpx 2 0 0) by (simpl; lia). split; reflexivity.
Defined.

Lemma export_timeless_bands_in_list_order_witness :
  exists r,
    snd (ExportToTiff.execute
           (ExportToTiff.with_date_indices
              (ExportToTiff.with_band_indices (ExportToTiff.default (MASK_TIMELESS, "lulc"))
                                              (SelList [PyInt 3; PyInt 0]))
              (SelOther PyNone))
           Sample.tile "out.tif" ∅)
    !! "./out.tif" = Some r /\
    p_count (r_profile r) = 2 /\
    pixel r 1 0 0 = Some 13%Z /\
    pixel r 2 0 0 = Some 10%Z.
Proof.
  set (fs' := snd (ExportToTiff.execute
                   (ExportToTiff.with_date_indices
                      (ExportToTiff.with_band_indices
                         (ExportToTiff.default (MASK_TIMELESS, "lulc"))
                         (SelList [PyInt 3; PyInt 0]))
                      (SelOther PyNone))
                   Sample.tile "out.tif" ∅)).
  destruct (export_timeless_bands_in_list_order (env := Sample.export_env)
              (ExportToTiff.with_date_indices
                 (ExportToTiff.with_band_indices
                    (ExportToTiff.default (MASK_TIMELESS, "lulc"))
                    (SelList [PyInt 3; PyInt 0]))
                 (SelOther PyNone))
              Sample.tile Sample.tile "out.tif" ∅ fs' Sample.mask_1x1x4 1 1 4 [3; 0]%Z)
    as (r & Hr & Hcount & Hpx).
  - right. reflexivity.
  - vm_compute. reflexivity.
  - reflexivity.
  - reflexivity.
  - reflexivity.
  - discriminate.
  - repeat constructor; lia.
  - reflexivity.
  - exists r. split; [exact Hr|]. split; [exact Hcount|].
    rewrite (Hpx 1 0 0), (Hpx 2 0 0) by (simpl; lia). split; reflexivity.
Defined.

Lemma import_holds_what_was_read_witness :
  exists attached,
    features (snd (ReadFromTiff.execute (ReadFromTiff.mk "a.tif" "m") Sample.tile
                     (Some 3%Z) (Some 2%Z)))
    !! (MASK_TIMELESS, "m") = Some attached /\
    np.get attached [2; 1; 0] = Some 121%Z /\
    np.get attached [2; 1; 1] = Some 221%Z.
Proof.
  destruct (import_holds_what_was_read (env := Sample.import_env)
              (ReadFromTiff.mk "a.tif" "m") Sample.tile _ (Some 3%Z) (Some 2%Z) eq_refl)
    as (src & w & h & window & attached & Hopen & Hwh & Hwin & Hfeat & Hshape & Hread).
  injection Hopen as <-. injection Hwh as <- <-. injection Hwin as <-.
  exists attached. split; [exact Hfeat|].
  destruct (Hread 0 ltac:(simpl; lia)) as (px0 & Hpx0 & Hval0).
  destruct (Hread 1 ltac:(simpl; lia)) as (px1 & Hpx1 & Hval1).
  injection Hpx0 as <-. injection Hpx1 as <-.
  rewrite (Hval0 2 1), (Hval1 2 1) by (simpl; lia). split; reflexivity.
Defined.

Lemma import_changes_only_its_attribute_witness :
  features (snd (ReadFromTiff.execute (ReadFromTiff.mk "a.tif" "m") Sample.tile None None))
  !! (DATA, "ndvi")
  = Some Sample.data_3x1x1x1.
Proof.
  destruct (import_changes_only_its_attribute (env := Sample.import_env)
              (ReadFromTiff.mk "a.tif" "m") Sample.tile _ None None eq_refl)
    as (Hsnd & _ & _ & Hother).
  rewrite Hsnd, Hother by discriminate. vm_compute. reflexivity.
Defined.

Lemma import_negative_extent_raises_witness :
  ReadFromTiff.execute (ReadFromTiff.mk "a.tif" "m") Sample.tile (Some (-3)%Z) (Some 2%Z)
  = (Raise (ValueError NegativeDimensions), Sample.tile).
Proof.
  apply (import_negative_extent_raises (env := Sample.import_env) _ _ _ _
           (Sample.source 2) (-3) 2).
  - reflexivity.
  - reflexivity.
  - left. lia.
Defined.

(** * Scalar attributes and the profile of the written raster *)

Lemma in_bounds_1 (d0 i0 : nat) : i0 < d0 -> np.in_bounds [d0] [i0] = true.
Proof.
  intros H0. unfold np.in_bounds. simpl.
  destruct (Nat.ltb_spec i0 d0); [reflexivity | lia].
Qed.

Lemma get_expand_dims_1_1 (a : np.ndarray) (d0 d1 t b : nat) :
  np.shape a = [d0; d1] ->
  np.get (np.expand_dims (np.expand_dims a 1) 1) [t; 0; 0; b] = np.get a [t; b].
Proof.
  intros Hs. unfold np.get, np.expand_dims, np.in_bounds, np.offset.
  cbn [np.shape np.data]. rewrite Hs. simpl.
  destruct (t <? d0), (b <? d1); simpl; try reflexivity.
  f_equal. lia.
Qed.

Section Scalars.
Context `{env : ExportEnv}.
Import ExportToTiff.

(** X21: a per-timestamp scalar attribute (time x band) selected by two
    lists of integers is written as a raster of one pixel: file band [k] holds,
    cast to the pixel type, the value of time [ds[(k - 1) / n]] and band
    [bs[(k - 1) mod n]], where [n] is the number of band indices. *)
Theorem export_scalar_is_one_pixel (self : t) (eopatch eopatch' : EOPatch)
    (filename : string) (fs fs' : filesystem) (array : np.ndarray) (T B : nat)
    (ds bs : list Z) :
  fst (feature self) = SCALAR ->
  features eopatch !! feature self = Some array ->
  np.wf array ->
  np.shape array = [T; B] ->
  date_indices self = SelList (map PyInt ds) -> ds <> [] ->
  Forall (fun i => (- Z.of_nat T <= i < Z.of_nat T)%Z) ds ->
  band_indices self = SelList (map PyInt bs) -> bs <> [] ->
  Forall (fun b => (- Z.of_nat B <= b < Z.of_nat B)%Z) bs ->
  execute self eopatch filename fs = (Ok eopatch', fs') ->
  exists r,
    fs' !! path_join (folder self) filename = Some r /\
    p_width (r_profile r) = 1 /\ p_height (r_profile r) = 1 /\
    p_count (r_profile r) = length ds * length bs /\
    forall k,
      1 <= k <= length ds * length bs ->
      pixel r k 0 0
      = np.cast (image_dtype self)
          <$> np.get array [wrap T (nth ((k - 1) / length bs) ds 0%Z);
                            wrap B (nth ((k - 1) mod length bs) bs 0%Z)].
Proof.
  intros Hft Hfeat Hwf Hs Hdsel Hdne Hdrange Hbsel Hbne Hbrange Hex.
  assert (Hn : np.last_dim array = Ok B) by (unfold np.last_dim; rewrite Hs; reflexivity).
  pose proof (get_bands_subset_int_list self array bs B Hbsel Hbne Hn Hbrange) as Hbands.
  set (a1 := np.take_last array (map (wrap B) bs)) in *.
  assert (Hs1 : np.shape a1 = [T; length bs]).
  { unfold a1. rewrite take_last_shape, Hs, List.length_map. reflexivity. }
  pose proof (get_dates_subset_int_list self a1 (timestamp eopatch) ds T _
                Hdsel Hdne Hs1 Hdrange) as Hdates.
  set (a2 := np.take_first a1 (map (wrap T) ds)) in *.
  assert (Hs2 : np.shape a2 = [length ds; length bs]).
  { unfold a2. rewrite take_first_shape, Hs1, List.length_map. reflexivity. }
  set (a3 := np.expand_dims (np.expand_dims a2 1) 1).
  assert (Hc : canonical_array self eopatch = Ok a3).
  { unfold canonical_array, get_feature. rewrite Hfeat. simpl. rewrite Hbands. simpl.
    rewrite Hft. simpl. rewrite Hdates. reflexivity. }
  assert (Hs3 : np.shape a3 = [length ds; 1; 1; length bs]).
  { unfold a3, np.expand_dims. cbn [np.shape]. rewrite Hs2. reflexivity. }
  apply execute_Ok in Hex.
  destruct Hex as (_ & array_sub & T' & H' & W' & B' & dst_transform & Hc' & Hs' & Hfs).
  rewrite Hc in Hc'. injection Hc' as <-.
  rewrite Hs3 in Hs'. injection Hs' as <- <- <- <-.
  eexists. split; [exact Hfs|]. repeat split.
  intros k Hk.
  assert (HB : length bs <> 0) by nia.
  assert (Ht : (k - 1) / length bs < length ds)
    by (apply Nat.Div0.div_lt_upper_bound; lia).
  assert (Hb : (k - 1) mod length bs < length bs) by (by apply Nat.mod_upper_bound).
  rewrite (written_pixel a3 (length ds) 1 1 (length bs));
    try assumption; try reflexivity; try lia;
    [|unfold a3; repeat apply expand_dims_wf; apply take_first_wf].
  f_equal. unfold a3. rewrite (get_expand_dims_1_1 a2 _ _ _ _ Hs2). unfold a2.
  rewrite (take_first_get a1 _ [(k - 1) mod length bs] _ T [length bs]);
    [| apply take_last_wf | exact Hs1 | by apply wrap_positions_lt
     | by apply in_bounds_1 | by rewrite List.length_map].
  rewrite nth_map_wrap by exact Ht.
  assert (Hq : wrap T (nth ((k - 1) / length bs) ds 0%Z) < T).
  { rewrite List.Forall_forall in Hdrange.
    apply (normalize_index_mod T), Hdrange, nth_In, Ht. }
  unfold a1.
  change [wrap T (nth ((k - 1) / length bs) ds 0%Z); (k - 1) mod length bs]
    with ([wrap T (nth ((k - 1) / length bs) ds 0%Z)] ++ [(k - 1) mod length bs]).
  rewrite (take_last_get array _ _ _ B Hwf Hn);
    [| by apply wrap_positions_lt
     | rewrite Hs; by apply in_bounds_1
     | by rewrite List.length_map].
  rewrite nth_map_wrap by exact Hb. reflexivity.
Qed.

(** X22: a timeless scalar attribute (a vector) selected by a list of
    integers is written as a raster of one pixel with one band per index: file
    band [k] holds, cast to the pixel type, element [bs[k - 1]]. *)
Theorem export_scalar_timeless_is_one_pixel (self : t) (eopatch eopatch' : EOPatch)
    (filename : string) (fs fs' : filesystem) (array : np.ndarray) (B : nat)
    (bs : list Z) :
  fst (feature self) = SCALAR_TIMELESS ->
  features eopatch !! feature self = Some array ->
  np.wf array ->
  np.shape array = [B] ->
  band_indices self = SelList (map PyInt bs) -> bs <> [] ->
  Forall (fun b => (- Z.of_nat B <= b < Z.of_nat B)%Z) bs ->
  execute self eopatch filename fs = (Ok eopatch', fs') ->
  exists r,
    fs' !! path_join (folder self) filename = Some r /\
    p_width (r_profile r) = 1 /\ p_height (r_profile r) = 1 /\
    p_count (r_profile r) = length bs /\
    forall k,
      1 <= k <= length bs ->
      pixel r k 0 0
      = np.cast (image_dtype self) <$> np.get array [wrap B (nth (k - 1) bs 0%Z)].
Proof.
  intros Hft Hfeat Hwf Hs Hbsel Hbne Hbrange Hex.
  assert (Hn : np.last_dim array = Ok B) by (unfold np.last_dim; rewrite Hs; reflexivity).
  pose proof (get_bands_subset_int_list self array bs B Hbsel Hbne Hn Hbrange) as Hbands.
  set (a1 := np.take_last array (map (wrap B) bs)) in *.
  assert (Hs1 : np.shape a1 = [length bs]).
  { unfold a1. rewrite take_last_shape, Hs, List.length_map. reflexivity. }
  set (a2 := np.expand_dims a1 0).
  assert (Hs2 : np.shape a2 = [1; length bs]).
  { unfold a2, np.expand_dims. cbn [np.shape]. rewrite Hs1. reflexivity. }
  set (a3 := np.expand_dims (np.expand_dims a2 1) 1).
  assert (Hc : canonical_array self eopatch = Ok a3).
  { unfold canonical_array, get_feature. rewrite Hfeat. simpl. rewrite Hbands. simpl.
    rewrite Hft. reflexivity. }
  assert (Hs3 : np.shape a3 = [1; 1; 1; length bs]).
  { unfold a3, np.expand_dims. cbn [np.shape]. rewrite Hs2. reflexivity. }
  apply execute_Ok in Hex.
  destruct Hex as (_ & array_sub & T' & H' & W' & B' & dst_transform & Hc' & Hs' & Hfs).
  rewrite Hc in Hc'. injection Hc' as <-.
  rewrite Hs3 in Hs'. injection Hs' as <- <- <- <-.
  eexists. split; [exact Hfs|]. repeat split; [simpl; lia|].
  intros k Hk.
  rewrite (written_pixel a3 1 1 1 (length bs));
    try assumption; try reflexivity; try lia;
    [|unfold a3, a2; repeat apply expand_dims_wf; apply take_last_wf].
  rewrite Nat.div_small, Nat.mod_small by lia.
  f_equal. unfold a3. rewrite (get_expand_dims_1_1 a2 _ _ _ _ Hs2).
  unfold a2. rewrite get_expand_dims_0. unfold a1.
  change [k - 1] with ([] ++ [k - 1]).
  rewrite (take_last_get array _ _ _ B Hwf Hn);
    [| by apply wrap_positions_lt
     | rewrite Hs; reflexivity
     | rewrite List.length_map; lia].
  rewrite nth_map_wrap by lia. reflexivity.
Qed.

End Scalars.

Section Profile.
Context `{env : ExportEnv}.
Import ExportToTiff.

(** X23: the raster a successful call writes has the height and width of
    the canonical array, one band per selected time and band, the configured
    pixel type and no-data value, the reference system of the tile's bounding
    box, and the transform that [from_bounds] gives for that bounding box and
    that width and height. *)
Theorem exported_profile (self : t) (eopatch eopatch' : EOPatch) (filename : string)
    (fs fs' : filesystem) :
  execute self eopatch filename fs = (Ok eopatch', fs') ->
  exists array_sub T B r,
    canonical_array self eopatch = Ok array_sub /\
    fs' !! path_join (folder self) filename = Some r /\
    np.shape array_sub = [T; p_height (r_profile r); p_width (r_profile r); B] /\
    p_count (r_profile r) = T * B /\
    p_dtype (r_profile r) = image_dtype self /\
    p_nodata (r_profile r) = no_data_value self /\
    p_crs (r_profile r) = ogc_string (crs (bbox eopatch)) /\
    from_bounds (bbox eopatch) (p_width (r_profile r)) (p_height (r_profile r))
    = Ok (p_transform (r_profile r)).
Proof.
  unfold execute. intros Hex.
  destruct (canonical_array self eopatch) as [array_sub|] eqn:Hc; [|discriminate].
  destruct (np.shape array_sub) as [|T [|H [|W [|B [|]]]]] eqn:Hs; try discriminate.
  cbn [unpack_shape] in Hex.
  destruct (from_bounds (bbox eopatch) W H) as [dst_transform|] eqn:Hfrom; [|discriminate].
  destruct (open_for_writing _ _); [discriminate|].
  rewrite (reshape_moved (np.astype array_sub (image_dtype self)) T H W B Hs) in Hex.
  destruct (write_bands _ _); [discriminate|].
  injection Hex as <- <-.
  eexists array_sub, T, B, _. split; [reflexivity|].
  split; [apply lookup_insert_eq|].
  cbn [r_profile p_height p_width p_count p_dtype p_nodata p_crs p_transform].
  repeat split; [exact Hs | exact Hfrom].
Qed.

End Profile.

Section WindowFailure.
Context `{env : ImportEnv}.
Import ReadFromTiff.


End WindowFailure.

Lemma export_scalar_is_one_pixel_witness :
  exists r,
    snd (ExportToTiff.execute
           (ExportToTiff.with_date_indices
              (ExportToTiff.with_band_indices (ExportToTiff.default (SCALAR, "mean"))
                                              (SelList [PyInt 1; PyInt 0]))
              (SelList [PyInt 2]))
           Sample2.scalars "out.tif" ∅)
    !! "./out.tif" = Some r /\
    p_count (r_profile r) = 2 /\
    pixel r 1 0 0 = Some 32%Z /\
    pixel r 2 0 0 = Some 31%Z.
Proof.
  set (fs' := snd (ExportToTiff.execute
                     (ExportToTiff.with_date_indices
                        (ExportToTiff.with_band_indices
                           (ExportToTiff.default (SCALAR, "mean"))
                           (SelList [PyInt 1; PyInt 0]))
                        (SelList [PyInt 2]))
                     Sample2.scalars "out.tif" ∅)).
  destruct (export_scalar_is_one_pixel (env := Sample.export_env)
              (ExportToTiff.with_date_indices
                 (ExportToTiff.with_band_indices (ExportToTiff.default (SCALAR, "mean"))
                                                 (SelList [PyInt 1; PyInt 0]))
                 (SelList [PyInt 2]))
              Sample2.scalars Sample2.scalars "out.tif" ∅ fs' Sample2.scalar_3x2 3 2
              [2]%Z [1; 0]%Z)
    as (r & Hr & _ & _ & Hcount & Hpx).
  - reflexivity.
  - vm_compute. reflexivity.
  - reflexivity.
  - reflexivity.
  - reflexivity.
  - discriminate.
  - repeat constructor; lia.
  - reflexivity.
  - discriminate.
  - repeat constructor; lia.
  - reflexivity.
  - exists r. split; [exact Hr|]. split; [exact Hcount|].
    rewrite (Hpx 1), (Hpx 2) by (simpl; lia). split; reflexivity.
Defined.

Lemma export_scalar_timeless_is_one_pixel_witness :
  exists r,
    snd (ExportToTiff.execute
           (ExportToTiff.with_band_indices (ExportToTiff.default (SCALAR_TIMELESS, "total"))
                                           (SelList [PyInt (-1); PyInt 0]))
           Sample2.scalars "out.tif" ∅)
    !! "./out.tif" = Some r /\
    p_count (r_profile r) = 2 /\
    pixel r 1 0 0 = Some 7%Z /\
    pixel r 2 0 0 = Some 5%Z.
Proof.
  set (fs' := snd (ExportToTiff.execute
                     (ExportToTiff.with_band_indices
                        (ExportToTiff.default (SCALAR_TIMELESS, "total"))
                        (SelList [PyInt (-1); PyInt 0]))
                     Sample2.scalars "out.tif" ∅)).
  destruct (export_scalar_timeless_is_one_pixel (env := Sample.export_env)
              (ExportToTiff.with_band_indices
                 (ExportToTiff.default (SCALAR_TIMELESS, "total"))
                 (SelList [PyInt (-1); PyInt 0]))
              Sample2.scalars Sample2.scalars "out.tif" ∅ fs' Sample2.scalar_timeless_3 3
              [-1; 0]%Z)
    as (r & Hr & _ & _ & Hcount & Hpx).
  - reflexivity.
  - vm_compute. reflexivity.
  - reflexivity.
  - reflexivity.
  - reflexivity.
  - discriminate.
  - repeat constructor; lia.
  - reflexivity.
  - exists r. split; [exact Hr|]. split; [exact Hcount|].
    rewrite (Hpx 1), (Hpx 2) by (simpl; lia). split; reflexivity.
Defined.

Lemma exported_profile_witness :
  exists r,
    snd (ExportToTiff.execute (ExportToTiff.default (DATA, "cube")) Sample2.tile
           "out.tif" ∅)
    !! "./out.tif" = Some r /\
    p_height (r_profile r) = 2 /\ p_width (r_profile r) = 1 /\
    p_transform (r_profile r) = mkAffine 200 0 500100 0 (-100) 3999900.
Proof.
  set (fs' := snd (ExportToTiff.execute (ExportToTiff.default (DATA, "cube")) Sample2.tile
                     "out.tif" ∅)).
  destruct (exported_profile (env := Sample.export_env)
              (ExportToTiff.default (DATA, "cube")) Sample2.tile Sample2.tile "out.tif" ∅ fs'
              eq_refl)
    as (array_sub & T & B & r & Hc & Hr & Hs & _ & _ & _ & _ & Hfrom).
  vm_compute in Hc. injection Hc as <-. injection Hs as _ Hh Hw _.
  exists r. split; [exact Hr|]. rewrite <- Hh, <- Hw in *.
  repeat split.
  assert (Hval : from_bounds (bbox Sample2.tile) 1 2
                 = Ok (mkAffine 200 0 500100 0 (-100) 3999900)) by reflexivity.
  rewrite Hval in Hfrom. injection Hfrom as <-. reflexivity.
Defined.

